(** * WebJarvis: the agent control loop and its decision-support subsystems

    A shallow embedding of the Python sources
    [src/error/error_handler.py], [src/error/error_patterns.py],
    [src/agent/action_validator.py], [src/agent/agent_state.py],
    [src/context/token_optimizer.py], [src/context/extractor.py],
    [src/context/manager.py], [src/security/security_layer.py], the
    decision / completion paths of [src/agent/main_agent.py], the
    recommendation of [src/agent/sub_agents.py] and the query_dom action
    of [src/actions/action_executor.py], followed by the properties
    established about them.

    Conventions of the embedding.
    - A Python [str] is a Rocq [string]: the sequence of the bytes of its
      UTF-8 encoding.  The Cyrillic literals of the source are written as
      they are.  Substring tests, equality and concatenation are those of
      the byte sequences; [len] and slicing count characters, not bytes.
      [lower] covers the ASCII letters and the Cyrillic capitals U+0400
      to U+042F and keeps every other character; white space ([split],
      [strip], the class [\s]) is the tab, the line feed, the vertical
      tab, the form feed, the carriage return and the space; a word
      character (the class [\w]) is an ASCII letter, digit or underscore
      or any byte of a character outside ASCII.  On texts made of
      printable ASCII characters, that white space and the Cyrillic
      letters U+0400 to U+045F, the functions agree with those of
      Python.
    - A Python [dict] read through [.get(key, default)] is a record whose
      fields have type [option _] (key absent = [None]) when absence
      matters, and a plain field holding the default otherwise.
    - Calls that leave the repository (the tokenizer, the chat-completion
      client, [json.loads], [re.findall], [hashlib.md5]) are parameters of
      the sections that use them.
    - Mutable objects ([self._token_count_cache], [self.history],
      [self._error_solution_cache], ...) are threaded explicitly. *)

From Stdlib Require Import String Ascii ZArith List Bool Lia DecimalString.
From stdpp Require Import gmap strings list.

(* ================================================================== *)
(** * Part I: the model *)
(* ================================================================== *)

(** ** Python string primitives *)

Module Py.

Definition byte_of (c : ascii) : N := N_of_ascii c.

(** The double quote and the backslash. *)
Definition dq : ascii := ascii_of_nat 34.
Definition backslash : ascii := ascii_of_nat 92.

(** [c.lower()] for an ASCII character. *)
Definition lower_ascii (c : ascii) : ascii :=
  let n := byte_of c in
  if ((65 <=? n) && (n <=? 90))%N then ascii_of_N (n + 32) else c.

(** The UTF-8 encodings of the Cyrillic capitals, U+0400..U+042F, are
    the two-byte sequences [D0 80] .. [D0 AF]. *)
Definition is_cyr_upper (c d : ascii) : bool :=
  ((byte_of c =? 208) && (128 <=? byte_of d) && (byte_of d <=? 175))%N.

(** The lower-case letter of a Cyrillic capital [D0 d]:
    U+0400..U+040F -> U+0450..U+045F ([D1 90..9F]),
    U+0410..U+041F -> U+0430..U+043F ([D0 B0..BF]),
    U+0420..U+042F -> U+0440..U+044F ([D1 80..8F]). *)
Definition cyr_lower (d : ascii) : ascii * ascii :=
  let n := byte_of d in
  if (n <? 144)%N then (ascii_of_N 209, ascii_of_N (n + 16))
  else if (n <? 160)%N then (ascii_of_N 208, ascii_of_N (n + 32))
  else (ascii_of_N 209, ascii_of_N (n - 32)).

(** [s.lower()], on ASCII and Cyrillic text (the two alphabets of the
    keyword tables of the source); other characters are kept. *)
Fixpoint lower (s : string) : string :=
  match s with
  | EmptyString => EmptyString
  | String c rest =>
      match rest with
      | String d rest' =>
          if is_cyr_upper c d
          then String (fst (cyr_lower d)) (String (snd (cyr_lower d)) (lower rest'))
          else String (lower_ascii c) (lower rest)
      | EmptyString => String (lower_ascii c) EmptyString
      end
  end.

(** [needle in hay]. *)
Fixpoint contains (needle hay : string) : bool :=
  String.prefix needle hay ||
  match hay with
  | EmptyString => false
  | String _ hay' => contains needle hay'
  end.

(** [any(kw in hay for kw in kws)]. *)
Definition any_in (kws : list string) (hay : string) : bool :=
  existsb (fun kw => contains kw hay) kws.

(** A byte [10xxxxxx] continues the character started before it. *)
Definition is_continuation (c : ascii) : bool :=
  ((128 <=? byte_of c) && (byte_of c <? 192))%N.

(** [len(s)]: the number of characters, that is of bytes that do not
    continue a character. *)
Fixpoint len (s : string) : nat :=
  match s with
  | EmptyString => 0
  | String a s' => (if is_continuation a then 0 else 1) + len s'
  end.

(** [s[:n]]: the first [n] characters. *)
Fixpoint take (n : nat) (s : string) : string :=
  match s with
  | EmptyString => EmptyString
  | String a s' =>
      if is_continuation a then String a (take n s')
      else match n with
           | 0 => EmptyString
           | S n' => String a (take n' s')
           end
  end.

(** [s.replace(c, "")] for a one-character [c]. *)
Fixpoint remove_char (c : ascii) (s : string) : string :=
  match s with
  | EmptyString => EmptyString
  | String a s' =>
      if Ascii.eqb a c then remove_char c s' else String a (remove_char c s')
  end.

(** [s.replace(pat, "")] for a non-empty [pat]: the occurrences of
    [pat], from left to right, are left out. *)
Fixpoint drop_prefix (pat s : string) : option string :=
  match pat, s with
  | EmptyString, _ => Some s
  | String a pat', String b s' => if Ascii.eqb a b then drop_prefix pat' s' else None
  | String _ _, EmptyString => None
  end.

Fixpoint remove_all_from (fuel : nat) (pat s : string) : string :=
  match fuel with
  | 0 => s
  | S fuel' =>
      match s with
      | EmptyString => EmptyString
      | String a s' =>
          match drop_prefix pat s with
          | Some rest => remove_all_from fuel' pat rest
          | None => String a (remove_all_from fuel' pat s')
          end
      end
  end.

Definition remove_all (pat s : string) : string :=
  remove_all_from (String.length s) pat s.

(** [s.split(c)[0]] and [s.split(c)[1]] (for an [s] that contains [c]):
    the text before the first [c], and the text between the first [c]
    and the next one. *)
Fixpoint before (c : ascii) (s : string) : string :=
  match s with
  | EmptyString => EmptyString
  | String a s' => if Ascii.eqb a c then EmptyString else String a (before c s')
  end.

Fixpoint after (c : ascii) (s : string) : string :=
  match s with
  | EmptyString => EmptyString
  | String a s' => if Ascii.eqb a c then s' else after c s'
  end.

(** The longest prefix of [s] whose characters satisfy [p], and the rest. *)
Fixpoint span (p : ascii -> bool) (s : string) : string * string :=
  match s with
  | EmptyString => (EmptyString, EmptyString)
  | String a s' =>
      if p a then let '(l, r) := span p s' in (String a l, r) else (EmptyString, s)
  end.

(** [sep.join(parts)]. *)
Fixpoint join (sep : string) (parts : list string) : string :=
  match parts with
  | [] => ""
  | [p] => p
  | p :: ps => p +:+ sep +:+ join sep ps
  end.

(** [s.split()]: the maximal runs of non-blank characters. *)
Definition split (s : string) : list string := String.words s.

(** [s.rstrip(chars)], and [s.strip()] for white space. *)
Fixpoint lstrip_by (p : ascii -> bool) (s : string) : string :=
  match s with
  | EmptyString => EmptyString
  | String a s' => if p a then lstrip_by p s' else s
  end.

Definition rstrip_by (p : ascii -> bool) (s : string) : string :=
  String.rev (lstrip_by p (String.rev s)).

Definition char_in (chars : string) (a : ascii) : bool :=
  existsb (Ascii.eqb a) (list_ascii_of_string chars).

Definition rstrip (chars s : string) : string := rstrip_by (char_in chars) s.

Definition strip (s : string) : string :=
  rstrip_by Ascii.is_space (lstrip_by Ascii.is_space s).

(** [s.endswith(c)], [s.count(c)] and [s.rfind(c)] for a one-character
    [c]; [rfind] is [None] where Python returns [-1]. *)
Definition endswith (c : ascii) (s : string) : bool :=
  match String.rev s with
  | String a _ => Ascii.eqb a c
  | EmptyString => false
  end.

Fixpoint count (c : ascii) (s : string) : nat :=
  match s with
  | EmptyString => 0
  | String a s' => (if Ascii.eqb a c then 1 else 0) + count c s'
  end.

Fixpoint rfind_from (i : nat) (c : ascii) (s : string) (last : option nat) : option nat :=
  match s with
  | EmptyString => last
  | String a s' => rfind_from (S i) c s' (if Ascii.eqb a c then Some i else last)
  end.

Definition rfind (c : ascii) (s : string) : option nat := rfind_from 0 c s None.

(** [c * n] for a one-character [c]; empty when [n] is not positive. *)
Definition repeat_char (c : ascii) (n : Z) : string :=
  string_of_list_ascii (repeat c (Z.to_nat n)).

(** ASCII text: every byte is below 128. *)
Definition ascii_only (s : string) : bool :=
  forallb (fun c => (byte_of c <? 128)%N) (list_ascii_of_string s).

(** The text does not start with a byte that could be the second byte
    of a Cyrillic capital. *)
Definition head_plain (s : string) : bool :=
  match s with
  | EmptyString => true
  | String d _ => negb ((128 <=? byte_of d) && (byte_of d <=? 175))%N
  end.

(** Truthiness of a string: [bool(s)]. *)
Definition truthy (s : string) : bool :=
  match s with EmptyString => false | _ => true end.


End Py.

(** ** [src/error/error_patterns.py] *)

Module ErrorPatterns.

Record ErrorPattern := {
  error_keywords : list string;
  solution : string;
  pstrategy : string
}.

(** [ErrorPattern.matches]. *)
Definition matches (p : ErrorPattern) (error_message : string) : bool :=
  let error_lower := Py.lower error_message in
  existsb (fun keyword => Py.contains (Py.lower keyword) error_lower)
          (error_keywords p).

Definition PATTERNS : list ErrorPattern := [
  {| error_keywords := ["element not found"; "элемент не найден"; "selector not found"; "селектор не найден"];
     solution := "Элемент не найден на странице. Попробуйте прокрутить страницу или использовать другое описание элемента.";
     pstrategy := "scroll" |};
  {| error_keywords := ["element is not visible"; "элемент не виден"; "not visible"; "not attached"; "не прикреплен"];
     solution := "Элемент не виден на странице. Прокрутите страницу до элемента или подождите его загрузки.";
     pstrategy := "scroll_to_element" |};
  {| error_keywords := ["intercepts pointer events"; "intercepts"; "перехватывает"; "заблокирован"];
     solution := "Элемент заблокирован другим элементом. Попробуйте закрыть модальные окна или подождать.";
     pstrategy := "wait" |};
  {| error_keywords := ["timeout"; "таймаут"; "timeout exceeded"; "превышен таймаут"];
     solution := "Превышен таймаут ожидания. Элемент еще не загрузился. Подождите и попробуйте снова.";
     pstrategy := "wait" |};
  {| error_keywords := ["page not loaded"; "страница не загружена"; "navigation timeout"; "навигация"];
     solution := "Страница еще не загрузилась полностью. Подождите загрузки страницы.";
     pstrategy := "wait" |};
  {| error_keywords := ["invalid selector"; "неверный селектор"; "malformed selector"; "неправильный селектор"];
     solution := "Неверный селектор элемента. Попробуйте использовать другое описание элемента.";
     pstrategy := "alternative" |};
  {| error_keywords := ["outside viewport"; "вне viewport"; "not in viewport"; "не в области видимости"];
     solution := "Элемент находится вне области видимости. Прокрутите страницу до элемента.";
     pstrategy := "scroll_to_element" |};
  {| error_keywords := ["element is disabled"; "элемент отключен"; "disabled"; "неактивен"];
     solution := "Элемент отключен и недоступен для взаимодействия. Попробуйте другой элемент или подождите активации.";
     pstrategy := "wait" |};
  {| error_keywords := ["Page.evaluate() takes from 2 to 3 positional arguments but"; "takes from 2 to 3 positional arguments"];
     solution := "Ошибка при извлечении текста из элемента. Попробуйте прокрутить страницу (scroll) и использовать extract_text с другим описанием элемента или извлечь видимый текст страницы другим способом.";
     pstrategy := "scroll" |};
  {| error_keywords := ["не удалось найти элемент"; "элемент не найден для извлечения"; "для извлечения текста"];
     solution := "Элемент для извлечения текста не найден. НЕ ПОВТОРЯЙ extract_text с тем же описанием! Вместо этого: 1) Прокрутите страницу (scroll), 2) Попробуйте extract_text с другим описанием, 3) Используйте видимый текст страницы.";
     pstrategy := "scroll" |};
  {| error_keywords := ["not clickable"; "не кликабельный"; "element is not clickable"; "cannot click"];
     solution := "Элемент не кликабельный. Попробуйте прокрутить страницу до элемента или использовать другой элемент.";
     pstrategy := "scroll" |};
  {| error_keywords := ["element is hidden"; "элемент скрыт"; "hidden"; "display: none"; "visibility: hidden"];
     solution := "Элемент скрыт на странице. Попробуйте прокрутить страницу или подождать его появления.";
     pstrategy := "wait" |};
  {| error_keywords := ["network error"; "ошибка сети"; "net::"; "ERR_"; "failed to fetch"];
     solution := "Ошибка сети. Подождите и попробуйте перезагрузить страницу или повторить действие.";
     pstrategy := "wait" |};
  {| error_keywords := ["detached"; "удален из DOM"; "element is not attached"; "stale element"];
     solution := "Элемент был удален из DOM. Страница изменилась. Обновите информацию о странице и попробуйте снова.";
     pstrategy := "wait" |};
  {| error_keywords := ["javascript error"; "js error"; "execution context"; "evaluation failed"];
     solution := "Ошибка выполнения JavaScript. Попробуйте другой подход или подождите загрузки страницы.";
     pstrategy := "wait" |};
  {| error_keywords := ["iframe"; "frame"; "cross-origin"];
     solution := "Элемент находится в iframe. Используйте специальные методы для работы с iframe или другой элемент.";
     pstrategy := "alternative" |};
  {| error_keywords := ["unauthorized"; "401"; "403"; "forbidden"; "доступ запрещен"];
     solution := "Ошибка авторизации. Проверьте права доступа или выполните вход на сайт.";
     pstrategy := "alternative" |};
  {| error_keywords := ["no response"; "нет ответа"; "connection refused"; "connection timeout"];
     solution := "Страница не отвечает. Подождите и попробуйте перезагрузить страницу.";
     pstrategy := "wait" |}
].

(** [ErrorPatternMatcher.match_error]: the first pattern that matches. *)
Definition match_error (error_message : string) : option ErrorPattern :=
  List.find (fun p => matches p error_message) PATTERNS.

(** [ErrorPatternMatcher.get_solution]: the [solution] and [strategy]
    entries of the returned dict. *)
Definition get_solution (error_message : string) : option (string * string) :=
  match match_error error_message with
  | Some p => Some (solution p, pstrategy p)
  | None => None
  end.

End ErrorPatterns.

(** ** [src/error/error_handler.py] *)

Module ErrorHandler.

(** The dict returned by [_heuristic_error_handling]. *)
Record advice := { suggestion : string; strategy : string }.

(** [ErrorHandler._heuristic_error_handling]. *)
Definition _heuristic_error_handling (error_message action : string) : option advice :=
  let error_lower := Py.lower error_message in
  let has kw := Py.contains kw error_lower in
  let not_found_advice :=
    if has "not found" || has "не найден" || has "element not found" then
      if String.eqb action "click_element" then
        Some {| suggestion := "Элемент не найден на странице. Используйте query_dom для поиска элемента с правильным селектором, прокрутите страницу или попробуйте альтернативное описание элемента.";
                strategy := "scroll" |}
      else if String.eqb action "extract_text" then
        Some {| suggestion := "Элемент не найден. КРИТИЧЕСКИ ВАЖНО: НЕ ПОВТОРЯЙ extract_text с тем же описанием! Прокрутите страницу, используйте другое описание или переходите к следующему шагу задачи.";
                strategy := "scroll" |}
      else if String.eqb action "type_text" then
        Some {| suggestion := "Поле ввода не найдено. Используйте query_dom для поиска поля с правильным селектором или проверьте, открыта ли форма.";
                strategy := "alternative" |}
      else None
    else None in
  match not_found_advice with
  | Some a => Some a
  | None =>
    if has "timeout" || has "таймаут" || has "timed out" then
      Some {| suggestion := "Превышен таймаут ожидания. Страница может загружаться медленно или элемент появляется с задержкой. Подождите загрузки страницы и попробуйте снова.";
              strategy := "wait" |}
    else if has "not visible" || has "не виден" || has "is not visible" then
      Some {| suggestion := "Элемент не виден на экране. Прокрутите страницу до элемента, закройте перекрывающие модальные окна или подождите его появления.";
              strategy := "scroll_to_element" |}
    else if has "disabled" || has "отключен" || has "is disabled" then
      Some {| suggestion := "Элемент отключен и недоступен для взаимодействия. Попробуйте другой элемент, выполните необходимые действия для активации или подождите активации элемента.";
              strategy := "wait" |}
    else if has "intercepted" || has "перекрыт" || has "obscured" || has "is not clickable" then
      Some {| suggestion := "Элемент перекрыт другим элементом (модальное окно, баннер, overlay). Закройте перекрывающие элементы или прокрутите страницу, чтобы элемент стал доступен.";
              strategy := "close_modals" |}
    else if has "invalid selector" || has "неверный селектор" || has "malformed" then
      Some {| suggestion := "Неверный селектор элемента. Используйте query_dom для получения правильного селектора элемента или используйте описание элемента вместо селектора.";
              strategy := "alternative_description" |}
    else if has "page not loaded" || has "страница не загружена" || has "navigation" then
      Some {| suggestion := "Страница еще не загрузилась полностью. Подождите завершения загрузки страницы и попробуйте снова.";
              strategy := "wait" |}
    else if has "out of viewport" || has "вне области видимости" || has "not in viewport" then
      Some {| suggestion := "Элемент находится вне области видимости. Прокрутите страницу до элемента или используйте scroll_to_element.";
              strategy := "scroll_to_element" |}
    else if has "network" || has "сеть" || has "connection" then
      Some {| suggestion := "Ошибка сети при загрузке страницы. Проверьте подключение к интернету и попробуйте снова через несколько секунд.";
              strategy := "wait" |}
    else if has "javascript" || has "js error" || has "script error" then
      Some {| suggestion := "Ошибка JavaScript на странице. Попробуйте другой подход или обновите страницу через navigate.";
              strategy := "alternative" |}
    else if has "detached" || has "stale" || has "удален" then
      Some {| suggestion := "Элемент был удален из DOM или страница изменилась. Обновите контекст страницы через query_dom и попробуйте найти элемент снова.";
              strategy := "alternative" |}
    else None
  end.

(** The lower-cased error text has one of the keywords of the first,
    action-dependent row of the table ([element not found] contains
    [not found]). *)
Definition mentions_not_found (error_message : string) : bool :=
  Py.contains "not found" (Py.lower error_message) ||
  Py.contains "не найден" (Py.lower error_message).

(** [ErrorHandler._extract_strategy_from_suggestion]. *)
Definition _extract_strategy_from_suggestion (suggestion : string) : string :=
  let suggestion_lower := Py.lower suggestion in
  let has kw := Py.contains kw suggestion_lower in
  if (has "поиск" || has "search" || has "поисков") && (has "строк" || has "search") then
    "use_search"
  else if has "прокрут" || has "scroll" then
    if has "и повтори" || has "and retry" || has "повтори" then "scroll_and_retry"
    else if has "до элемента" || has "to element" then "scroll_to_element"
    else "scroll"
  else if has "альтернатив" || has "alternative" || has "другое описание" then
    if has "описание" || has "description" then "alternative_description"
    else "alternative"
  else if has "подождать" || has "wait" || has "загрузк" then "wait"
  else if has "закрыть" || has "close" || has "модальн" then "close_modals"
  else "wait".

(** The [key_data] dict of [_get_cache_key]. *)
Record key_data := { k_action : string; k_error : string; k_context_type : string }.

Definition DIGITS : list ascii :=
  ["0"; "1"; "2"; "3"; "4"; "5"; "6"; "7"; "8"; "9"]%char.

Definition cache_key_data (error_message action context : string) : key_data :=
  let normalized_error :=
    fold_left (fun acc c => Py.remove_char c acc) DIGITS (Py.lower error_message) in
  let context_snippet := Py.lower (Py.take 100 context) in
  {| k_action := action;
     k_error := Py.take 200 normalized_error;
     k_context_type :=
       if Py.contains "модальн" context_snippet || Py.contains "modal" context_snippet
       then "modal"
       else if Py.contains "форма" context_snippet || Py.contains "form" context_snippet
       then "form"
       else if (Py.len context_snippet <? 20)%nat then "empty" else "normal" |}.

(** The entries appended to [self.error_history]. *)
Record error_info := {
  e_error : string; e_action : string; e_retry_count : Z; e_context : string
}.

(** The dict returned by [handle_error]; keys that a branch leaves out
    are [None]. *)
Record error_result := {
  r_success : bool;
  r_error : string;
  r_suggestion : string;
  r_strategy : option string;
  r_should_retry : option bool;
  r_retry_count : option Z
}.

(** The mutable fields of an [ErrorHandler], and the log of the requests
    that [_analyze_error] sent to the chat-completion service. *)
Record handler := {
  error_history : list error_info;
  _error_solution_cache : list (string * advice);
  analysis_requests : list (string * string * string)
}.

Definition max_retries : Z := 3.

(** [d[key]] and [key in d] on an insertion-ordered dict. *)
Fixpoint dict_get {V} (d : list (string * V)) (key : string) : option V :=
  match d with
  | [] => None
  | (k, v) :: d' => if String.eqb k key then Some v else dict_get d' key
  end.

(** [del d[next(iter(d))]] once the dict holds more than [bound] entries. *)
Definition evict_oldest {V} (bound : nat) (d : list (string * V)) : list (string * V) :=
  if (bound <? length d)%nat then tail d else d.

(** [ErrorHandler.__init__]. *)
Definition new_handler : handler :=
  {| error_history := []; _error_solution_cache := []; analysis_requests := [] |}.

Section WithOracle.

(** [hashlib.md5(json.dumps(key_data, sort_keys=True).encode()).hexdigest()]. *)
Variable digest : key_data -> string.

(** The text that [_analyze_error] returns for an error, an action
    and a page context: the answer of the service, or the fixed
    fallback sentence when the call raises. *)
Variable analyze_error : string -> string -> string -> string.

Definition _get_cache_key (error_message action context : string) : string :=
  digest (cache_key_data error_message action context).

(** [ErrorHandler.handle_error]; [error] is [str(error)]. *)
Definition handle_error (h : handler) (error action context : string)
    (retry_count : Z) : error_result * handler :=
  let h1 := {| error_history :=
                 error_history h ++
                   [{| e_error := error; e_action := action;
                       e_retry_count := retry_count;
                       e_context := Py.take 500 context |}];
               _error_solution_cache := _error_solution_cache h;
               analysis_requests := analysis_requests h |} in
  if (max_retries <=? retry_count)%Z then
    ({| r_success := false; r_error := error;
        r_suggestion := "Превышен лимит попыток. Требуется помощь пользователя.";
        r_strategy := None; r_should_retry := None; r_retry_count := None |}, h1)
  else
    let error_message := error in
    let '(suggestion, strategy, h2) :=
      match _heuristic_error_handling error_message action with
      | Some heuristic_result =>
          (ErrorHandler.suggestion heuristic_result,
           ErrorHandler.strategy heuristic_result, h1)
      | None =>
          match ErrorPatterns.get_solution error_message with
          | Some (solution, pstrategy) =>
              (if String.eqb action "extract_text"
               then solution +:+ " ВАЖНО: НЕ ПОВТОРЯЙ extract_text с тем же описанием! Используй альтернативные стратегии."
               else solution,
               pstrategy, h1)
          | None =>
              let cache_key := _get_cache_key error_message action context in
              match dict_get (_error_solution_cache h1) cache_key with
              | Some cached_solution =>
                  (ErrorHandler.suggestion cached_solution,
                   ErrorHandler.strategy cached_solution, h1)
              | None =>
                  let suggestion := analyze_error error action context in
                  let strategy := _extract_strategy_from_suggestion suggestion in
                  (suggestion, strategy,
                   {| error_history := error_history h1;
                      _error_solution_cache :=
                        evict_oldest 200
                          (_error_solution_cache h1 ++
                             [(cache_key, {| suggestion := suggestion;
                                             strategy := strategy |})]);
                      analysis_requests :=
                        analysis_requests h1 ++ [(error, action, context)] |})
              end
          end
      end in
    ({| r_success := false; r_error := error_message;
        r_suggestion := suggestion; r_strategy := Some strategy;
        r_should_retry := Some (retry_count <? max_retries)%Z;
        r_retry_count := Some (retry_count + 1)%Z |}, h2).

End WithOracle.

(** [ErrorHandler.should_retry]. *)
Definition should_retry (error_result : error_result) : bool :=
  default false (r_should_retry error_result)
  && (default 0 (r_retry_count error_result) <? max_retries)%Z.

(** [ErrorHandler.get_retry_strategy]. *)
Definition get_retry_strategy (error_result : error_result) : string :=
  match r_strategy error_result with
  | Some strategy =>
      if Py.truthy strategy then strategy
      else _extract_strategy_from_suggestion (r_suggestion error_result)
  | None => _extract_strategy_from_suggestion (r_suggestion error_result)
  end.

(** [ErrorHandler.clear_history]. *)
Definition clear_history (h : handler) : handler :=
  {| error_history := []; _error_solution_cache := _error_solution_cache h;
     analysis_requests := analysis_requests h |}.

(** The names that the handler uses for its recovery strategies. *)
Definition STRATEGIES : list string :=
  ["use_search"; "scroll_and_retry"; "scroll_to_element"; "scroll";
   "alternative_description"; "alternative"; "wait"; "close_modals"].

(** Stand-ins for the two parameters, for evaluating [handle_error] on
    concrete inputs: an injective rendering of the key, and a service
    that always gives the same answer. *)
Definition sample_digest (k : key_data) : string :=
  k_action k +:+ "|" +:+ k_error k +:+ "|" +:+ k_context_type k.

Definition sample_analyze (error action context : string) : string :=
  "Попробуй прокрутить страницу или использовать другой подход.".

End ErrorHandler.

(** ** Action results and action parameters *)

Module Data.

(** The parameter dict of a decision.  The entries read by the modules
    below ([description], [element_description], [url], [query],
    [text], [summary]) are strings. *)
Abbreviation params := (gmap string string).

(** [d.get(key, "")]. *)
Definition pget (d : params) (key : string) : string :=
  default "" (d !! key).

(** The [new_elements] entry of an action result. *)
Record new_elements_info := {
  new_modals : bool;
  new_forms : bool;
  new_interactive_elements : bool
}.

Definition no_new_elements : new_elements_info :=
  {| new_modals := false; new_forms := false; new_interactive_elements := false |}.

(** The dict returned by the action backend, with the entries added by
    [MainAgent.execute_task].  A field holds the value that
    [.get(key, default)] returns; [error] and [new_elements] keep the
    absence of the key. *)
Record action_result := {
  success : bool;
  error : option string;
  message : string;
  url : string;
  text : string;
  answer : string;
  page_changed : bool;
  url_before : string;
  url_after : string;
  title_before : string;
  title_after : string;
  dom_changed : bool;
  new_elements : option new_elements_info;
  modal_detected : bool;
  modal_has_form : bool;
  modal_input_count : Z;
  form_detected : bool;
  form_count : Z
}.

Global Instance new_elements_info_eq_dec : EqDecision new_elements_info.
Proof. solve_decision. Defined.

Global Instance action_result_eq_dec : EqDecision action_result.
Proof. solve_decision. Defined.

(** [action_result.get("new_elements", {})]. *)
Definition new_elements_of (r : action_result) : new_elements_info :=
  default no_new_elements (new_elements r).

(** The result of an action that succeeded and left the page as it
    was; the other results of the examples override some of its
    fields. *)
Definition quiet_success : action_result :=
  {| success := true; error := None; message := ""; url := ""; text := "";
     answer := ""; page_changed := false;
     url_before := "https://example.com"; url_after := "https://example.com";
     title_before := "Example Domain"; title_after := "Example Domain";
     dom_changed := false; new_elements := Some no_new_elements;
     modal_detected := false; modal_has_form := false; modal_input_count := 0;
     form_detected := false; form_count := 0 |}.

(** [l[-k:]]: the last [k] elements, and the whole list when [k] is 0. *)
Definition slice_last {A} (k : nat) (l : list A) : list A :=
  match k with
  | 0 => l
  | _ => drop (length l - k) l
  end.

(** [str(n)] for an integer. *)
Definition str_of_Z (n : Z) : string :=
  DecimalString.NilZero.string_of_int (Z.to_int n).

End Data.

(** ** [src/agent/action_validator.py] *)

Module ActionValidator.
Import Data.

Definition CRITICAL_ACTIONS : list string := ["navigate"; "click_element"; "type_text"].

(** [ActionResultValidator._is_critical_action]. *)
Definition _is_critical_action (action : string) : bool :=
  bool_decide (action ∈ CRITICAL_ACTIONS).

(** The dict returned by [_heuristic_validation]. *)
Record verdict := {
  v_is_valid : bool;
  v_message : string;
  v_suggestions : list string
}.

(** [ActionResultValidator._heuristic_validation]; [None] when no rule
    of the first tier decides. *)
Definition _heuristic_validation (action : string) (action_result : action_result)
    : option verdict :=
  let success := success action_result in
  let page_changed := page_changed action_result in
  let new_elements := new_elements_of action_result in
  let has_new_modals := new_modals new_elements in
  let has_new_forms := new_forms new_elements in
  if negb success then
    let error := default "Unknown error" (error action_result) in
    Some {| v_is_valid := false;
            v_message := "Действие завершилось ошибкой: " +:+ error;
            v_suggestions := ["Проверьте селектор элемента"; "Попробуйте другой подход"] |}
  else if String.eqb action "navigate" && negb page_changed then
    Some {| v_is_valid := false;
            v_message := "Навигация не привела к изменению страницы";
            v_suggestions := ["Проверьте URL"; "Подождите загрузки страницы"] |}
  else if String.eqb action "click_element"
          && (negb page_changed && negb has_new_modals && negb has_new_forms) then
    Some {| v_is_valid := false;
            v_message := "Клик не привел к изменению страницы или появлению новых элементов";
            v_suggestions := ["Проверьте селектор элемента"; "Элемент может быть не кликабельным";
                              "Попробуйте другой элемент"] |}
  else if String.eqb action "type_text" then
    if success then
      Some {| v_is_valid := true;
              v_message := "Текст успешно введен в поле";
              v_suggestions := [] |}
    else
      Some {| v_is_valid := false;
              v_message := "Текст не был введен в поле";
              v_suggestions := ["Проверьте селектор поля"; "Поле может быть недоступно";
                                "Попробуйте другой селектор"] |}
  else None.

(** The dict returned by [validate_action_result]. *)
Record validation := {
  is_valid : bool;
  expected_outcome : string;
  actual_outcome : string;
  validation_message : string;
  suggestions : list string;
  from_cache : bool;
  heuristic : bool
}.

(** [ActionResultValidator._extract_actual_outcome]. *)
Definition _extract_actual_outcome (action_result : action_result) : string :=
  let page_changed := page_changed action_result in
  let url_before := url_before action_result in
  let url_after := url_after action_result in
  let title_before := title_before action_result in
  let title_after := title_after action_result in
  let new_elements := new_elements_of action_result in
  let has_new_modals := new_modals new_elements in
  let has_new_forms := new_forms new_elements in
  let success := success action_result in
  let message := message action_result in
  let outcomes : list string :=
    (if page_changed then
       (if negb (String.eqb url_before url_after)
        then ["URL изменился: " +:+ url_before +:+ " → " +:+ url_after] else []) ++
       (if negb (String.eqb title_before title_after)
        then ["Заголовок изменился: '" +:+ title_before +:+ "' → '" +:+ title_after +:+ "'"]
        else []) ++
       (if dom_changed action_result
        then ["DOM изменился (появились новые элементы или изменилась структура)"] else [])
     else []) ++
    (if has_new_modals then ["Появилось модальное окно"] else []) ++
    (if has_new_forms then ["Появилась форма"] else []) ++
    (if new_interactive_elements new_elements
     then ["Появились новые интерактивные элементы"] else []) ++
    (if modal_detected action_result then
       if modal_has_form action_result
       then ["Открылось модальное окно с формой (" +:+
               str_of_Z (modal_input_count action_result) +:+ " полей)"]
       else ["Открылось модальное окно"]
     else []) ++
    (if form_detected action_result
     then ["Появилась форма (" +:+ str_of_Z (form_count action_result) +:+ " форм)"]
     else []) ++
    (if negb success
     then ["Действие завершилось ошибкой: " +:+
             default "Unknown error" (error action_result)]
     else []) in
  let message_lower := Py.lower message in
  let is_type_text :=
    (Py.contains "введен" message_lower && Py.contains "поле" message_lower)
    || Py.contains "type_text" message_lower
    || (success && negb page_changed && negb has_new_modals && negb has_new_forms
        && Py.truthy message) in
  if is_type_text then
    if success then
      if Py.truthy message
      then message +:+ ". Страница не изменилась (это нормально для type_text - страница изменится только после клика на кнопку поиска)."
      else "Текст успешно введен в поле. Страница не изменилась (это нормально для type_text - страница изменится только после клика на кнопку поиска)."
    else "Текст не был введен в поле"
  else
    let outcomes :=
      outcomes ++ (if Py.truthy message then ["Сообщение: " +:+ message] else []) in
    match outcomes with
    | [] => if page_changed
            then "Страница изменилась, но детали не определены"
            else "Страница не изменилась, действие могло не сработать"
    | _ => Py.join "; " outcomes
    end.

(** The [key_data] dict of [_get_cache_key]; [kparams] holds the
    parameter dict, which the source serialises with sorted keys. *)
Record key_data := {
  kaction : string;
  kparams : params;
  ksuccess : bool;
  kpage_changed : bool;
  knew_modals : bool;
  knew_forms : bool
}.

Definition cache_key_data (action : string) (action_params : params)
    (action_result : action_result) : key_data :=
  {| kaction := action;
     kparams := action_params;
     ksuccess := success action_result;
     kpage_changed := page_changed action_result;
     knew_modals := new_modals (new_elements_of action_result);
     knew_forms := new_forms (new_elements_of action_result) |}.

(** A request sent to the chat-completion service by the second tier. *)
Inductive oracle_request :=
| AskExpectedOutcome (action : string) (action_params : params) (task : string)
| AskOutcomeMatch (action : string) (action_params : params)
    (expected_outcome actual_outcome task : string).

(** The mutable state of an [ActionResultValidator], and the log of the
    requests it sent. *)
Record validator := {
  _validation_cache : list (string * validation);
  oracle_log : list oracle_request
}.

(** [ActionResultValidator.__init__]. *)
Definition new_validator : validator :=
  {| _validation_cache := []; oracle_log := [] |}.

Section WithOracle.

(** The page model handed to the second tier. *)
Variable page_info : Type.

(** [hashlib.md5(json.dumps(key_data, sort_keys=True).encode()).hexdigest()]. *)
Variable digest : key_data -> string.

(** The answer of the service to the prompt of
    [_extract_expected_outcome] (or the fallback sentence of its
    [except] branch). *)
Variable oracle_expected_outcome : string -> params -> string -> string.

(** [_check_outcome_match]: the verdict parsed from the answer of the
    service. *)
Variable oracle_outcome_match :
  string -> params -> string -> string -> string -> page_info -> verdict.

Definition _get_cache_key (action : string) (action_params : params)
    (action_result : action_result) : string :=
  digest (cache_key_data action action_params action_result).

(** [_extract_expected_outcome]: [type_text] is answered locally, every
    other action by the service. *)
Definition _extract_expected_outcome (v : validator) (action : string)
    (action_params : params) (task : string) : string * validator :=
  if String.eqb action "type_text" then
    ("Текст '" +:+ pget action_params "text" +:+ "' должен быть введен в поле '" +:+
       pget action_params "element_description" +:+
       "'. Страница НЕ должна измениться после ввода текста (только заполнение поля). Страница изменится только после клика на кнопку поиска или если есть автопоиск.",
     v)
  else
    (oracle_expected_outcome action action_params task,
     {| _validation_cache := _validation_cache v;
        oracle_log := oracle_log v ++ [AskExpectedOutcome action action_params task] |}).

(** [ActionResultValidator.validate_action_result]. *)
Definition validate_action_result (v : validator) (action : string)
    (action_params : params) (action_result : action_result) (task : string)
    (page : page_info) : validation * validator :=
  match _heuristic_validation action action_result with
  | Some heuristic_result =>
      ({| is_valid := v_is_valid heuristic_result;
          expected_outcome := "";
          actual_outcome := "";
          validation_message := v_message heuristic_result;
          suggestions := v_suggestions heuristic_result;
          from_cache := false;
          heuristic := true |}, v)
  | None =>
      let cache_key := _get_cache_key action action_params action_result in
      match ErrorHandler.dict_get (_validation_cache v) cache_key with
      | Some cached_result =>
          ({| is_valid := is_valid cached_result;
              expected_outcome := expected_outcome cached_result;
              actual_outcome := actual_outcome cached_result;
              validation_message := validation_message cached_result;
              suggestions := suggestions cached_result;
              from_cache := true;
              heuristic := heuristic cached_result |}, v)
      | None =>
          if negb (_is_critical_action action) then
            let result :=
              {| is_valid := true; expected_outcome := ""; actual_outcome := "";
                 validation_message := "Действие выполнено успешно";
                 suggestions := []; from_cache := false; heuristic := false |} in
            (result,
             {| _validation_cache := _validation_cache v ++ [(cache_key, result)];
                oracle_log := oracle_log v |})
          else
            let '(expected_outcome, v1) :=
              _extract_expected_outcome v action action_params task in
            let actual_outcome := _extract_actual_outcome action_result in
            let validation_result :=
              oracle_outcome_match action action_params expected_outcome
                actual_outcome task page in
            let result :=
              {| is_valid := v_is_valid validation_result;
                 expected_outcome := expected_outcome;
                 actual_outcome := actual_outcome;
                 validation_message := v_message validation_result;
                 suggestions := v_suggestions validation_result;
                 from_cache := false; heuristic := false |} in
            (result,
             {| _validation_cache :=
                  ErrorHandler.evict_oldest 100
                    (_validation_cache v1 ++ [(cache_key, result)]);
                oracle_log :=
                  oracle_log v1 ++
                    [AskOutcomeMatch action action_params expected_outcome
                       actual_outcome task] |})
      end
  end.

End WithOracle.

(** Stand-ins for the parameters, for evaluating the validator on
    concrete inputs. *)
Definition sample_digest (k : key_data) : string :=
  kaction k +:+ (if ksuccess k then "|1" else "|0") +:+
  (if kpage_changed k then "|1" else "|0") +:+
  (if knew_modals k then "|1" else "|0") +:+ (if knew_forms k then "|1" else "|0").

Definition sample_expected_outcome (action : string) (action_params : params)
    (task : string) : string := "ожидается переход на страницу".

Definition sample_outcome_match (action : string) (action_params : params)
    (expected_outcome actual_outcome task : string) (page : unit) : verdict :=
  {| v_is_valid := false; v_message := "результат не соответствует ожидаемому";
     v_suggestions := [] |}.

End ActionValidator.

(** ** [src/agent/agent_state.py] *)

Module AgentState.
Import Data.

Inductive AgentState :=
| IDLE | OBSERVING | DECIDING | ACTING | REFLECTING | WAITING_USER | COMPLETED | ERROR.

(** An entry of [action_history], as [MainAgent.execute_task] builds it.
    [rec_page_changed] and [rec_new_elements] keep the absence of the key,
    which the readers replace by their own defaults. *)
Record action_record := {
  rec_action : string;
  rec_parameters : params;
  rec_result : action_result;
  rec_page_changed : option bool;
  rec_new_elements : option new_elements_info
}.

(** An entry of [query_dom_history]. *)
Record query_record := {
  q_query : string;
  q_normalized_query : string;
  q_answer : string;
  q_url : string;
  q_iteration : nat
}.

(** The fields of an [AgentStateManager]. *)
Record manager := {
  state : AgentState;
  current_task : option string;
  action_history : list action_record;
  visited_urls : list string;
  query_dom_history : list query_record;
  iteration_count : nat;
  last_error : option string
}.

(** [AgentStateManager.__init__]. *)
Definition new_manager : manager :=
  {| state := IDLE; current_task := None; action_history := [];
     visited_urls := []; query_dom_history := []; iteration_count := 0;
     last_error := None |}.

(** [AgentStateManager.set_task]. *)
Definition set_task (m : manager) (task : string) : manager :=
  {| state := OBSERVING; current_task := Some task; action_history := [];
     visited_urls := []; query_dom_history := []; iteration_count := 0;
     last_error := None |}.

(** [url.split('?')[0].split('#')[0].rstrip('/')]. *)
Definition normalize_url (url : string) : string :=
  Py.rstrip "/" (Py.before "#" (Py.before "?" url)).

(** [AgentStateManager.add_visited_url]. *)
Definition add_visited_url (m : manager) (url : string) : manager :=
  let normalized_url := normalize_url url in
  if bool_decide (normalized_url ∈ visited_urls m) then m
  else {| state := state m; current_task := current_task m;
          action_history := action_history m;
          visited_urls := visited_urls m ++ [normalized_url];
          query_dom_history := query_dom_history m;
          iteration_count := iteration_count m; last_error := last_error m |}.

(** [AgentStateManager.is_url_visited]. *)
Definition is_url_visited (m : manager) (url : string) : bool :=
  bool_decide (normalize_url url ∈ visited_urls m).

(** [AgentStateManager._is_critical_action]. *)
Definition _is_critical_action (action_name : string) : bool :=
  bool_decide (action_name ∈ ["navigate"; "click_element"]).

(** [l[-n:]] for a positive [n]. *)
Definition last_n {A} (n : nat) (l : list A) : list A :=
  drop (length l - n) l.

(** [len(set(l)) <= 1]. *)
Definition at_most_one_value `{EqDecision A} (l : list A) : bool :=
  bool_decide (length (remove_dups l) ≤ 1).

(** [any(l)]. *)
Definition any (l : list bool) : bool := existsb id l.

(** The dict that reports a loop ([detected] is always [True]); the keys
    that a check leaves out are [None]. *)
Record loop_info := {
  reason : string;
  loop_action : option string;
  loop_parameters : option params;
  repeats : option nat;
  is_critical : option bool;
  loop_error : option string;
  loop_url : option string;
  pattern : option (list string)
}.

Definition str_of_nat (n : nat) : string := str_of_Z (Z.of_nat n).

(** [AgentStateManager._normalize_query]. *)
Definition synonyms : list (string * string) := [
  ("селектор", "селектор");
  ("селекторы", "селектор");
  ("идентификатор", "селектор");
  ("идентификаторы", "селектор");
  ("элемент", "элемент");
  ("элементы", "элемент");
  ("список", "список");
  ("видны", "виден");
  ("видно", "виден");
  ("есть ли", "есть");
  ("какие", "какой");
  ("первый", "первый");
  ("первые", "первый");
  ("10", "10");
  ("десять", "10")
].

Definition _normalize_query (query : string) : string :=
  let normalized := Py.strip (Py.lower query) in
  let normalized := Py.join " " (Py.split normalized) in
  let normalized := Py.rstrip "?.,!;:" normalized in
  let words := Py.split normalized in
  let normalized_words :=
    map (fun w => default w (ErrorHandler.dict_get synonyms w)) words in
  Py.join " " normalized_words.

(** [AgentStateManager._are_queries_similar].  The source compares the
    float [len(common_words) / max(len(words1), len(words2))] with [0.7];
    for word counts below 10^15 that is the comparison of [10 * common]
    with [7 * max]. *)
Definition _are_queries_similar (query1 query2 : string) : bool :=
  let words1 := remove_dups (Py.split query1) in
  let words2 := remove_dups (Py.split query2) in
  if bool_decide (length words1 < 3) || bool_decide (length words2 < 3) then false
  else
    let common_words := list_intersection words1 words2 in
    bool_decide (7 * (length words1 `max` length words2) ≤ 10 * length common_words).

(** [not url or not q.get("url") or url == q.get("url")]. *)
Definition same_page (url : string) (q : query_record) : bool :=
  negb (Py.truthy url) || negb (Py.truthy (q_url q)) || String.eqb url (q_url q).

(** [AgentStateManager.was_query_asked]. *)
Definition was_query_asked (m : manager) (query url : string) : bool :=
  let normalized_query := _normalize_query query in
  existsb (fun q =>
             let existing_normalized := _normalize_query (q_query q) in
             if String.eqb normalized_query existing_normalized then same_page url q
             else if _are_queries_similar normalized_query existing_normalized
                  then same_page url q
                  else false)
          (query_dom_history m).

(** [AgentStateManager.get_query_answer]. *)
Definition get_query_answer (m : manager) (query url : string) : option string :=
  let normalized_query := _normalize_query query in
  q_answer <$>
    List.find (fun q =>
                 let existing_normalized := _normalize_query (q_query q) in
                 (String.eqb normalized_query existing_normalized
                  || _are_queries_similar normalized_query existing_normalized)
                 && same_page url q)
              (rev (query_dom_history m)).

(** [AgentStateManager.add_query_dom]. *)
Definition add_query_dom (m : manager) (query answer url : string) : manager :=
  let history :=
    query_dom_history m ++
      [{| q_query := query; q_normalized_query := _normalize_query query;
          q_answer := answer; q_url := url; q_iteration := iteration_count m |}] in
  {| state := state m; current_task := current_task m;
     action_history := action_history m; visited_urls := visited_urls m;
     query_dom_history :=
       if bool_decide (20 < length history) then last_n 20 history else history;
     iteration_count := iteration_count m; last_error := last_error m |}.

(** [AgentStateManager.add_action]. *)
Definition add_action (m : manager) (a : action_record) : manager :=
  {| state := state m; current_task := current_task m;
     action_history := action_history m ++ [a]; visited_urls := visited_urls m;
     query_dom_history := query_dom_history m;
     iteration_count := S (iteration_count m); last_error := last_error m |}.

(** [AgentStateManager.set_state]. *)
Definition set_state (m : manager) (st : AgentState) : manager :=
  {| state := st; current_task := current_task m;
     action_history := action_history m; visited_urls := visited_urls m;
     query_dom_history := query_dom_history m;
     iteration_count := iteration_count m; last_error := last_error m |}.

(** [AgentStateManager.set_error]. *)
Definition set_error (m : manager) (error : string) : manager :=
  {| state := ERROR; current_task := current_task m;
     action_history := action_history m; visited_urls := visited_urls m;
     query_dom_history := query_dom_history m;
     iteration_count := iteration_count m; last_error := Some error |}.

(** [AgentStateManager.get_recent_query_dom_info], for a [limit] that is
    not negative. *)
Definition get_recent_query_dom_info (m : manager) (limit : nat) : list query_record :=
  slice_last limit (query_dom_history m).

(** [AgentStateManager.reset]. *)
Definition reset (m : manager) : manager := new_manager.

Section WithSerializers.

(** [json.dumps(params, sort_keys=True, default=str)] and [str(params)]. *)
Variable json_dumps : params -> string.
Variable str_of_params : params -> string.

(** [AgentStateManager._get_action_signature]. *)
Definition _get_action_signature (a : action_record) : string * bool * bool * string :=
  let action_name := rec_action a in
  let params := rec_parameters a in
  let page_changed := default true (rec_page_changed a) in
  let new_elements := default no_new_elements (rec_new_elements a) in
  let has_new_elements :=
    new_modals new_elements || new_forms new_elements
    || new_interactive_elements new_elements in
  let effective_page_changed := page_changed || has_new_elements in
  let signature := action_name +:+ ":" +:+ json_dumps params in
  (signature, effective_page_changed, has_new_elements, action_name).

(** The [for] loop of [_check_consecutive_repeats], from the current
    values of [consecutive_repeats] and [last_signature]. *)
Fixpoint consecutive_repeats_loop (recent_actions : list action_record)
    (critical_threshold normal_threshold : nat)
    (action_signatures : list (string * bool * bool * string))
    (consecutive_repeats : nat) (last_signature : option string) : option loop_info :=
  match action_signatures with
  | [] => None
  | (signature, effective_page_changed, has_new_elements, action_name) :: rest =>
      if bool_decide (Some signature = last_signature) then
        if negb effective_page_changed && negb has_new_elements then
          let consecutive_repeats := S consecutive_repeats in
          let threshold :=
            if _is_critical_action action_name then critical_threshold
            else normal_threshold in
          if bool_decide (threshold ≤ consecutive_repeats) then
            Some {| reason := "Повторяющееся действие без изменения страницы (" +:+
                              str_of_nat consecutive_repeats +:+ " раза): " +:+ signature;
                    loop_action := Some action_name;
                    loop_parameters :=
                      rec_parameters <$>
                        recent_actions !! (length recent_actions - consecutive_repeats);
                    repeats := Some consecutive_repeats;
                    is_critical := Some (_is_critical_action action_name);
                    loop_error := None; loop_url := None; pattern := None |}
          else
            consecutive_repeats_loop recent_actions critical_threshold normal_threshold
              rest consecutive_repeats (Some signature)
        else
          consecutive_repeats_loop recent_actions critical_threshold normal_threshold
            rest 1 (Some signature)
      else
        consecutive_repeats_loop recent_actions critical_threshold normal_threshold
          rest 1 (Some signature)
  end.

(** [AgentStateManager._check_consecutive_repeats]. *)
Definition _check_consecutive_repeats (recent_actions : list action_record)
    (critical_threshold normal_threshold : nat) : option loop_info :=
  if bool_decide (length recent_actions < 2) then None
  else
    consecutive_repeats_loop recent_actions critical_threshold normal_threshold
      (map _get_action_signature recent_actions) 1 None.

(** [AgentStateManager._check_repeating_errors]. *)
Definition _check_repeating_errors (recent_actions : list action_record)
    (threshold : nat) : option loop_info :=
  let failed :=
    List.filter (fun a => negb (success (rec_result a))
                          && Py.truthy (default "" (error (rec_result a))))
                recent_actions in
  let error_messages := map (fun a => default "" (error (rec_result a))) failed in
  let page_changes := map (fun a => default true (rec_page_changed a)) failed in
  let action_names := map rec_action failed in
  let action_params := map rec_parameters failed in
  if bool_decide (threshold ≤ length error_messages)
     && at_most_one_value error_messages && negb (any page_changes)
     && at_most_one_value action_names
     && at_most_one_value (map str_of_params action_params)
  then
    Some {| reason := "Повторяющееся действие с ошибкой без изменения страницы (" +:+
                      str_of_nat (length error_messages) +:+ " раза): " +:+
                      default "unknown" (head action_names);
            loop_action := head action_names;
            loop_parameters := head action_params;
            repeats := Some (length error_messages);
            is_critical := None;
            loop_error := head error_messages;
            loop_url := None; pattern := None |}
  else None.

(** [AgentStateManager._check_repeating_urls]. *)
Definition _check_repeating_urls (recent_actions : list action_record)
    (threshold : nat) : option loop_info :=
  let url_of a :=
    if Py.truthy (url (rec_result a)) then url (rec_result a)
    else pget (rec_parameters a) "url" in
  let navigations :=
    List.filter (fun a => String.eqb (rec_action a) "navigate" && Py.truthy (url_of a))
                recent_actions in
  let recent_urls := map (fun a => normalize_url (url_of a)) navigations in
  let page_changes := map (fun a => default true (rec_page_changed a)) navigations in
  if bool_decide (threshold ≤ length recent_urls)
     && at_most_one_value recent_urls && negb (any page_changes)
  then
    Some {| reason := "Повторяющийся URL без изменения страницы (" +:+
                      str_of_nat (length recent_urls) +:+ " раза): " +:+
                      default "" (head recent_urls);
            loop_action := None; loop_parameters := None;
            repeats := Some (length recent_urls);
            is_critical := None; loop_error := None;
            loop_url := head recent_urls; pattern := None |}
  else None.

(** [AgentStateManager._check_pattern_repetition]: the first index [i] of
    [range(len(descriptions) - 4)] at which two descriptions are followed
    by the same two. *)
Definition _check_pattern_repetition (recent_action_descriptions : list string)
    : option loop_info :=
  if bool_decide (4 ≤ length recent_action_descriptions) then
    let pattern_length := 2 in
    let hit i :=
      bool_decide (take pattern_length (drop i recent_action_descriptions) =
                   take pattern_length
                     (drop (i + pattern_length) recent_action_descriptions)) in
    match List.find hit (seq 0 (length recent_action_descriptions - pattern_length * 2)) with
    | Some i =>
        let pattern := take pattern_length (drop i recent_action_descriptions) in
        Some {| reason := "Паттерн повторения: " +:+ Py.join " -> " pattern;
                loop_action := None; loop_parameters := None; repeats := None;
                is_critical := None; loop_error := None; loop_url := None;
                pattern := Some pattern |}
    | None => None
    end
  else None.

(** The description of an action in step 4 of [detect_loop]. *)
Definition action_description (a : action_record) : string :=
  let action_name := rec_action a in
  let params := rec_parameters a in
  if Py.truthy (pget params "description") then
    action_name +:+ ":" +:+ pget params "description"
  else if Py.truthy (pget params "element_description") then
    action_name +:+ ":" +:+ pget params "element_description"
  else if Py.truthy (pget params "url") then
    action_name +:+ ":" +:+ normalize_url (pget params "url")
  else action_name.

(** Step 5 of [detect_loop]: [extract_text] repeated with one description. *)
Definition check_extract_text (recent_actions : list action_record) : option loop_info :=
  if bool_decide (2 ≤ length recent_actions) then
    let extract_text_actions :=
      List.filter (fun a => String.eqb (rec_action a) "extract_text")
                  (last_n 3 recent_actions) in
    if bool_decide (2 ≤ length extract_text_actions) then
      let descriptions :=
        map (fun a => pget (rec_parameters a) "description") extract_text_actions in
      let page_changes :=
        map (fun a => default true (rec_page_changed a)) extract_text_actions in
      let description0 := default "" (head descriptions) in
      if at_most_one_value descriptions && Py.truthy description0
         && negb (any page_changes)
      then
        Some {| reason := "Повторяющееся extract_text с тем же описанием без изменения страницы (" +:+
                          str_of_nat (length extract_text_actions) +:+ " раза): " +:+
                          description0;
                loop_action := Some "extract_text";
                loop_parameters := Some {[ "description" := description0 ]};
                repeats := Some (length extract_text_actions);
                is_critical := None;
                loop_error := Some ("extract_text с описанием '" +:+ description0 +:+
                                    "' повторяется без результата");
                loop_url := None; pattern := None |}
      else None
    else None
  else None.

(** The number of pairs [i < j] of the list related by [R]. *)
Fixpoint count_pairs {A} (R : A -> A -> bool) (l : list A) : nat :=
  match l with
  | [] => 0
  | x :: l' => length (List.filter (R x) l') + count_pairs R l'
  end.

(** Step 6 of [detect_loop]: [query_dom] repeated with similar questions. *)
Definition check_query_dom (recent_actions : list action_record) : option loop_info :=
  if bool_decide (2 ≤ length recent_actions) then
    let query_dom_actions :=
      List.filter (fun a => String.eqb (rec_action a) "query_dom")
                  (last_n 5 recent_actions) in
    if bool_decide (2 ≤ length query_dom_actions) then
      let queries := map (fun a => pget (rec_parameters a) "query") query_dom_actions in
      let page_changes :=
        map (fun a => default true (rec_page_changed a)) query_dom_actions in
      let normalized_queries :=
        map _normalize_query (List.filter Py.truthy queries) in
      if bool_decide (2 ≤ length normalized_queries) then
        let similar_pairs :=
          count_pairs (fun q1 q2 => String.eqb q1 q2 || _are_queries_similar q1 q2)
                      normalized_queries in
        if bool_decide (1 ≤ similar_pairs) && negb (any page_changes) then
          let last_query := default "" (last queries) in
          Some {| reason := "Повторяющийся query_dom с похожими вопросами без изменения страницы (" +:+
                            str_of_nat (length query_dom_actions) +:+ " раза): " +:+
                            Py.take 100 last_query;
                  loop_action := Some "query_dom";
                  loop_parameters := Some {[ "query" := last_query ]};
                  repeats := Some (length query_dom_actions);
                  is_critical := None;
                  loop_error := Some "query_dom с похожими вопросами повторяется без результата";
                  loop_url := None; pattern := None |}
        else None
      else None
    else None
  else None.

(** The default value of the [lookback] argument of [detect_loop]; no
    caller passes another one. *)
Definition lookback : nat := 4.

(** [AgentStateManager.detect_loop]. *)
Definition detect_loop (m : manager) : option loop_info :=
  if bool_decide (length (action_history m) < 2) then None
  else
    let recent_actions := last_n (lookback * 2) (action_history m) in
    match _check_consecutive_repeats (last_n 6 recent_actions) 2 3 with
    | Some repeat_check => Some repeat_check
    | None =>
    match _check_repeating_errors (last_n lookback recent_actions) 2 with
    | Some error_check => Some error_check
    | None =>
    match _check_repeating_urls (last_n lookback recent_actions) 2 with
    | Some url_check => Some url_check
    | None =>
    match _check_pattern_repetition
            (map action_description (last_n lookback recent_actions)) with
    | Some pattern_check => Some pattern_check
    | None =>
    match check_extract_text recent_actions with
    | Some extract_check => Some extract_check
    | None => check_query_dom recent_actions
    end end end end end.

End WithSerializers.

(** The record shows no page diff: [page_changed] is false and no modal,
    form or interactive element is new. *)
Definition no_page_diff (a : action_record) : bool :=
  let new_elements := default no_new_elements (rec_new_elements a) in
  negb (default true (rec_page_changed a))
  && negb (new_modals new_elements) && negb (new_forms new_elements)
  && negb (new_interactive_elements new_elements).

(** The number of repeats at which [_check_consecutive_repeats], as
    [detect_loop] calls it, reports an action. *)
Definition repeat_threshold (action_name : string) : nat :=
  if _is_critical_action action_name then 2 else 3.

(** The record repeats the action: it carries the given name and
    parameters and shows no page diff.  Its result is not constrained. *)
Definition repeats_action (action_name : string) (parameters : params)
    (a : action_record) : Prop :=
  rec_action a = action_name /\ rec_parameters a = parameters /\
  no_page_diff a = true.

(** The record failed with an error text. *)
Definition failed_with_error (a : action_record) : bool :=
  negb (success (rec_result a)) && Py.truthy (default "" (error (rec_result a))).

(** One of the checks of [detect_loop] whose threshold is two repeats
    whatever the action applies to records that repeat an action: all of
    them failed with one and the same error text, or the action is an
    [extract_text] with a description, or a [query_dom] with a query. *)
Definition two_repeat_check_applies (action_name : string) (parameters : params)
    (history : list action_record) : bool :=
  (forallb failed_with_error history
   && at_most_one_value (map (fun a => default "" (error (rec_result a))) history))
  || (String.eqb action_name "extract_text"
      && Py.truthy (pget parameters "description"))
  || (String.eqb action_name "query_dom" && Py.truthy (pget parameters "query")).

(** A manager whose history is the given one. *)
Definition with_history (history : list action_record) : manager :=
  {| state := OBSERVING; current_task := Some "task"; action_history := history;
     visited_urls := []; query_dom_history := []; iteration_count := length history;
     last_error := None |}.

(** Stand-ins for the two serialisers, for evaluating [detect_loop] on
    concrete inputs: the entries of the dict in key order. *)
Definition sample_dumps (p : params) : string :=
  "{" +:+ Py.join ", " (map (fun kv => kv.1 +:+ ": " +:+ kv.2) (map_to_list p)) +:+ "}".

(** Records used in the examples. *)
Definition record_of (action_name : string) (p : params) (r : action_result)
    : action_record :=
  {| rec_action := action_name; rec_parameters := p; rec_result := r;
     rec_page_changed := Some (page_changed r);
     rec_new_elements := new_elements r |}.

Definition extract_price : action_record :=
  record_of "extract_text" {[ "description" := "price" ]} quiet_success.

Definition click_submit : action_record :=
  record_of "click_element" {[ "selector" := "#submit" ]} quiet_success.

Definition scroll_down : action_record :=
  record_of "scroll" {[ "direction" := "down" ]} quiet_success.

(** A scroll that failed without changing the page. *)
Definition scroll_failed (error : string) : action_record :=
  record_of "scroll" {[ "direction" := "down" ]}
    {| success := false; error := Some error; message := message quiet_success;
       url := url quiet_success; text := text quiet_success;
       answer := answer quiet_success; page_changed := false;
       url_before := url_before quiet_success; url_after := url_after quiet_success;
       title_before := title_before quiet_success;
       title_after := title_after quiet_success;
       dom_changed := dom_changed quiet_success;
       new_elements := new_elements quiet_success;
       modal_detected := modal_detected quiet_success;
       modal_has_form := modal_has_form quiet_success;
       modal_input_count := modal_input_count quiet_success;
       form_detected := form_detected quiet_success;
       form_count := form_count quiet_success |}.

Definition click_that_changes : action_record :=
  {| rec_action := "click_element"; rec_parameters := {[ "selector" := "#next" ]};
     rec_result := quiet_success; rec_page_changed := Some true;
     rec_new_elements := None |}.

End AgentState.

(** ** The page model *)

Module Page.

(** An entry of [interactive_elements].  The same record stands for the
    dict of the page model and for the compact dict that
    [_optimize_elements] builds: a string field is [""] and a flag is
    [false] when the key is absent (or holds [None]); [relevance_score]
    keeps the absence of the key. *)
Record element := {
  el_type : string;
  el_selector : string;
  el_text : string;
  el_in_modal : bool;
  el_in_form : bool;
  el_relevance_score : option Z;
  el_id : string;
  el_href : string;
  el_input_type : string;
  el_placeholder : string
}.

Global Instance element_eq_dec : EqDecision element.
Proof. solve_decision. Defined.

Record breadcrumb := { b_text : string; b_href : string }.

Record section_info := { s_type : string; s_text_preview : string }.

Record modal_info := {
  m_has_form : bool;
  m_input_count : Z;
  m_selector : string;
  m_z_index : Z
}.

(** The [structure] entry of a location context. *)
Record structure_info := {
  breadcrumbs : list breadcrumb;
  current_section : option section_info;
  structure_modals : list modal_info
}.

(** The dict returned by [PageExtractor._extract_location_context]. *)
Record location_context := {
  description : string;
  visible_modals_count : Z;
  has_forms : bool;
  structure : option structure_info
}.

(** The [visible_modals] entry of a page model. *)
Record visible_modals_info := {
  vm_count : Z;
  vm_modals : list modal_info
}.

(** The page model handed to [prepare_context]: the entries that the
    context depends on.  ([metadata.page_state] only feeds the entries
    [visible_modals] and [active_modal_context] of the optimised dict,
    which [format_context] does not read.) *)
Record page_info := {
  url : string;
  title : string;
  interactive_elements : list element;
  visible_text_preview : string;
  location : option location_context;
  visible_modals : option visible_modals_info
}.

(** The line feed. *)
Definition nl : string := String (ascii_of_nat 10) EmptyString.

End Page.

(** ** The token cache of [TokenOptimizer.count_tokens] *)

Module TokenCache.

(** [self._token_count_cache], in insertion order. *)
Definition cache : Type := list (string * nat).

(** A computation that reads and updates the cache. *)
Definition M (A : Type) : Type := cache -> A * cache.

Definition ret {A} (x : A) : M A := fun c => (x, c).

Definition bind {A B} (m : M A) (f : A -> M B) : M B :=
  fun c => let '(x, c') := m c in f x c'.

Global Instance M_ret : MRet M := @ret.
Global Instance M_bind : MBind M := fun A B f m => bind m f.

(** Every entry of the cache holds the number of tokens of its text,
    for the tokenizer [encode]. *)
Definition consistent {token} (encode : string -> list token) (c : cache) : Prop :=
  Forall (fun entry => entry.2 = length (encode entry.1)) c.

(** On every consistent cache the computation [m] returns [v] and leaves
    a consistent cache. *)
Definition returns {token} (encode : string -> list token) {A} (m : M A) (v : A) : Prop :=
  forall c, consistent encode c ->
            (m c).1 = v /\ consistent encode (m c).2.

(** The result of [m] does not depend on the entries of the cache. *)
Definition oblivious {token} (encode : string -> list token) {A} (m : M A) : Prop :=
  exists v, returns encode m v.

(** A loop that threads an accumulator through the elements of a list. *)
Fixpoint foldM {A B} (f : B -> A -> M B) (l : list A) (b : B) : M B :=
  match l with
  | [] => ret b
  | x :: l' => b' ← f b x; foldM f l' b'
  end.

End TokenCache.

(** ** [src/context/token_optimizer.py] *)

Module TokenOptimizer.
Import Page TokenCache.

(** Stable sort of [l] in descending order of [key], as
    [sorted(l, key=key, reverse=True)]: elements with equal keys keep
    their order. *)
Section Sorting.
Context {A K : Type} (key : A -> K) (lt : K -> K -> bool).

Fixpoint insert_desc (x : A) (l : list A) : list A :=
  match l with
  | [] => [x]
  | y :: l' => if lt (key x) (key y) then y :: insert_desc x l' else x :: l
  end.

Definition sorted_desc (l : list A) : list A := foldr insert_desc [] l.

End Sorting.

(** The order of Python on the tuples of [sort_key]; [False < True]. *)
Definition bool_lt (a b : bool) : bool := negb a && b.

Definition sort_key_lt (k1 k2 : Z * bool * bool * bool * bool) : bool :=
  let '(s1, m1, f1, i1, t1) := k1 in
  let '(s2, m2, f2, i2, t2) := k2 in
  if (s1 <? s2)%Z then true else if (s2 <? s1)%Z then false
  else if bool_lt m1 m2 then true else if bool_lt m2 m1 then false
  else if bool_lt f1 f2 then true else if bool_lt f2 f1 then false
  else if bool_lt i1 i2 then true else if bool_lt i2 i1 then false
  else bool_lt t1 t2.

Definition is_task (task_type : option string) (name : string) : bool :=
  match task_type with
  | Some t => String.eqb t name
  | None => false
  end.

Definition type_in (x : element) (types : list string) : bool :=
  bool_decide (el_type x ∈ types).

(** The function [sort_key] of [_optimize_elements]. *)
Definition sort_key (task_type : option string) (x : element)
    : Z * bool * bool * bool * bool :=
  let relevance_score := default 0%Z (el_relevance_score x) in
  let relevance_score :=
    if is_task task_type "form" then
      let form_boost :=
        if el_in_form x || type_in x ["button"; "input"; "select"; "textarea"]
        then 20%Z else 0%Z in
      (relevance_score + form_boost)%Z
    else if is_task task_type "navigation" then
      let nav_boost :=
        if type_in x ["link"; "button"] || Py.truthy (el_href x) then 15%Z else 0%Z in
      (relevance_score + nav_boost)%Z
    else if is_task task_type "reading" then
      let reading_boost :=
        if Py.truthy (el_text x) && bool_decide (50 < Py.len (el_text x))
        then 10%Z else 0%Z in
      (relevance_score + reading_boost)%Z
    else relevance_score in
  (relevance_score, el_in_modal x, el_in_form x, Py.truthy (el_id x),
   Py.truthy (el_text x)).

(** The choice of [text_limit] in [_optimize_elements]. *)
Definition text_limit (task_type : option string)
    (is_in_modal is_in_form is_high_priority : bool) (remaining_tokens : Z) : nat :=
  if is_task task_type "form" then
    if is_in_modal && (200 <? remaining_tokens)%Z then 120
    else if is_in_modal then 80
    else if is_in_form && (200 <? remaining_tokens)%Z then 80
    else if is_high_priority && (200 <? remaining_tokens)%Z then 60
    else if is_high_priority && (100 <? remaining_tokens)%Z then 40
    else 20
  else if is_task task_type "navigation" then
    if is_in_modal && (200 <? remaining_tokens)%Z then 80
    else if is_in_modal then 60
    else if is_high_priority && (200 <? remaining_tokens)%Z then 50
    else 30
  else
    if is_in_modal && (200 <? remaining_tokens)%Z then 100
    else if is_in_modal then 70
    else if is_in_form && (200 <? remaining_tokens)%Z then 70
    else if is_high_priority && (200 <? remaining_tokens)%Z then 60
    else if is_high_priority && (100 <? remaining_tokens)%Z then 40
    else if (50 <? remaining_tokens)%Z then 25
    else 15.

(** [is_high_priority] in [_optimize_elements]. *)
Definition high_priority (element : element) : bool :=
  el_in_modal element || el_in_form element
  || (10 <? default 0 (el_relevance_score element))%Z
  || Py.truthy (el_id element)
  || type_in element ["button"; "link"].

(** The compact dict built for an element, given what is left of the
    budget. *)
Definition compact (task_type : option string) (remaining_tokens : Z)
    (element : element) : Page.element :=
  let is_in_modal := el_in_modal element in
  let is_in_form := el_in_form element in
  let text_limit :=
    text_limit task_type is_in_modal is_in_form (high_priority element)
      remaining_tokens in
  let keep (when : bool) (field : string) := if when then field else "" in
  {| el_type := el_type element;
     el_selector := el_selector element;
     el_in_modal := is_in_modal;
     el_in_form := is_in_form;
     el_text := Py.take text_limit (el_text element);
     el_relevance_score := el_relevance_score element;
     el_href := keep (50 <? remaining_tokens)%Z (el_href element);
     el_id := el_id element;
     el_input_type := keep (100 <? remaining_tokens)%Z (el_input_type element);
     el_placeholder := keep (100 <? remaining_tokens)%Z (el_placeholder element) |}.

(** The second, shorter form tried for a high-priority element that does
    not fit. *)
Definition shortened (remaining_tokens : Z) (compact_element : element) : element :=
  {| el_type := el_type compact_element;
     el_selector := el_selector compact_element;
     el_in_modal := el_in_modal compact_element;
     el_in_form := el_in_form compact_element;
     el_text := Py.take 20 (el_text compact_element);
     el_relevance_score := el_relevance_score compact_element;
     el_href := if Py.truthy (el_href compact_element) && (remaining_tokens <? 50)%Z
                then "" else el_href compact_element;
     el_id := el_id compact_element;
     el_input_type :=
       if Py.truthy (el_input_type compact_element) && (remaining_tokens <? 30)%Z
       then "" else el_input_type compact_element;
     el_placeholder := "" |}.

(** [e'] is a compact form of the element [e]: the same type, selector,
    flags, id and score, a text cut to some number of characters, and
    each of [href], [input_type] and [placeholder] either kept or left
    out. *)
Definition compact_of (e e' : element) : Prop :=
  el_type e' = el_type e /\ el_selector e' = el_selector e /\
  el_in_modal e' = el_in_modal e /\ el_in_form e' = el_in_form e /\
  el_id e' = el_id e /\ el_relevance_score e' = el_relevance_score e /\
  (exists n, el_text e' = Py.take n (el_text e)) /\
  (el_href e' = "" \/ el_href e' = el_href e) /\
  (el_input_type e' = "" \/ el_input_type e' = el_input_type e) /\
  (el_placeholder e' = "" \/ el_placeholder e' = el_placeholder e).

(** The elements that the loop of [_optimize_elements] appends even when
    they do not fit: those in a modal, and the high-priority ones whose
    score is at least 5. *)
Definition always_kept (e : element) : bool :=
  el_in_modal e || (high_priority e && (5 <=? default 0 (el_relevance_score e))%Z).

(** A button in a modal, for the examples. *)
Definition modal_button : element :=
  {| el_type := "button"; el_selector := "#confirm"; el_text := "Подтвердить";
     el_in_modal := true; el_in_form := false; el_relevance_score := None;
     el_id := "confirm"; el_href := ""; el_input_type := ""; el_placeholder := "" |}.

Section WithEncoding.

(** The tokens of tiktoken, and [self.encoding.encode] and
    [self.encoding.decode]. *)
Variable token : Type.
Variable encode : string -> list token.
Variable decode : list token -> string.

(** [str(d)] for a compact element dict. *)
Variable str_of_element : element -> string.

(** [TokenOptimizer.count_tokens]. *)
Definition count_tokens (text : string) : M nat :=
  fun cache =>
    if bool_decide (Py.len text ≤ 500) then
      match ErrorHandler.dict_get cache text with
      | Some token_count => (token_count, cache)
      | None =>
          let token_count := length (encode text) in
          (token_count, ErrorHandler.evict_oldest 1000 (cache ++ [(text, token_count)]))
      end
    else (length (encode text), cache).

(** The body of the loop of [_optimize_elements]: the accumulator is
    [(optimized, current_tokens)]. *)
Definition optimize_step (max_tokens : Z) (task_type : option string)
    (acc : list element * Z) (element : element) : M (list Page.element * Z) :=
  let '(optimized, current_tokens) := acc in
  let relevance_score := default 0%Z (el_relevance_score element) in
  let is_in_modal := el_in_modal element in
  let is_in_form := el_in_form element in
  let is_high_priority := high_priority element in
  let remaining_tokens := (max_tokens - current_tokens)%Z in
  let compact_element := compact task_type remaining_tokens element in
  element_tokens ← count_tokens (str_of_element compact_element);
  if (current_tokens + Z.of_nat element_tokens <=? max_tokens)%Z then
    ret (optimized ++ [compact_element], (current_tokens + Z.of_nat element_tokens)%Z)
  else if is_high_priority then
    let compact_element := shortened remaining_tokens compact_element in
    element_tokens ← count_tokens (str_of_element compact_element);
    if (current_tokens + Z.of_nat element_tokens <=? max_tokens)%Z then
      ret (optimized ++ [compact_element], (current_tokens + Z.of_nat element_tokens)%Z)
    else if is_in_modal then
      ret (optimized ++ [compact_element], (current_tokens + Z.of_nat element_tokens)%Z)
    else if is_in_form && (5 <=? relevance_score)%Z then
      ret (optimized ++ [compact_element], (current_tokens + Z.of_nat element_tokens)%Z)
    else if (5 <=? relevance_score)%Z then
      ret (optimized ++ [compact_element], (current_tokens + Z.of_nat element_tokens)%Z)
    else ret (optimized, current_tokens)
  else ret (optimized, current_tokens).

(** [TokenOptimizer._optimize_elements]. *)
Definition _optimize_elements (elements : list element) (max_tokens : Z)
    (task_type : option string) : M (list element) :=
  match elements with
  | [] => ret []
  | _ =>
      let modal_elements := List.filter el_in_modal elements in
      let form_elements :=
        List.filter (fun e => el_in_form e && negb (el_in_modal e)) elements in
      let other_elements :=
        List.filter (fun e => negb (el_in_modal e) && negb (el_in_form e)) elements in
      let sorted := sorted_desc (sort_key task_type) sort_key_lt in
      let sorted_elements :=
        sorted modal_elements ++ sorted form_elements ++ sorted other_elements in
      '(optimized, _) ← foldM (optimize_step max_tokens task_type) sorted_elements
                              ([], 0%Z);
      ret optimized
  end.

(** [TokenOptimizer._truncate_text]; its only caller passes a
    [max_tokens] of at least 100. *)
Definition _truncate_text (text : string) (max_tokens : Z) : string :=
  if negb (Py.truthy text) then ""
  else
    let tokens := encode text in
    if (Z.of_nat (length tokens) <=? max_tokens)%Z then text
    else decode (take (Z.to_nat max_tokens) tokens).

(** The important modal of a list: the first one with a form, else the
    first one; only its critical entries are kept. *)
Definition important_modal (modals : list modal_info) : option modal_info :=
  match List.find m_has_form modals with
  | Some m => Some m
  | None => head modals
  end.

Definition critical_entries (m : modal_info) : modal_info :=
  {| m_has_form := m_has_form m; m_input_count := m_input_count m;
     m_selector := Py.take 50 (m_selector m); m_z_index := 0 |}.

(** The [optimized_location] dict of [optimize_page_info]. *)
Definition optimize_location (location_context : location_context) : Page.location_context :=
  {| description := Py.take 200 (description location_context);
     visible_modals_count := visible_modals_count location_context;
     has_forms := has_forms location_context;
     structure :=
       match structure location_context with
       | None => None
       | Some structure =>
           Some {| breadcrumbs :=
                     map (fun b => {| b_text := Py.take 50 (b_text b);
                                      b_href := Py.take 100 (b_href b) |})
                         (take 5 (breadcrumbs structure));
                   current_section :=
                     match current_section structure with
                     | Some current_section =>
                         Some {| s_type := s_type current_section;
                                 s_text_preview :=
                                   Py.take 150 (s_text_preview current_section) |}
                     | None => None
                     end;
                   structure_modals :=
                     match important_modal (structure_modals structure) with
                     | Some m => [critical_entries m]
                     | None => []
                     end |}
       end |}.

(** The [visible_modals] entry of the optimised dict, when it is set. *)
Definition optimize_visible_modals (visible_modals : visible_modals_info)
    : option visible_modals_info :=
  match important_modal (vm_modals visible_modals) with
  | Some m => Some {| vm_count := vm_count visible_modals;
                      vm_modals := [critical_entries m] |}
  | None => None
  end.

(** The dict that [optimize_page_info] returns and [prepare_context]
    completes: the entries that [format_context] reads. *)
Record optimized_page := {
  o_url : string;
  o_title : string;
  o_interactive_elements : list element;
  o_visible_text_preview : string;
  o_location_context : option location_context;
  o_completed_steps : list string;
  o_extracted_info : list (string * string);
  o_requirements_status : string
}.

(** [str(d)] for the optimised location dict and the optimised
    [visible_modals] dict. *)
Variable str_of_location : location_context -> string.
Variable str_of_visible_modals : visible_modals_info -> string.

(** [int(n * 0.7)] in the double-precision arithmetic of Python: [7n/10]
    truncated, or one less where the product is rounded below an integer
    ([int(90 * 0.7)] is [62]). *)
Variable int_times_0_7 : Z -> Z.

(** [str(l)] for a list of compact element dicts. *)
Definition str_of_elements (l : list element) : string :=
  "[" +:+ Py.join ", " (map str_of_element l) +:+ "]".

(** [TokenOptimizer.optimize_page_info], for a [max_tokens] that is not
    zero.  [int(max_tokens * 0.2)] is the truncated quotient by 5. *)
Definition optimize_page_info (page_info : page_info) (max_tokens : Z)
    (task_type : option string) : M optimized_page :=
  let reserved_tokens := (500 `max` (max_tokens `quot` 5))%Z in
  let available_tokens := (max_tokens - reserved_tokens)%Z in
  let location_context := location page_info in
  let optimized_location := optimize_location <$> location_context in
  let visible_modals := visible_modals page_info in
  let optimized_modals := visible_modals ≫= optimize_visible_modals in
  let elements := interactive_elements page_info in
  let elements_tokens := int_times_0_7 available_tokens in
  optimized_elements ← _optimize_elements elements elements_tokens task_type;
  let visible_text := visible_text_preview page_info in
  used_tokens ← count_tokens (str_of_elements optimized_elements);
  used_tokens ←
    match optimized_location with
    | Some l => n ← count_tokens (str_of_location l); mret (used_tokens + n)
    | None => mret used_tokens
    end;
  used_tokens ←
    match visible_modals with
    | Some _ =>
        n ← count_tokens (match optimized_modals with
                          | Some vm => str_of_visible_modals vm
                          | None => "{}"
                          end);
        mret (used_tokens + n)
    | None => mret used_tokens
    end;
  let text_tokens := (100 `max` (available_tokens - Z.of_nat used_tokens))%Z in
  mret {| o_url := url page_info;
          o_title := title page_info;
          o_interactive_elements := optimized_elements;
          o_visible_text_preview := _truncate_text visible_text text_tokens;
          o_location_context := optimized_location;
          o_completed_steps := [];
          o_extracted_info := [];
          o_requirements_status := "" |}.

End WithEncoding.

(** An entry of [ContextManager.history]. *)
Record history_entry := {
  h_action : string;
  h_result : Data.action_result;
  h_success : bool
}.

Global Instance history_entry_eq_dec : EqDecision history_entry.
Proof. solve_decision. Defined.

(** [f"{score:.1f}"] for an integer score. *)
Definition format_score (score : Z) : string := Data.str_of_Z score +:+ ".0".

(** [enumerate(l, 1)] followed by a map. *)
Definition enumerate1 {A B} (f : nat -> A -> B) (l : list A) : list B :=
  imap (fun i x => f (S i) x) l.

Definition str_of_nat (n : nat) : string := Data.str_of_Z (Z.of_nat n).

(** The line of an element in the form group and in the other group of
    [format_context]. *)
Definition form_element_line (i : nat) (elem : element) : string :=
  "  " +:+ str_of_nat i +:+ ". " +:+ el_type elem +:+
  (if Py.truthy (el_text elem) then " - '" +:+ el_text elem +:+ "'" else "") +:+
  (if Py.truthy (el_selector elem) then " (" +:+ el_selector elem +:+ ")" else "") +:+
  (if Py.truthy (el_placeholder elem)
   then " [placeholder: '" +:+ el_placeholder elem +:+ "']" else "") +:+
  (match el_relevance_score elem with
   | Some score => " [релевантность: " +:+ format_score score +:+ "]"
   | None => ""
   end).

Definition other_element_line (i : nat) (elem : element) : string :=
  "  " +:+ str_of_nat i +:+ ". " +:+ el_type elem +:+
  (if Py.truthy (el_text elem) then " - '" +:+ el_text elem +:+ "'" else "") +:+
  (if Py.truthy (el_selector elem) then " (" +:+ el_selector elem +:+ ")" else "") +:+
  (if Py.truthy (el_href elem) then
     let href := el_href elem in
     let href := if bool_decide (60 < Py.len href)
                 then Py.take 57 href +:+ "..." else href in
     " -> " +:+ href
   else "") +:+
  (match el_relevance_score elem with
   | Some score => " [релевантность: " +:+ format_score score +:+ "]"
   | None => ""
   end).

(** The lines of a history entry in [format_context]. *)
Definition history_lines (i : nat) (action : history_entry) : list string :=
  let result := h_result action in
  let success_marker := if Data.success result then "✓" else "✗" in
  ("  " +:+ str_of_nat i +:+ ". " +:+ success_marker +:+ " " +:+ h_action action) ::
  (if Py.truthy (Data.message result)
   then ["     → " +:+ Data.message result] else []).

(** [TokenOptimizer.format_context]. *)
Definition format_context (page_info : optimized_page) (history : list history_entry)
    : string :=
  let parts : list string :=
    ["Текущая страница: " +:+ o_url page_info;
     "Заголовок: " +:+ o_title page_info] ++
    (match o_location_context page_info with
     | Some location_context =>
         (if Py.truthy (description location_context)
          then [nl +:+ "📍 Местоположение: " +:+ description location_context]
          else []) ++
         (match breadcrumbs <$> structure location_context with
          | Some (b :: bs) =>
              ["   Навигация: " +:+ Py.join " > " (map b_text (b :: bs))]
          | _ => []
          end)
     | None => []
     end) ++
    (match o_interactive_elements page_info with
     | [] => []
     | elements =>
         let form_elements := List.filter el_in_form elements in
         let other_elements := List.filter (fun e => negb (el_in_form e)) elements in
         [nl +:+ "Доступные элементы на странице (всего: " +:+
            str_of_nat (length elements) +:+ "):"] ++
         (match form_elements with
          | [] => []
          | _ => (nl +:+ "📝 ЭЛЕМЕНТЫ В ФОРМЕ:") ::
                 enumerate1 form_element_line form_elements
          end) ++
         (match other_elements with
          | [] => []
          | _ => (nl +:+ "Остальные элементы:") ::
                 enumerate1 other_element_line other_elements
          end)
     end) ++
    (if Py.truthy (o_visible_text_preview page_info)
     then [nl +:+ "Видимый текст на странице (фрагмент):" +:+ nl +:+
             Py.take 300 (o_visible_text_preview page_info)]
     else []) ++
    (match o_completed_steps page_info with
     | [] => []
     | completed_steps =>
         (nl +:+ "✓ Выполненные шаги задачи:") ::
         enumerate1 (fun i step => "  " +:+ str_of_nat i +:+ ". " +:+ step) completed_steps
     end) ++
    (match o_extracted_info page_info with
     | [] => []
     | extracted_info =>
         (nl +:+ "📄 Извлеченная информация (уже прочитано, НЕ извлекай повторно):") ::
         map (fun '(desc, text) =>
                let text_preview :=
                  Py.take 200 text +:+
                  (if bool_decide (200 < Py.len text) then "..." else "") in
                "  - " +:+ desc +:+ ": " +:+ text_preview)
             extracted_info
     end) ++
    (if Py.truthy (o_requirements_status page_info)
     then [nl +:+ "📌 Прогресс по требованиям задачи:" +:+ nl +:+
             o_requirements_status page_info]
     else []) ++
    (match history with
     | [] => []
     | _ => (nl +:+ "История последних действий:") ::
            concat (enumerate1 history_lines (AgentState.last_n 5 history))
     end) in
  Py.join nl parts.

End TokenOptimizer.

(** ** [src/context/extractor.py] *)

Module ContextExtractor.
Import Page.

Definition STOP_WORDS : list string :=
  ["и"; "в"; "на"; "с"; "по"; "для"; "от"; "до"; "из"; "к"; "о"; "об"; "со";
   "the"; "a"; "an"; "and"; "or"; "in"; "on"; "at"; "to"; "for"; "of"; "with"].

Definition TASK_KEYWORDS : list (string * list string) := [
  ("navigation", ["найти"; "найди"; "открыть"; "открой"; "перейти"; "перейди";
                  "ссылка"; "link"; "find"; "open"; "go"]);
  ("form", ["форма"; "заполнить"; "заполни"; "ввести"; "введи"; "поле"; "field";
            "form"; "fill"; "input"]);
  ("extraction", ["прочитать"; "прочитай"; "извлечь"; "извлеки"; "найти информацию";
                  "read"; "extract"; "get"]);
  ("action", ["кликнуть"; "кликни"; "нажать"; "нажми"; "click"; "press"; "button"])
].

(** A character of a word ([\w]): an ASCII letter, digit or underscore;
    the bytes of a character outside ASCII count as letters. *)
Definition is_word_char (c : ascii) : bool :=
  let n := Py.byte_of c in
  ((48 <=? n) && (n <=? 57) || (65 <=? n) && (n <=? 90) || (n =? 95)
   || (97 <=? n) && (n <=? 122) || (128 <=? n))%N.

(** [re.findall(r'\b\w+\b', text)]: the maximal runs of word characters. *)
Fixpoint words_go (cur : option string) (s : string) : list string :=
  match s with
  | EmptyString => option_list (String.rev <$> cur)
  | String a s' =>
      if is_word_char a
      then words_go (Some (from_option (String a) (String a "") cur)) s'
      else option_list (String.rev <$> cur) ++ words_go None s'
  end.

(** [ContextExtractor._extract_keywords]. *)
Definition _extract_keywords (text : string) : list string :=
  let text_lower := Py.lower text in
  let words := words_go None text_lower in
  List.filter (fun w => bool_decide (2 < Py.len w) && negb (bool_decide (w ∈ STOP_WORDS)))
              words.

(** [ContextExtractor._calculate_relevance_score] on a compact element
    dict, which has none of the keys [in_main_content],
    [in_footer_header] and [visible]: the first two read as false, the
    third as its default [True]. *)
Definition _calculate_relevance_score (element : element) (task_keywords : list string)
    (task_type : option string) : Z :=
  let element_text := Py.lower (el_text element) in
  let element_href := Py.lower (el_href element) in
  let element_placeholder := Py.lower (el_placeholder element) in
  let keyword_score keyword : Z :=
    ((if Py.contains keyword element_text then 3 else 0) +
     (if Py.contains keyword element_href then 2 else 0) +
     (if Py.contains keyword element_placeholder then 2 else 0) +
     (if bool_decide (3 < Py.len keyword)%nat
         && (Py.contains keyword element_text || Py.contains element_text keyword)
      then 1 else 0))%Z in
  let score := foldl (fun score keyword => (score + keyword_score keyword)%Z) 0%Z
                     task_keywords in
  let score :=
    match task_type with
    | Some task_type =>
        let task_keywords_list :=
          default [] (ErrorHandler.dict_get TASK_KEYWORDS task_type) in
        foldl (fun score task_kw =>
                 if Py.contains task_kw element_text then (score + 2)%Z else score)
              score task_keywords_list
    | None => score
    end in
  let score := if Py.truthy (el_id element) then (score + 1)%Z else score in
  let in_main_content := false in
  let score := if in_main_content then (score + 2)%Z else score in
  let in_footer_header := false in
  let score := if in_footer_header then (score - 1)%Z else score in
  let visible := true in
  let score := if visible then (score + 1)%Z else score in
  score.

(** [ContextExtractor._detect_task_type]. *)
Definition _detect_task_type (task_description : string) : option string :=
  let task_lower := Py.lower task_description in
  fst <$> List.find (fun '(_, keywords) => Py.any_in keywords task_lower) TASK_KEYWORDS.

Definition with_score (score : Z) (element : element) : Page.element :=
  {| el_type := el_type element; el_selector := el_selector element;
     el_text := el_text element; el_in_modal := el_in_modal element;
     el_in_form := el_in_form element; el_relevance_score := Some score;
     el_id := el_id element; el_href := el_href element;
     el_input_type := el_input_type element;
     el_placeholder := el_placeholder element |}.

(** [ContextExtractor.extract_relevant_elements] on the compact elements
    of an optimised page (a compact dict has no key that starts with
    [data_]). *)
Definition extract_relevant_elements (elements : list element)
    (task_description : string) : list element :=
  match elements with
  | [] => []
  | _ =>
      let task_keywords := _extract_keywords task_description in
      let task_type := _detect_task_type task_description in
      let scored_elements :=
        omap (fun element =>
                let score := _calculate_relevance_score element task_keywords task_type in
                if (0 <? score)%Z then Some (with_score score element) else None)
             elements in
      let scored_elements :=
        TokenOptimizer.sorted_desc (fun x => default 0%Z (el_relevance_score x)) Z.ltb
          scored_elements in
      let scored_selectors := map el_selector scored_elements in
      let has_data_attribute := false in
      let important_elements :=
        List.filter (fun element =>
                       negb (bool_decide (el_selector element ∈ scored_selectors))
                       && (Py.truthy (el_id element) || has_data_attribute))
                    elements in
      scored_elements ++
      map (with_score 1)
          (List.filter (fun elem =>
                          negb (bool_decide (el_selector elem ∈ scored_selectors)))
                       important_elements)
  end.

(** [x.get("relevance_score", 0)], and a list of scores in descending
    order. *)
Definition score_of (e : element) : Z := default 0%Z (el_relevance_score e).

Fixpoint descending (l : list Z) : bool :=
  match l with
  | x :: (y :: _) as l' => (y <=? x)%Z && descending l'
  | _ => true
  end.

End ContextExtractor.

(** ** [src/context/manager.py] *)

Module ContextManager.
Import Page TokenCache TokenOptimizer.

(** The defaults of [config/config.py]. *)
Definition MAX_CONTEXT_TOKENS : Z := 3000.
Definition MAX_HISTORY_TOKENS : Z := 2000.
Definition MAX_REQUEST_TOKENS : Z := 25000.

(** The fields of a [ContextManager] ([extracted_info] and
    [requirements] are dicts in insertion order, [progress_counters] is a
    [Counter]).  The token cache of its [TokenOptimizer] is threaded
    apart, through [TokenCache.M]. *)
Record manager := {
  history : list history_entry;
  current_task : option string;
  extracted_info : list (string * string);
  completed_steps : list string;
  progress_counters : gmap string Z;
  requirements : list (string * Z);
  require_resume_review : bool;
  resume_reviewed : bool;
  pending_resume_wizard : bool
}.

(** [ContextManager.__init__]. *)
Definition new_manager : manager :=
  {| history := []; current_task := None; extracted_info := [];
     completed_steps := []; progress_counters := ∅; requirements := [];
     require_resume_review := false; resume_reviewed := false;
     pending_resume_wizard := false |}.

(** [self.progress_counters.get(key, 0)]. *)
Definition progress (cm : manager) (key : string) : Z :=
  default 0%Z (progress_counters cm !! key).

(** [ContextManager.can_complete_task]. *)
Definition can_complete_task (cm : manager) : bool :=
  forallb (fun '(key, count) => negb (progress cm key <? count)%Z) (requirements cm).

(** The two fields that [can_complete_task] reads. *)
Definition counters (cm : manager) : list (string * Z) * gmap string Z :=
  (requirements cm, progress_counters cm).

(** [ContextManager.get_pending_requirements_message]. *)
Definition get_pending_requirements_message (cm : manager) : string :=
  let messages :=
    omap (fun '(key, count) =>
            let current := progress cm key in
            if (current <? count)%Z
            then Some ("нужно " +:+ Data.str_of_Z count +:+ " " +:+ key +:+
                       ", выполнено " +:+ Data.str_of_Z current)
            else None)
         (requirements cm) in
  Py.join "; " messages.

(** [ContextManager._build_requirements_status] and
    [get_requirements_status]. *)
Definition get_requirements_status (cm : manager) : string :=
  Py.join nl
    (map (fun '(key, count) =>
            key +:+ ": " +:+ Data.str_of_Z (progress cm key) +:+ "/" +:+
            Data.str_of_Z count)
         (requirements cm)).

(** The digits of a text as a number: [int(s)]. *)
Definition is_digit (c : ascii) : bool :=
  ((48 <=? Py.byte_of c) && (Py.byte_of c <=? 57))%N.

Definition int_of_digits (digits : string) : Z :=
  fold_left (fun n c => (10 * n + Z.of_N (Py.byte_of c - 48))%Z)
            (list_ascii_of_string digits) 0%Z.

(** A match, at the head of [s], of the pattern of
    [_parse_task_requirements]: digits, blanks, then a run of characters
    other than a line break, a full stop, a semicolon or a comma.  The
    result holds the number, the run and what follows the match. *)
Definition match_requirement (s : string) : option (Z * string * string) :=
  let '(digits, s1) := Py.span is_digit s in
  let '(blanks, s2) := Py.span Ascii.is_space s1 in
  match digits, blanks with
  | String _ _, String _ _ =>
      let '(run, rest) :=
        Py.span (fun c => negb (Py.char_in (String (ascii_of_nat 10)
                                                  (String (ascii_of_nat 13) ".;,")) c))
                      s2 in
      Some (int_of_digits digits, run, rest)
  | _, _ => None
  end.

(** The loop over [re.finditer] in [_parse_task_requirements]: [best] is
    [requirements.get("applications")]. *)
Fixpoint parse_requirements_from (fuel : nat) (s : string) (best : option Z)
    : option Z :=
  match fuel with
  | 0 => best
  | S fuel' =>
      match s with
      | EmptyString => best
      | String _ s' =>
          match match_requirement s with
          | Some (count, run, rest) =>
              let window := Py.take 50 run in
              parse_requirements_from fuel' rest
                (if Py.any_in ["ваканс"; "отклик"; "respond"; "apply"] window
                 then Some (default 0%Z best `max` count)%Z
                 else best)
          | None => parse_requirements_from fuel' s' best
          end
      end
  end.

(** [ContextManager._parse_task_requirements]. *)
Definition _parse_task_requirements (task : string) : list (string * Z) :=
  let task_lower := Py.lower task in
  match parse_requirements_from (String.length task_lower) task_lower None with
  | Some count => [("applications", count)]
  | None => []
  end.

(** [ContextManager._needs_resume_review]. *)
Definition _needs_resume_review (task : string) : bool :=
  let task_lower := Py.lower task in
  Py.contains "резюме" task_lower
  && Py.any_in ["изуч"; "прочит"; "предварительно"; "study"; "review"] task_lower.

(** [ContextManager.set_task]. *)
Definition set_task (cm : manager) (task : string) : manager :=
  {| history := history cm; current_task := Some task; extracted_info := [];
     completed_steps := []; progress_counters := ∅;
     requirements := _parse_task_requirements task;
     require_resume_review := _needs_resume_review task;
     resume_reviewed := false; pending_resume_wizard := false |}.

(** [ContextManager.add_completed_step]. *)
Definition add_completed_step (cm : manager) (step : string) : manager :=
  if bool_decide (step ∈ completed_steps cm) then cm
  else {| history := history cm; current_task := current_task cm;
          extracted_info := extracted_info cm;
          completed_steps := completed_steps cm ++ [step];
          progress_counters := progress_counters cm; requirements := requirements cm;
          require_resume_review := require_resume_review cm;
          resume_reviewed := resume_reviewed cm;
          pending_resume_wizard := pending_resume_wizard cm |}.

(** [ContextManager.clear_history]. *)
Definition clear_history (cm : manager) : manager :=
  {| history := []; current_task := current_task cm;
     extracted_info := extracted_info cm; completed_steps := completed_steps cm;
     progress_counters := progress_counters cm; requirements := requirements cm;
     require_resume_review := require_resume_review cm;
     resume_reviewed := resume_reviewed cm;
     pending_resume_wizard := pending_resume_wizard cm |}.

(** [ContextManager.update_progress]: the body of the method is [pass]. *)
Definition update_progress {D O : Type} (cm : manager) (decision : D)
    (action_result : Data.action_result) (outcome_analysis : O) : manager := cm.

(** [ContextManager.add_extracted_info]: [d[description] = text] on an
    insertion-ordered dict. *)
Fixpoint dict_set (d : list (string * string)) (key value : string)
    : list (string * string) :=
  match d with
  | [] => [(key, value)]
  | (k, v) :: d' =>
      if String.eqb k key then (k, value) :: d' else (k, v) :: dict_set d' key value
  end.

(** The task type chosen at the head of [prepare_context]. *)
Definition task_type_of (current_task : option string) : option string :=
  match current_task with
  | Some task =>
      if negb (Py.truthy task) then None
      else
        let task_lower := Py.lower task in
        if Py.any_in ["заполни"; "введи"; "форма"; "fill"; "form"; "input"] task_lower
        then Some "form"
        else if Py.any_in ["найди"; "перейди"; "открой"; "navigate"; "go to"; "find"]
                  task_lower
        then Some "navigation"
        else if Py.any_in ["прочитай"; "извлеки"; "read"; "extract"] task_lower
        then Some "reading"
        else None
  | None => None
  end.

Definition with_elements (p : optimized_page) (elements : list element)
    (preview : string) : optimized_page :=
  {| o_url := o_url p; o_title := o_title p;
     o_interactive_elements := elements;
     o_visible_text_preview := preview;
     o_location_context := o_location_context p;
     o_completed_steps := o_completed_steps p;
     o_extracted_info := o_extracted_info p;
     o_requirements_status := o_requirements_status p |}.

Definition relevance (e : element) : Z := default 0%Z (el_relevance_score e).

(** The records kept by the history trimming of [prepare_context]. *)
Definition important_record (action_record : history_entry) : bool :=
  String.eqb (h_action action_record) "navigate"
  || (String.eqb (h_action action_record) "click_element"
      && Data.success (h_result action_record))
  || String.eqb (h_action action_record) "task_complete".

Section WithEncoding.

Variable token : Type.
Variable encode : string -> list token.
Variable decode : list token -> string.
Variable str_of_element : element -> string.
Variable str_of_location : location_context -> string.
Variable str_of_visible_modals : visible_modals_info -> string.
Variable int_times_0_7 : Z -> Z.

(** [int(n * (max_tokens / context_tokens))] in the double-precision
    arithmetic of Python. *)
Variable int_scaled : nat -> Z -> nat -> Z.

(** The page dict that [prepare_context] hands to [format_context] the
    first time. *)
Definition assemble_page (cm : manager) (page_info : page_info) (max_tokens : Z)
    : M optimized_page :=
  let task_type := task_type_of (current_task cm) in
  optimized_page_info ←
    optimize_page_info token encode decode str_of_element str_of_location
      str_of_visible_modals int_times_0_7 page_info max_tokens task_type;
  let interactive_elements :=
    match current_task cm with
    | Some task =>
        if Py.truthy task then
          match ContextExtractor.extract_relevant_elements
                  (o_interactive_elements optimized_page_info) task with
          | [] => o_interactive_elements optimized_page_info
          | relevant_elements => relevant_elements
          end
        else o_interactive_elements optimized_page_info
    | None => o_interactive_elements optimized_page_info
    end in
  let location_context :=
    match location page_info with
    | Some location_context => Some location_context
    | None => o_location_context optimized_page_info
    end in
  let extracted_summary :=
    map (fun '(desc, text) =>
           (desc, Py.take 500 text +:+
                  (if bool_decide (500 < Py.len text) then "..." else "")))
        (extracted_info cm) in
  mret {| o_url := o_url optimized_page_info;
          o_title := o_title optimized_page_info;
          o_interactive_elements := interactive_elements;
          o_visible_text_preview := o_visible_text_preview optimized_page_info;
          o_location_context := location_context;
          o_completed_steps := completed_steps cm;
          o_extracted_info := extracted_summary;
          o_requirements_status := get_requirements_status cm |}.

(** [ContextManager.prepare_context]; [max_tokens] is [None] when the
    caller leaves it out.  The test [reduction_factor > 0.8] on the float
    [max_tokens / context_tokens] is the test
    [4 * context_tokens < 5 * max_tokens] (for fewer than 10^15 tokens).
    In the light reduction the element dicts are cut in place, so that
    the list [important_elements], which shares them, sees the cut
    texts. *)
Definition prepare_context (cm : manager) (page_info : page_info)
    (max_tokens : option Z) : M string :=
  let max_tokens :=
    match max_tokens with
    | Some n => if (n =? 0)%Z then MAX_CONTEXT_TOKENS else n
    | None => MAX_CONTEXT_TOKENS
    end in
  optimized_page_info ← assemble_page cm page_info max_tokens;
  let context := format_context optimized_page_info (history cm) in
  context_tokens ← count_tokens token encode context;
  if (max_tokens <? Z.of_nat context_tokens)%Z then
    let light := (4 * Z.of_nat context_tokens <? 5 * max_tokens)%Z in
    let elements :=
      if light then
        map (fun elem =>
               if Py.truthy (el_text elem) && bool_decide (30 < Py.len (el_text elem))
               then {| el_type := el_type elem; el_selector := el_selector elem;
                       el_text := Py.take 30 (el_text elem);
                       el_in_modal := el_in_modal elem; el_in_form := el_in_form elem;
                       el_relevance_score := el_relevance_score elem;
                       el_id := el_id elem; el_href := el_href elem;
                       el_input_type := el_input_type elem;
                       el_placeholder := el_placeholder elem |}
               else elem)
            (o_interactive_elements optimized_page_info)
      else o_interactive_elements optimized_page_info in
    let important_elements := List.filter (fun e => (5 <? relevance e)%Z) elements in
    let less_important_elements :=
      List.filter (fun e => (relevance e <=? 5)%Z) elements in
    let optimized_page_info :=
      if light then
        with_elements optimized_page_info elements
          (Py.take 500 (o_visible_text_preview optimized_page_info))
      else
        let keep_count :=
          (10 `max` int_scaled (length less_important_elements) max_tokens
                      context_tokens)%Z in
        with_elements optimized_page_info
          (important_elements ++ take (Z.to_nat keep_count) less_important_elements)
          (Py.take 200 (o_visible_text_preview optimized_page_info)) in
    let important_history := List.filter important_record (history cm) in
    let recent_history :=
      if bool_decide (3 < length (history cm)) then AgentState.last_n 3 (history cm)
      else history cm in
    let combined_history :=
      important_history ++
      List.filter (fun h => negb (bool_decide (h ∈ important_history))) recent_history in
    let context :=
      format_context optimized_page_info (AgentState.last_n 5 combined_history) in
    context_tokens ← count_tokens token encode context;
    if (max_tokens <? Z.of_nat context_tokens)%Z then
      let important_elements :=
        match important_elements with
        | [] =>
            let current_elements := o_interactive_elements optimized_page_info in
            match List.filter (fun e => (5 <? relevance e)%Z) current_elements with
            | [] => take 15 current_elements
            | l => l
            end
        | _ => important_elements
        end in
      let optimized_page_info :=
        with_elements optimized_page_info (take 15 important_elements) "" in
      mret (format_context optimized_page_info
              (if bool_decide (2 < length combined_history)
               then AgentState.last_n 2 combined_history else combined_history))
    else mret context
  else mret context.

(** The stages of [prepare_context] that follow the first measurement,
    as functions of the page it assembled, of the number of tokens it
    measured for it and of the history: the elements after the light
    cut, the page of the reduced context, the history that the reduction
    keeps, the reduced context, and the context of the last stage. *)
Definition cut_elements (max_tokens : Z) (context_tokens : nat)
    (optimized_page_info : optimized_page) : list element :=
  if (4 * Z.of_nat context_tokens <? 5 * max_tokens)%Z then
    map (fun elem =>
           if Py.truthy (el_text elem) && bool_decide (30 < Py.len (el_text elem))
           then {| el_type := el_type elem; el_selector := el_selector elem;
                   el_text := Py.take 30 (el_text elem);
                   el_in_modal := el_in_modal elem; el_in_form := el_in_form elem;
                   el_relevance_score := el_relevance_score elem;
                   el_id := el_id elem; el_href := el_href elem;
                   el_input_type := el_input_type elem;
                   el_placeholder := el_placeholder elem |}
           else elem)
        (o_interactive_elements optimized_page_info)
  else o_interactive_elements optimized_page_info.

Definition reduced_page (max_tokens : Z) (context_tokens : nat)
    (optimized_page_info : optimized_page) : optimized_page :=
  let elements := cut_elements max_tokens context_tokens optimized_page_info in
  let important_elements := List.filter (fun e => (5 <? relevance e)%Z) elements in
  let less_important_elements :=
    List.filter (fun e => (relevance e <=? 5)%Z) elements in
  if (4 * Z.of_nat context_tokens <? 5 * max_tokens)%Z then
    with_elements optimized_page_info elements
      (Py.take 500 (o_visible_text_preview optimized_page_info))
  else
    let keep_count :=
      (10 `max` int_scaled (length less_important_elements) max_tokens
                  context_tokens)%Z in
    with_elements optimized_page_info
      (important_elements ++ take (Z.to_nat keep_count) less_important_elements)
      (Py.take 200 (o_visible_text_preview optimized_page_info)).

Definition combined_history (history : list history_entry) : list history_entry :=
  let important_history := List.filter important_record history in
  let recent_history :=
    if bool_decide (3 < length history) then AgentState.last_n 3 history
    else history in
  important_history ++
  List.filter (fun h => negb (bool_decide (h ∈ important_history))) recent_history.

Definition reduced_context (max_tokens : Z) (context_tokens : nat)
    (optimized_page_info : optimized_page) (history : list history_entry) : string :=
  format_context (reduced_page max_tokens context_tokens optimized_page_info)
    (AgentState.last_n 5 (combined_history history)).

Definition last_context (max_tokens : Z) (context_tokens : nat)
    (optimized_page_info : optimized_page) (history : list history_entry) : string :=
  let elements := cut_elements max_tokens context_tokens optimized_page_info in
  let important_elements := List.filter (fun e => (5 <? relevance e)%Z) elements in
  let reduced := reduced_page max_tokens context_tokens optimized_page_info in
  let important_elements :=
    match important_elements with
    | [] =>
        let current_elements := o_interactive_elements reduced in
        match List.filter (fun e => (5 <? relevance e)%Z) current_elements with
        | [] => take 15 current_elements
        | l => l
        end
    | _ => important_elements
    end in
  format_context (with_elements reduced (take 15 important_elements) "")
    (if bool_decide (2 < length (combined_history history))
     then AgentState.last_n 2 (combined_history history)
     else combined_history history).

(** [str(l)] for a list of history entries. *)
Variable str_of_history : list history_entry -> string.

Definition with_history (cm : manager) (h : list history_entry) : manager :=
  {| history := h; current_task := current_task cm;
     extracted_info := extracted_info cm; completed_steps := completed_steps cm;
     progress_counters := progress_counters cm; requirements := requirements cm;
     require_resume_review := require_resume_review cm;
     resume_reviewed := resume_reviewed cm;
     pending_resume_wizard := pending_resume_wizard cm |}.

(** [ContextManager.add_extracted_info]. *)
Definition add_extracted_info (cm : manager) (description text : string) : manager :=
  {| history := history cm; current_task := current_task cm;
     extracted_info := dict_set (extracted_info cm) description text;
     completed_steps := completed_steps cm;
     progress_counters := progress_counters cm; requirements := requirements cm;
     require_resume_review := require_resume_review cm;
     resume_reviewed := resume_reviewed cm;
     pending_resume_wizard := pending_resume_wizard cm |}.

(** The classification of [_trim_history]. *)
Definition is_important (action_record : history_entry) : bool :=
  let action := h_action action_record in
  let success := Data.success (h_result action_record) in
  String.eqb action "navigate" || (String.eqb action "click_element" && success)
  || String.eqb action "task_complete" || (String.eqb action "extract_text" && success).

Definition is_less_important (action_record : history_entry) : bool :=
  let action := h_action action_record in
  let success := Data.success (h_result action_record) in
  String.eqb action "scroll" || String.eqb action "wait_for_element" || negb success.

(** The [while] loop of [_trim_history]: it returns the final value of
    [keep_important]. *)
Fixpoint compress_history (important_actions less_tail : list history_entry)
    (keep_important new_history_tokens : nat) : M nat :=
  if (MAX_HISTORY_TOKENS <? Z.of_nat new_history_tokens)%Z then
    match keep_important with
    | 0 => mret 0
    | S keep_important =>
        let compressed_history :=
          Data.slice_last keep_important important_actions ++ less_tail in
        new_history_tokens ←
          count_tokens token encode (str_of_history compressed_history);
        compress_history important_actions less_tail keep_important new_history_tokens
    end
  else mret keep_important.

(** [ContextManager._trim_history]. *)
Definition _trim_history (cm : manager) : M manager :=
  history_tokens ← count_tokens token encode (str_of_history (history cm));
  if (Z.of_nat history_tokens <=? MAX_HISTORY_TOKENS)%Z then mret cm
  else
    let important_actions :=
      List.filter (fun r => is_important r || negb (is_less_important r)) (history cm) in
    let less_important_actions :=
      List.filter (fun r => negb (is_important r) && is_less_important r) (history cm) in
    let keep_less_important := length less_important_actions `min` 5 in
    let less_tail := Data.slice_last keep_less_important less_important_actions in
    let new_history := important_actions ++ less_tail in
    new_history_tokens ← count_tokens token encode (str_of_history new_history);
    if (Z.of_nat new_history_tokens <=? MAX_HISTORY_TOKENS)%Z
    then mret (with_history cm new_history)
    else
      keep_important ←
        compress_history important_actions less_tail (length important_actions)
          new_history_tokens;
      if bool_decide (0 < keep_important) then
        mret (with_history cm
                (Data.slice_last keep_important important_actions ++ less_tail))
      else
        let keep_count := length (history cm) / 2 in
        mret (with_history cm (Data.slice_last keep_count (history cm))).

(** [ContextManager.add_to_history]. *)
Definition add_to_history (cm : manager) (action : string)
    (result : Data.action_result) : M manager :=
  let cm :=
    with_history cm
      (history cm ++ [{| h_action := action; h_result := result;
                         h_success := Data.success result |}]) in
  let cm :=
    if Py.contains "extract_text" (Py.lower action) && Data.success result
       && Py.truthy (Data.text result)
    then
      let params_str :=
        if Py.contains "(" action
        then Py.before ")" (Py.before "(" (Py.after "(" action)) else "" in
      let description :=
        Py.remove_char Py.dq
          (Py.remove_char "'" (Py.remove_all "description=" params_str)) in
      add_extracted_info cm
        (if Py.truthy description then description else "текст") (Data.text result)
    else cm in
  _trim_history cm.

(** [ContextManager.estimate_request_size]; [tools_str] is
    [json.dumps(tools, ensure_ascii=False)], or [None] when [tools] is
    empty or absent. *)
Definition estimate_request_size (system_prompt user_message : string)
    (tools_str : option string) : M nat :=
  system_tokens ← count_tokens token encode system_prompt;
  user_tokens ← count_tokens token encode user_message;
  tools_tokens ←
    match tools_str with
    | Some tools_str => count_tokens token encode tools_str
    | None => mret 0
    end;
  mret (system_tokens + user_tokens + tools_tokens).

End WithEncoding.

(** Stand-ins for the parameters, for evaluating the definitions on
    concrete inputs.  The sample tokenizer makes one token of every
    blank-separated word, which is at most what a byte-pair encoding
    that never merges across blanks counts. *)
Definition sample_encode (text : string) : list string := Py.split text.
Definition sample_decode (tokens : list string) : string := Py.join " " tokens.

Definition sample_str_of_element (e : element) : string :=
  "{'type': '" +:+ el_type e +:+ "', 'selector': '" +:+ el_selector e +:+ "'" +:+
  (if el_in_modal e then ", 'in_modal': True" else "") +:+
  (if el_in_form e then ", 'in_form': True" else "") +:+
  (if Py.truthy (el_text e) then ", 'text': '" +:+ el_text e +:+ "'" else "") +:+
  (match el_relevance_score e with
   | Some score => ", 'relevance_score': " +:+ Data.str_of_Z score
   | None => ""
   end) +:+
  (if Py.truthy (el_href e) then ", 'href': '" +:+ el_href e +:+ "'" else "") +:+
  (if Py.truthy (el_id e) then ", 'id': '" +:+ el_id e +:+ "'" else "") +:+
  (if Py.truthy (el_input_type e) then ", 'input_type': '" +:+ el_input_type e +:+ "'"
   else "") +:+
  (if Py.truthy (el_placeholder e) then ", 'placeholder': '" +:+ el_placeholder e +:+ "'"
   else "") +:+ "}".

Definition sample_str_of_location (l : location_context) : string :=
  "{'description': '" +:+ description l +:+ "'}".

Definition sample_str_of_visible_modals (vm : visible_modals_info) : string :=
  "{'count': " +:+ Data.str_of_Z (vm_count vm) +:+ "}".

Definition sample_int_times_0_7 (n : Z) : Z := ((7 * n) `quot` 10)%Z.

Definition sample_int_scaled (n : nat) (max_tokens : Z) (context_tokens : nat) : Z :=
  ((Z.of_nat n * max_tokens) `quot` Z.of_nat context_tokens)%Z.

Definition sample_prepare_context :=
  prepare_context string sample_encode sample_decode sample_str_of_element
    sample_str_of_location sample_str_of_visible_modals sample_int_times_0_7
    sample_int_scaled.

(** The page of [tests/test_agent.py]. *)
Definition example_page : page_info :=
  {| url := "https://example.com";
     title := "Example Domain";
     interactive_elements :=
       [{| el_type := "link"; el_selector := "a"; el_text := "More information...";
           el_in_modal := false; el_in_form := false; el_relevance_score := None;
           el_id := ""; el_href := ""; el_input_type := ""; el_placeholder := "" |}];
     visible_text_preview := "Example Domain";
     location := None;
     visible_modals := None |}.

(** A manager whose task is set and whose other fields are cleared. *)
Definition manager_for (task : string) (reqs : list (string * Z)) : manager :=
  {| history := []; current_task := Some task; extracted_info := [];
     completed_steps := []; progress_counters := ∅; requirements := reqs;
     require_resume_review := false; resume_reviewed := false;
     pending_resume_wizard := false |}.

End ContextManager.

(** ** [src/actions/action_executor.py]: the questions about the page *)

Module ActionExecutor.
Import Data AgentState.

(** [ActionExecutor._normalize_query_for_comparison]. *)
Definition _normalize_query_for_comparison (query : string) : string :=
  let normalized := Py.strip (Py.lower query) in
  let normalized := Py.join " " (Py.split normalized) in
  Py.rstrip "?.,!;:" normalized.


(** The dict returned by [_query_dom]; a key that the dict lacks is
    [None], and [from_cache] is false when the key is absent. *)
Record query_result := {
  qr_success : bool;
  qr_answer : option string;
  qr_message : option string;
  qr_from_cache : bool;
  qr_extracted_selector : option string;
  qr_error : option string
}.

Definition query_error (error : string) : query_result :=
  {| qr_success := false; qr_answer := None; qr_message := None;
     qr_from_cache := false; qr_extracted_selector := None;
     qr_error := Some error |}.

(** What a call returns or raises. *)
Inductive outcome (A : Type) :=
| Returned (value : A)
| Raised (exception : string).

Arguments Returned {A} value.
Arguments Raised {A} exception.

(** The part of the dict returned by [SubAgentManager.query_dom] that
    [_query_dom] reads: the answer when [success] is true, the [error]
    entry (if any) otherwise. *)
Inductive sub_agent_reply :=
| Answered (answer : string)
| Declined (error : option string).

Section WithSubAgent.

Variable page : Type.

(** [self.extractor.extract_page_info()] at the time of the call,
    [ContextManager(OPENAI_MODEL).prepare_context(page_info)] on a fresh
    context manager, and the method [query_dom] of the sub-agent manager
    ([None] when the executor has no sub-agent manager). *)
Variable extract_page_info : outcome page.
Variable fresh_context : page -> outcome string.
Variable sub_agent_manager : option (string -> string -> page -> outcome sub_agent_reply).

(** [ActionExecutor.extract_selector_from_answer] and
    [ActionExecutor.normalize_selector]. *)
Variable extract_selector_from_answer : string -> option string.
Variable normalize_selector : string -> string.

(** The [extracted_selector] entry that [_query_dom] adds for an answer. *)
Definition selector_entry (answer : string) : option string :=
  match extract_selector_from_answer answer with
  | Some extracted_selector =>
      if Py.truthy extracted_selector then
        let extracted_selector := normalize_selector extracted_selector in
        if Py.truthy extracted_selector then Some extracted_selector else None
      else None
  | None => None
  end.

(** [ActionExecutor._query_dom], with the questions that it put to the
    sub-agent manager, each with the context it was sent with. *)
Definition _query_dom (state_manager : option manager) (parameters : params)
    : query_result * list (string * string) :=
  let query := pget parameters "query" in
  if negb (Py.truthy query) then
    (query_error "Требуется вопрос (параметр 'query')", [])
  else
    match sub_agent_manager with
    | None =>
        (query_error "Sub-agent manager не доступен. query_dom требует sub-агентов.", [])
    | Some sub_agent_query_dom =>
        let asked_before :=
          match state_manager with
          | Some state_manager =>
              let recent_queries := get_recent_query_dom_info state_manager 10 in
              let normalized_query := _normalize_query_for_comparison query in
              List.find (fun q => String.eqb (q_normalized_query q) normalized_query)
                        recent_queries
          | None => None
          end in
        match asked_before with
        | Some q =>
            let answer := q_answer q in
            ({| qr_success := true; qr_answer := Some answer;
                qr_message := Some "Использован предыдущий ответ на вопрос";
                qr_from_cache := true;
                qr_extracted_selector := selector_entry answer;
                qr_error := None |}, [])
        | None =>
            match extract_page_info with
            | Raised e => (query_error ("Ошибка при выполнении query_dom: " +:+ e), [])
            | Returned page_info =>
                match fresh_context page_info with
                | Raised e =>
                    (query_error ("Ошибка при выполнении query_dom: " +:+ e), [])
                | Returned context =>
                    let asked := [(query, context)] in
                    match sub_agent_query_dom query context page_info with
                    | Raised e =>
                        (query_error ("Ошибка при выполнении query_dom: " +:+ e), asked)
                    | Returned (Answered answer) =>
                        ({| qr_success := true; qr_answer := Some answer;
                            qr_message := Some "DOM Sub-agent ответил на вопрос";
                            qr_from_cache := false;
                            qr_extracted_selector := selector_entry answer;
                            qr_error := None |}, asked)
                    | Returned (Declined error) =>
                        (query_error
                           ("Не удалось получить ответ от DOM Sub-agent'а: " +:+
                            default "Неизвестная ошибка" error), asked)
                    end
                end
            end
        end
    end.

End WithSubAgent.

(** Stand-ins for the collaborators, for evaluating [_query_dom] on
    concrete inputs: the page is the example page, its context a fixed
    text, the sub-agent always names the same selector, and the selector
    of an answer is the answer itself. *)
Definition sample_sub_agent (query context : string) (page_info : Page.page_info)
    : outcome sub_agent_reply :=
  Returned (Answered "input#search").

Definition sample_query_dom :=
  _query_dom Page.page_info (Returned ContextManager.example_page)
    (fun _ => Returned "Текущая страница: https://example.com")
    (Some sample_sub_agent) (fun answer => Some answer) (fun selector => selector).

End ActionExecutor.

(** ** [src/agent/main_agent.py]: the decision *)

Module Decision.
Import Data TokenCache.

(** A match, at the head of [s], of the pattern of the salvage step: a
    quoted word, a colon, optional blanks and a quoted text without
    quotes.  The result holds the word, the text and what follows the
    match. *)
Definition match_pair (s : string) : option (string * string * string) :=
  match s with
  | String q1 s1 =>
      if Ascii.eqb q1 Py.dq then
        let '(key, s2) := Py.span ContextExtractor.is_word_char s1 in
        match key, s2 with
        | String _ _, String q2 (String colon s3) =>
            if Ascii.eqb q2 Py.dq && Ascii.eqb colon ":" then
              match Py.lstrip_by Ascii.is_space s3 with
              | String q3 s5 =>
                  if Ascii.eqb q3 Py.dq then
                    let '(value, s6) := Py.span (fun a => negb (Ascii.eqb a Py.dq)) s5 in
                    match s6 with
                    | String _ s7 => Some (key, value, s7)
                    | EmptyString => None
                    end
                  else None
              | EmptyString => None
              end
            else None
        | _, _ => None
        end
      else None
  | EmptyString => None
  end.

(** [re.findall] for that pattern: the matches from left to right, each
    search resuming after the previous match.  [fuel] bounds the number
    of positions tried. *)
Fixpoint findall_pairs_from (fuel : nat) (s : string) : list (string * string) :=
  match fuel with
  | 0 => []
  | S fuel' =>
      match s with
      | EmptyString => []
      | String _ s' =>
          match match_pair s with
          | Some (key, value, rest) => (key, value) :: findall_pairs_from fuel' rest
          | None => findall_pairs_from fuel' s'
          end
      end
  end.

Definition findall_pairs (s : string) : list (string * string) :=
  findall_pairs_from (String.length s) s.

(** [s[:i]] and [s[:-1]], [s[-1]] by position. *)
Definition prefix_to (i : nat) (s : string) : string := String.substring 0 i s.

(** The repair attempted on an argument string that [json.loads]
    rejected: close the open braces and brackets, then the open string. *)
Definition repair_json (args_str : string) : string :=
  let fixed_str := Py.strip args_str in
  let fixed_str :=
    if negb (Py.endswith "}" fixed_str) && negb (Py.endswith "]" fixed_str) then
      let open_braces := Z.of_nat (Py.count "{" fixed_str) in
      let close_braces := Z.of_nat (Py.count "}" fixed_str) in
      let open_brackets := Z.of_nat (Py.count "[" fixed_str) in
      let close_brackets := Z.of_nat (Py.count "]" fixed_str) in
      let missing_braces := (open_braces - close_braces)%Z in
      let missing_brackets := (open_brackets - close_brackets)%Z in
      fixed_str +:+ Py.repeat_char "}" missing_braces
                +:+ Py.repeat_char "]" missing_brackets
    else fixed_str in
  if bool_decide (0 < Py.count Py.dq fixed_str) then
    let quote_count := Py.count Py.dq fixed_str in
    if negb (Nat.even quote_count) then
      match Py.rfind Py.dq fixed_str with
      | Some last_quote_idx =>
          if bool_decide (0 < last_quote_idx) then
            let before_quote := prefix_to last_quote_idx fixed_str in
            let escape_count :=
              String.length before_quote
              - String.length (Py.rstrip_by (Ascii.eqb Py.backslash) before_quote) in
            if Nat.even escape_count then
              if negb (Py.endswith "}" fixed_str)
              then fixed_str +:+ String Py.dq "}"
              else prefix_to (String.length fixed_str - 1) fixed_str
                   +:+ String Py.dq "}"
            else fixed_str
          else fixed_str
      | None => fixed_str
      end
    else fixed_str
  else fixed_str.

(** The value that [json.loads] returns for a text: [None], a bool, an
    int, a float (kept as its literal), a string, a list, or a dict (its
    members in insertion order, each key once). *)
#[warnings="-register-all"]
Inductive json :=
| JNull
| JBool (b : bool)
| JInt (n : Z)
| JFloat (literal : string)
| JString (s : string)
| JList (items : list json)
| JDict (members : list (string * json)).

(** What [json.loads] does with a text: it returns the parsed value,
    raises [json.JSONDecodeError], or raises another exception. *)
Inductive loads_result :=
| Loaded (value : json)
| JSONDecodeError
| OtherError.

(** The dict returned by [_decide_action], with parameters of type [P]:
    the decision step returns whatever value [json.loads] produced
    ([P] is [json]); the model of the loop follows the runs whose
    parameters are a dict of strings ([P] is [params]). *)
Inductive decision (P : Type) :=
| Decided (action : string) (parameters : P)
| Undecided (error : string).

Arguments Decided {P} action parameters.
Arguments Undecided {P} error.

(** [decision.get("success")]. *)
Definition decided {P} (d : decision P) : bool :=
  match d with Decided _ _ => true | Undecided _ => false end.

(** The answer of the chat-completion service to a decision request: the
    first tool call of the message, a message with text only, an empty
    message, or an exception. *)
Inductive oracle_response :=
| ToolCall (function_name arguments : string)
| TextOnly (content : string)
| NoContent
| Raised (error : string).

(** The dict filled from the pairs that the salvage step finds, by
    [function_args[key] = value]: a later pair overrides the value of an
    earlier one with the same key. *)
Definition salvage (args_str : string) : list (string * string) :=
  foldl (fun function_args '(key, value) =>
           ContextManager.dict_set function_args key value)
        [] (findall_pairs args_str).

(** A dict whose values are strings, as a value of [json.loads]. *)
Definition dict_of_strings (d : list (string * string)) : json :=
  JDict (map (fun '(key, value) => (key, JString value)) d).

(** [SubAgentManager._determine_agent_type]. *)
Definition _determine_agent_type (task context : string) : string :=
  let task_lower := Py.lower task in
  let context_lower := Py.lower context in
  let nav_keywords :=
    ["найди"; "перейди"; "открой"; "ссылка"; "find"; "navigate"; "go to"] in
  let form_keywords :=
    ["заполни"; "введи"; "форма"; "поле"; "fill"; "form"; "input"; "register";
     "login"] in
  let reading_keywords :=
    ["прочитай"; "извлеки"; "найди информацию"; "read"; "extract";
     "get information"] in
  if Py.any_in nav_keywords task_lower then "navigation"
  else if existsb (fun keyword => Py.contains keyword task_lower
                                  || Py.contains keyword context_lower)
                  form_keywords then "form"
  else if Py.any_in reading_keywords task_lower then "reading"
  else "decision".

(** The [name] of the agent that [SubAgentManager.agents] holds under a
    type returned by [_determine_agent_type]. *)
Definition agent_name (agent_type : string) : string :=
  if String.eqb agent_type "navigation" then "NavigationAgent"
  else if String.eqb agent_type "form" then "FormAgent"
  else if String.eqb agent_type "reading" then "ReadingAgent"
  else "DecisionAgent".

(** The part of the dict returned by [get_recommendation] that
    [_decide_action] reads: the agent and its analysis when [success] is
    true. *)
Inductive recommendation :=
| Recommendation (agent analysis : string)
| NoRecommendation.

(** A request of a sub-agent to the chat-completion service: the name of
    the agent (which fixes the system prompt), and the context and the
    task that its prompt quotes. *)
Definition advice_request : Type := string * string * string.

Section WithAdvisor.

(** The chat-completion service as [SubAgent.analyze] calls it: the
    content of the answer, or [None] when the call raises. *)
Variable advisor : advice_request -> option string.

(** [SubAgentManager.get_recommendation(context, task)], composed with
    [SubAgent.analyze], and the requests sent to the service. *)
Definition get_recommendation (enable_sub_agents : bool) (context task : string)
    : recommendation * list advice_request :=
  if negb enable_sub_agents then (NoRecommendation, [])
  else
    let agent := agent_name (_determine_agent_type task context) in
    let asked := (agent, Py.take 800 context, task) in
    match advisor asked with
    | Some content => (Recommendation agent (Py.strip content), [asked])
    | None => (NoRecommendation, [asked])
    end.

End WithAdvisor.

(** The context after [_decide_action] has appended a recommendation. *)
Definition with_recommendation (context : string) (r : recommendation) : string :=
  match r with
  | Recommendation agent analysis =>
      context +:+ Page.nl +:+ Page.nl +:+
      "=== РЕКОМЕНДАЦИЯ ОТ " +:+ agent +:+ " ===" +:+ Page.nl +:+
      analysis +:+ Page.nl +:+ Page.nl +:+
      "Учти эту рекомендацию при принятии решения."
  | NoRecommendation => context
  end.

(** [s] between double quotes. *)
Definition quoted (s : string) : string := String Py.dq s +:+ String Py.dq "".



Section WithJson.

Variable json_loads : string -> loads_result.

(** The [try] block of [_decide_action] that turns the argument string of
    a tool call into [function_args]. *)
Definition parse_arguments (args_str : string) : json :=
  match json_loads args_str with
  | Loaded function_args => function_args
  | JSONDecodeError =>
      match json_loads (repair_json args_str) with
      | Loaded function_args => function_args
      | JSONDecodeError => dict_of_strings (salvage args_str)
      | OtherError => JDict []
      end
  | OtherError => JDict []
  end.

(** The part of [_decide_action] that follows the call of the service. *)
Definition decision_of_response (response : oracle_response) : decision json :=
  match response with
  | ToolCall function_name args_str =>
      Decided function_name (parse_arguments args_str)
  | TextOnly full_content =>
      let content_preview :=
        Py.take 500 full_content +:+
        (if bool_decide (500 < Py.len full_content) then "..." else "") in
      Undecided ("Модель не вызвала функцию, хотя это обязательно. Получен текст: " +:+
                 content_preview)
  | NoContent => Undecided "Не удалось определить действие"
  | Raised e => Undecided ("Ошибка при принятии решения: " +:+ e)
  end.

Variable token : Type.
Variable encode : string -> list token.

(** The requests sent to the service, in order: the system prompt and the
    user message of each. *)
Definition request : Type := string * string.

(** [system_prompt] is [ContextManager.get_system_prompt()], [tools_str]
    the serialised tool catalogue, [build_user_message] the method
    [_build_user_message] for the current state of the agent,
    [prepare] the method [ContextManager.prepare_context] for the current
    manager, and [oracle] the chat-completion service. *)
Variable system_prompt : string.
Variable tools_str : option string.

(** [config.MAX_REQUEST_TOKENS]: 25000 unless the environment sets it. *)
Variable MAX_REQUEST_TOKENS : Z.

Variable build_user_message : string -> string -> string.
Variable page : Type.
Variable prepare : page -> option Z -> M string.
Variable oracle : request -> oracle_response.

(** [config.ENABLE_SUB_AGENTS], which is also the flag that the
    constructor of [MainAgent] passes to its [SubAgentManager], and the
    chat-completion service that the sub-agents call. *)
Variable ENABLE_SUB_AGENTS : bool.
Variable advisor : advice_request -> option string.

(** What [_decide_action] did: the decision, the requests for a
    decision that it sent to the service, the ceilings at which it derived
    the context again, and the requests that the sub-agent sent for a
    recommendation. *)
Record decide_trace := {
  decision_made : decision json;
  requests_sent : list request;
  rederived_at : list Z;
  advice_requested : list advice_request
}.

(** The head of [_decide_action]: the recommendation of a sub-agent, when
    sub-agents are enabled, and the requests made for it. *)
Definition advice (context task : string) : recommendation * list advice_request :=
  if ENABLE_SUB_AGENTS then get_recommendation advisor ENABLE_SUB_AGENTS context task
  else (NoRecommendation, []).

(** [MainAgent._decide_action]. *)
Definition _decide_action (context task : string) (page_info : page) : M decide_trace :=
  let advice_requests := (advice context task).2 in
  let context := with_recommendation context (advice context task).1 in
  let user_message := build_user_message context task in
  request_size ←
    ContextManager.estimate_request_size token encode system_prompt user_message tools_str;
  if (MAX_REQUEST_TOKENS <? Z.of_nat request_size)%Z then
    tools_tokens ← ContextManager.estimate_request_size token encode "" "" tools_str;
    system_tokens ← TokenOptimizer.count_tokens token encode system_prompt;
    let available_for_context :=
      (MAX_REQUEST_TOKENS - Z.of_nat tools_tokens
       - Z.of_nat system_tokens - 500)%Z in
    if (0 <? available_for_context)%Z then
      context ← prepare page_info (Some available_for_context);
      let user_message := build_user_message context task in
      request_size ←
        ContextManager.estimate_request_size token encode system_prompt user_message
          tools_str;
      mret {| decision_made :=
                decision_of_response (oracle (system_prompt, user_message));
              requests_sent := [(system_prompt, user_message)];
              rederived_at := [available_for_context];
              advice_requested := advice_requests |}
    else
      mret {| decision_made :=
                Undecided ("Запрос слишком большой (" +:+
                           TokenOptimizer.str_of_nat request_size +:+
                           " токенов). Tools definitions занимают " +:+
                           TokenOptimizer.str_of_nat tools_tokens +:+ " токенов.");
              requests_sent := [];
              rederived_at := [];
              advice_requested := advice_requests |}
  else
    mret {| decision_made := decision_of_response (oracle (system_prompt, user_message));
            requests_sent := [(system_prompt, user_message)];
            rederived_at := [];
            advice_requested := advice_requests |}.

(** The number of tokens of a request, as [estimate_request_size] adds
    them up. *)
Definition tools_size (tools_str : option string) : nat :=
  match tools_str with
  | Some tools_str => length (encode tools_str)
  | None => 0
  end.

Definition request_tokens (system_prompt user_message : string)
    (tools_str : option string) : nat :=
  length (encode system_prompt) + length (encode user_message) + tools_size tools_str.

End WithJson.

(** Stand-ins for the parameters, for evaluating the decision on
    concrete inputs.  The sample parser accepts the objects whose
    members are plain quoted words and texts and the lists of decimal
    integers, as [json.loads] does, and rejects every other text; the
    sample service always asks for the same navigation, with an argument
    string cut before its end. *)
Fixpoint sample_members (fuel : nat) (s : string) (acc : list (string * string))
    : option (list (string * string)) :=
  match fuel with
  | 0 => None
  | S fuel' =>
      match match_pair (Py.lstrip_by Ascii.is_space s) with
      | Some (key, value, rest) =>
          match Py.lstrip_by Ascii.is_space rest with
          | String sep rest' =>
              if Ascii.eqb sep ","
              then sample_members fuel' rest' (ContextManager.dict_set acc key value)
              else if Ascii.eqb sep "}" && negb (Py.truthy (Py.strip rest'))
                   then Some (ContextManager.dict_set acc key value)
                   else None
          | EmptyString => None
          end
      | None => None
      end
  end.

(** A decimal integer without sign: one digit, or digits that do not
    start with a zero. *)
Definition sample_integer (digits : string) : option json :=
  match digits with
  | EmptyString => None
  | String d rest =>
      if Ascii.eqb d "0" && Py.truthy rest then None
      else Some (JInt (ContextManager.int_of_digits digits))
  end.

Fixpoint sample_items (fuel : nat) (s : string) (acc : list json) : option (list json) :=
  match fuel with
  | 0 => None
  | S fuel' =>
      let '(digits, rest) :=
        Py.span ContextManager.is_digit (Py.lstrip_by Ascii.is_space s) in
      match sample_integer digits with
      | Some item =>
          match Py.lstrip_by Ascii.is_space rest with
          | String sep rest' =>
              if Ascii.eqb sep "," then sample_items fuel' rest' (acc ++ [item])
              else if Ascii.eqb sep "]" && negb (Py.truthy (Py.strip rest'))
                   then Some (acc ++ [item])
                   else None
          | EmptyString => None
          end
      | None => None
      end
  end.

Definition sample_json_loads (s : string) : loads_result :=
  match Py.strip s with
  | String open rest =>
      if Ascii.eqb open "{" then
        match sample_members (String.length s) rest [] with
        | Some function_args => Loaded (dict_of_strings function_args)
        | None => JSONDecodeError
        end
      else if Ascii.eqb open "[" then
        match sample_items (String.length s) rest [] with
        | Some items => Loaded (JList items)
        | None => JSONDecodeError
        end
      else JSONDecodeError
  | EmptyString => JSONDecodeError
  end.

Definition truncated_arguments : string :=
  "{" +:+ quoted "url" +:+ ": " +:+ String Py.dq "https://example.com".

Definition sample_oracle (r : string * string) : oracle_response :=
  ToolCall "navigate" truncated_arguments.





(** The sub-agent service of the examples. *)
Definition sample_advisor (r : advice_request) : option string :=
  Some "Открой раздел вакансий.".

Definition sample_build_user_message (context task : string) : string :=
  "=== ТЕКУЩАЯ ЗАДАЧА ===" +:+ Page.nl +:+ task +:+ Page.nl +:+
  "=== КОНТЕКСТ СТРАНИЦЫ ===" +:+ Page.nl +:+ context.

Definition sample_system_prompt : string :=
  "Ты эксперт по автоматизации браузера.".

(** A tool catalogue with one tool, serialised. *)
Definition sample_tools : string :=
  "[{'type': 'function', 'function': {'name': 'navigate'}}]".

(** The decision step of the examples, with the sub-agents switched off
    or on. *)
Definition sample_decide_with (oracle : string * string -> oracle_response)
    (ENABLE_SUB_AGENTS : bool) (MAX_REQUEST_TOKENS : Z) :=
  _decide_action sample_json_loads string ContextManager.sample_encode
    sample_system_prompt (Some sample_tools) MAX_REQUEST_TOKENS sample_build_user_message
    Page.page_info
    (ContextManager.sample_prepare_context
       (ContextManager.manager_for "Тестовая задача" []))
    oracle ENABLE_SUB_AGENTS sample_advisor.

Definition sample_decide := sample_decide_with sample_oracle false.

(** A task of 600 words. *)
Definition long_task : string := Py.join " " (repeat "найди" 600).

End Decision.

(** ** [src/security/security_layer.py] *)

Module SecurityLayer.
Import Data.

(** [self.destructive_keywords]. *)
Definition payment : list string :=
  ["оплат"; "купит"; "заказ"; "checkout"; "payment"; "buy"; "purchase"; "pay"].
Definition deletion : list string := ["удал"; "delete"; "remove"; "уничтож"; "destroy"].
Definition sending : list string := ["отправ"; "send"; "submit"; "публикац"; "publish"].
Definition modification : list string := ["измен"; "change"; "edit"; "modify"; "update"].
Definition confirmation : list string := ["подтверд"; "confirm"; "accept"; "agree"].

(** [SecurityLayer.is_destructive_action]. *)
Definition is_destructive_action (action_name : string) (parameters : params)
    : bool * string :=
  if String.eqb action_name "click_element" then
    let description := Py.lower (pget parameters "description") in
    let selector := Py.lower (pget parameters "selector") in
    let text_to_check := description +:+ " " +:+ selector in
    if Py.any_in payment text_to_check then (true, "payment")
    else if Py.any_in deletion text_to_check then (true, "deletion")
    else if Py.any_in sending text_to_check then (true, "sending")
    else (false, "")
  else if String.eqb action_name "type_text" then
    let element_desc := Py.lower (pget parameters "element_description") in
    let text := Py.lower (pget parameters "text") in
    if Py.any_in ["card"; "cvv"; "cvc"; "карт"; "cvc"; "cvv"] element_desc
    then (true, "payment")
    else if Py.any_in confirmation element_desc
            && Py.any_in ["yes"; "да"; "подтверждаю"; "согласен"] text
    then (true, "confirmation")
    else (false, "")
  else (false, "").

(** [SecurityLayer._format_action_description]. *)
Definition _format_action_description (action_name : string) (parameters : params)
    (category : string) : string :=
  let category_desc :=
    default "потенциально опасное действие"
      (ErrorHandler.dict_get
         [("payment", "оплата или покупка"); ("deletion", "удаление данных");
          ("sending", "отправка данных"); ("confirmation", "подтверждение действия")]
         category) in
  if String.eqb action_name "click_element" then
    "Попытка выполнить " +:+ category_desc +:+ ": клик по '" +:+
    default "элемент" (parameters !! "description") +:+ "'. Продолжить?"
  else if String.eqb action_name "type_text" then
    "Попытка выполнить " +:+ category_desc +:+ ": ввод данных в '" +:+
    default "поле" (parameters !! "element_description") +:+ "'. Продолжить?"
  else "Попытка выполнить " +:+ category_desc +:+ ". Продолжить?".

(** The dict returned by [check_action]; [category] is [None] when the
    key is absent. *)
Record security_check := {
  allowed : bool;
  requires_confirmation : bool;
  category : option string
}.

(** [SecurityLayer.check_action]: the check, and the questions put to
    the user through [user_confirmation_callback]. *)
Definition check_action (user_confirmation_callback : option (string -> bool))
    (action_name : string) (parameters : params) : security_check * list string :=
  let '(is_destructive, category) := is_destructive_action action_name parameters in
  if negb is_destructive then
    ({| allowed := true; requires_confirmation := false; category := None |}, [])
  else
    match user_confirmation_callback with
    | Some callback =>
        let action_description :=
          _format_action_description action_name parameters category in
        let confirmed := callback action_description in
        ({| allowed := confirmed; requires_confirmation := true;
            category := Some category |}, [action_description])
    | None =>
        ({| allowed := true; requires_confirmation := true;
            category := Some category |}, [])
    end.

End SecurityLayer.

(** ** [src/agent/main_agent.py]: the loop *)

Module MainAgent.
Import Data TokenCache Decision.

(** The dict returned by [PageExtractor.get_page_state_hash]. *)
Record page_state := {
  dom_hash : string;
  interactive_count : Z;
  visible_modal_count : Z;
  visible_form_count : Z
}.

(** The dict returned by [ActionResultValidator.check_task_completion]:
    the entries read by the loop. *)
Record completion_check := {
  is_completed : bool;
  completion_message : string
}.

(** What the collaborators answer during one pass of the loop: the page
    model and the snapshots, the decision returned by [_decide_action],
    the answer of the completion check ([None] when it raises), the
    verdict of the security layer and the result of the action backend,
    and the page after the action. *)
Record answers := {
  observed_page : Page.page_info;
  page_state_before : page_state;
  scroll_y_before : Z;
  decision_taken : decision params;
  completion : option completion_check;
  security_allowed : bool;
  backend_result : action_result;
  scroll_y_after : option Z;
  page_after : Page.page_info;
  page_state_after : page_state
}.

(** The state of a [MainAgent] that the loop control reads and writes,
    and the log of the calls to the action backend. *)
Record agent := {
  context_manager : ContextManager.manager;
  state_manager : AgentState.manager;
  current_iteration : nat;
  backend_calls : list (string * params)
}.

(** The dict returned by [execute_task]. *)
Record task_result := {
  task_success : bool;
  task_message : string;
  task_error : string;
  task_loop_info : option AgentState.loop_info
}.

(** A pass of the loop either goes on to the next pass or returns. *)
Inductive pass_outcome :=
| Continue (ag : agent)
| Return (result : task_result) (ag : agent).

Definition with_managers (ag : agent) (cm : ContextManager.manager)
    (sm : AgentState.manager) : agent :=
  {| context_manager := cm; state_manager := sm;
     current_iteration := current_iteration ag;
     backend_calls := backend_calls ag |}.

(** The entries that the loop adds to the result of the backend. *)
Definition with_page_diff (r : action_result) (page_changed : bool)
    (url_before url_after title_before title_after : string) (dom_changed : bool)
    (new_elements : new_elements_info) : action_result :=
  {| success := success r; error := error r; message := message r; url := url r;
     text := text r; answer := answer r;
     page_changed := page_changed;
     url_before := url_before; url_after := url_after;
     title_before := title_before; title_after := title_after;
     dom_changed := dom_changed; new_elements := Some new_elements;
     modal_detected := modal_detected r; modal_has_form := modal_has_form r;
     modal_input_count := modal_input_count r;
     form_detected := form_detected r; form_count := form_count r |}.

(** The result of [_execute_action] when the security layer refuses. *)
Definition refused : action_result :=
  {| success := false; error := Some "Действие отклонено пользователем";
     message := ""; url := ""; text := ""; answer := ""; page_changed := false;
     url_before := ""; url_after := ""; title_before := ""; title_after := "";
     dom_changed := false; new_elements := None;
     modal_detected := false; modal_has_form := false; modal_input_count := 0;
     form_detected := false; form_count := 0 |}.

(** [MainAgent._execute_action]: the result, the calls that reached the
    action backend [execute_action], and the questions put to the
    user. *)
Definition _execute_action (user_confirmation_callback : option (string -> bool))
    (execute_action : string -> params -> action_result)
    (action_name : string) (parameters : params)
    : action_result * list (string * params) * list string :=
  let '(security_check, questions) :=
    SecurityLayer.check_action user_confirmation_callback action_name parameters in
  if negb (SecurityLayer.allowed security_check) then (refused, [], questions)
  else (execute_action action_name parameters, [(action_name, parameters)], questions).

(** The result dict handed to [add_to_history] when a completion is
    turned down. *)
Definition rejection (reason : string) : action_result :=
  {| success := false; error := Some reason;
     message := ""; url := ""; text := ""; answer := ""; page_changed := false;
     url_before := ""; url_after := ""; title_before := ""; title_after := "";
     dom_changed := false; new_elements := None;
     modal_detected := false; modal_has_form := false; modal_input_count := 0;
     form_detected := false; form_count := 0 |}.

(** The agent that a pass leaves behind. *)
Definition agent_after (o : pass_outcome) : agent :=
  match o with
  | Continue ag => ag
  | Return _ ag => ag
  end.

(** The check made before a [query_dom] is executed.  When the question
    is not empty and [was_query_asked] holds, the loop reads
    [get_query_answer] and writes a warning and the answer to the log:
    the result is then [Some previous_answer], and [None] otherwise. *)
Definition previous_answer (sm : AgentState.manager) (action_name : string)
    (action_params : params) (current_url : string) : option (option string) :=
  if String.eqb action_name "query_dom" then
    let query := pget action_params "query" in
    if Py.truthy query && AgentState.was_query_asked sm query current_url
    then Some (AgentState.get_query_answer sm query current_url)
    else None
  else None.

(** The signature and the page-change flag that
    [_detect_consecutive_loop] reads from an action record. *)
Definition loop_signature (action : AgentState.action_record) : string * bool :=
  let params := AgentState.rec_parameters action in
  let desc :=
    if Py.truthy (pget params "description") then pget params "description"
    else if Py.truthy (pget params "element_description")
         then pget params "element_description"
         else pget params "url" in
  (AgentState.rec_action action +:+ ":" +:+ desc,
   default false (AgentState.rec_page_changed action)).

(** The backward [for] loop of [_detect_consecutive_loop]: the number of
    records, from the one before the last towards the oldest, that carry
    the last signature without a page change, up to the first that does
    not. *)
Fixpoint repeats_before (last_signature : string) (earlier : list (string * bool))
    : nat :=
  match earlier with
  | [] => 0
  | (sig, page_ch) :: rest =>
      if String.eqb sig last_signature && negb page_ch
      then S (repeats_before last_signature rest)
      else 0
  end.

(** The warning that [_detect_consecutive_loop] returns. *)
Definition loop_warning (last_signature : string) (consecutive_repeats : nat) : string :=
  Py.join Page.nl
    [""; "КРИТИЧЕСКОЕ ПРЕДУПРЕЖДЕНИЕ: ОБНАРУЖЕН ЦИКЛ!";
     "Действие '" +:+ last_signature +:+ "' повторяется " +:+
       TokenOptimizer.str_of_nat consecutive_repeats +:+
       " раз подряд БЕЗ изменения страницы!";
     "Это означает, что ты застрял в цикле повторяющихся действий.";
     "";
     "НЕМЕДЛЕННО:";
     "1. ОСТАНОВИСЬ и проанализируй ситуацию";
     "2. НЕ ПОВТОРЯЙ это действие снова!";
     "3. Попробуй СОВЕРШЕННО ДРУГОЙ подход:";
     "   - Если это navigate - попробуй другой URL или вернись назад";
     "   - Если это click_element - попробуй другой элемент или прокрути страницу (scroll)";
     "   - Если это type_text - проверь, правильно ли ты нашел поле";
     "   - Если это extract_text - информация уже извлечена, переходи к следующему шагу";
     "4. Используй scroll для поиска альтернативных элементов";
     "5. Если нужно - вернись на предыдущую страницу через navigate";
     "";
     "ПОМНИ: Повторение одного и того же действия без результата - это ОШИБКА!";
     ""; ""].

(** [MainAgent._detect_consecutive_loop]. *)
Definition _detect_consecutive_loop (recent_actions : list AgentState.action_record)
    : string :=
  if bool_decide (length recent_actions < 2) then ""
  else
    match rev (map loop_signature recent_actions) with
    | (last_signature, last_page_changed) :: earlier =>
        let consecutive_repeats := 1 + repeats_before last_signature earlier in
        if bool_decide (3 <= consecutive_repeats) && negb last_page_changed
        then loop_warning last_signature consecutive_repeats
        else ""
    | [] => ""
    end.

Section WithCollaborators.

Variable token : Type.
Variable encode : string -> list token.
Variable decode : list token -> string.
Variable str_of_element : Page.element -> string.
Variable str_of_location : Page.location_context -> string.
Variable str_of_visible_modals : Page.visible_modals_info -> string.
Variable int_times_0_7 : Z -> Z.
Variable int_scaled : nat -> Z -> nat -> Z.
Variable str_of_history : list TokenOptimizer.history_entry -> string.
Variable json_dumps : params -> string.
Variable str_of_params : params -> string.

(** [config.ENABLE_SUB_AGENTS]. *)
Variable ENABLE_SUB_AGENTS : bool.

Definition prepare_context :=
  ContextManager.prepare_context token encode decode str_of_element str_of_location
    str_of_visible_modals int_times_0_7 int_scaled.

Definition add_to_history :=
  ContextManager.add_to_history token encode str_of_history.

Definition detect_loop := AgentState.detect_loop json_dumps str_of_params.

Definition failure (error : string) (loop_info : option AgentState.loop_info)
    : task_result :=
  {| task_success := false; task_message := ""; task_error := error;
     task_loop_info := loop_info |}.

(** The comparison of the page after the action with the page before
    it: [page_changed], [dom_changed] and [new_elements_info]. *)
Definition page_diff (a : answers) (current_url action_name : string)
    : bool * bool * new_elements_info :=
  let before := page_state_before a in
  let url_after := Page.url (page_after a) in
  let title_after := Page.title (page_after a) in
  let dom_hash_after := dom_hash (page_state_after a) in
  let url_changed := negb (String.eqb url_after current_url) in
  let title_changed := negb (String.eqb title_after (Page.title (observed_page a))) in
  let dom_changed :=
    if bool_decide (action_name ∈ ["navigate"; "click_element"; "reload_page"])
    then negb (String.eqb dom_hash_after (dom_hash before))
    else if Py.truthy dom_hash_after && Py.truthy (dom_hash before)
         then negb (String.eqb dom_hash_after (dom_hash before))
         else false in
  let new_modals :=
    (visible_modal_count before <? visible_modal_count (page_state_after a))%Z in
  let new_forms :=
    (visible_form_count before <? visible_form_count (page_state_after a))%Z in
  let interactive_before := interactive_count before in
  let interactive_after := interactive_count (page_state_after a) in
  let new_interactive :=
    (interactive_before <? interactive_after)%Z
    && ((interactive_before =? 0)%Z
        || (interactive_before <? 10 * (interactive_after - interactive_before))%Z) in
  let scroll_position_changed :=
    if String.eqb action_name "scroll" then
      match scroll_y_after a with
      | Some scroll_after_y => negb (scroll_after_y =? scroll_y_before a)%Z
      | None => false
      end
    else false in
  let page_changed :=
    url_changed || title_changed || dom_changed || new_modals || new_forms
    || (String.eqb action_name "scroll" && (scroll_position_changed || new_interactive)) in
  (page_changed, dom_changed,
   {| new_modals := new_modals; new_forms := new_forms;
      new_interactive_elements := new_interactive |}).

(** What the loop writes to the state manager after an action: the
    action record, the question and answer of a successful [query_dom],
    and the address reached by a successful [navigate]. *)
Definition record_action (sm : AgentState.manager) (action_name : string)
    (action_params : params) (action_result : action_result) (page_changed : bool)
    (new_elements_info : new_elements_info) (current_url : string)
    : AgentState.manager :=
  let action_record :=
    {| AgentState.rec_action := action_name;
       AgentState.rec_parameters := action_params;
       AgentState.rec_result := action_result;
       AgentState.rec_page_changed := Some page_changed;
       AgentState.rec_new_elements := Some new_elements_info |} in
  let sm := AgentState.add_action sm action_record in
  let sm :=
    if String.eqb action_name "query_dom" && success action_result
       && Py.truthy (pget action_params "query")
    then AgentState.add_query_dom sm (pget action_params "query")
           (if Py.truthy (answer action_result) then answer action_result
            else message action_result)
           current_url
    else sm in
  if String.eqb action_name "navigate" && success action_result
     && Py.truthy (url action_result)
  then AgentState.add_visited_url sm (url action_result)
  else sm.

(** What the loop writes to the context manager after the action has
    been added to its history: the progress on the requirements and the
    text extracted by a successful [extract_text]. *)
Definition track_progress (cm : ContextManager.manager) (d : decision params)
    (action_name : string) (action_params : params) (action_result : action_result)
    : ContextManager.manager :=
  let cm :=
    if success action_result
    then ContextManager.update_progress cm d action_result tt
    else cm in
  if success action_result && String.eqb action_name "extract_text"
     && Py.truthy (text action_result)
  then ContextManager.add_extracted_info cm
         (match action_params !! "description" with
          | Some desc => desc
          | None => "текст"
          end)
         (text action_result)
  else cm.

(** The Act and Reflect phases of a pass, for a decision that is not
    [task_complete].  Left out: the log, the waits, the analysis of the
    outcome by the sub-agent, and the calls of the validator and of the
    error handler, which only add advice entries to the action result. *)
Definition act (task : string) (ag : agent) (a : answers) (current_url : string)
    (action_name : string) (action_params : params) : M pass_outcome :=
  let cm := context_manager ag in
  let sm := AgentState.set_state (state_manager ag) AgentState.ACTING in
  (* Logged only: the action is executed all the same. *)
  let _ := previous_answer sm action_name action_params current_url in
  let '(action_result, calls) :=
    if security_allowed a
    then (backend_result a, backend_calls ag ++ [(action_name, action_params)])
    else (refused, backend_calls ag) in
  let '(page_changed, dom_changed, new_elements_info) :=
    page_diff a current_url action_name in
  let action_result :=
    with_page_diff action_result page_changed current_url (Page.url (page_after a))
      (Page.title (observed_page a)) (Page.title (page_after a)) dom_changed
      new_elements_info in
  _ ← (if ENABLE_SUB_AGENTS
       then prepare_context cm (page_after a) None
       else mret "");
  let sm :=
    record_action sm action_name action_params action_result page_changed
      new_elements_info current_url in
  cm ← add_to_history cm
         (action_name +:+ "(" +:+ str_of_params action_params +:+ ")") action_result;
  let cm := track_progress cm (decision_taken a) action_name action_params action_result in
  let sm := AgentState.set_state sm AgentState.REFLECTING in
  let ag :=
    {| context_manager := cm; state_manager := sm;
       current_iteration := current_iteration ag; backend_calls := calls |} in
  if success action_result then mret (Continue ag)
  else
    match detect_loop sm with
    | Some loop_info =>
        mret (Return (failure ("Обнаружен цикл: " +:+ AgentState.reason loop_info)
                        (Some loop_info)) ag)
    | None => mret (Continue ag)
    end.

(** The state manager after the Observe phase: the state is set and the
    URL of the page is recorded. *)
Definition observe (ag : agent) (a : answers) : AgentState.manager :=
  let sm := AgentState.set_state (state_manager ag) AgentState.OBSERVING in
  let current_url := Page.url (observed_page a) in
  if Py.truthy current_url then
    if AgentState.is_url_visited sm current_url then sm
    else AgentState.add_visited_url sm current_url
  else sm.

(** One pass of the [while] loop of [execute_task], from the increment of
    [current_iteration] on. *)
Definition pass (task : string) (ag : agent) (a : answers) : M pass_outcome :=
  let sm := observe ag a in
  let ag :=
    {| context_manager := context_manager ag;
       state_manager := sm;
       current_iteration := S (current_iteration ag);
       backend_calls := backend_calls ag |} in
  let page_info := observed_page a in
  let current_url := Page.url page_info in
  match detect_loop sm with
  | Some loop_info =>
      mret (Return (failure ("Обнаружен цикл: " +:+ AgentState.reason loop_info)
                      (Some loop_info))
                   (with_managers ag (context_manager ag) sm))
  | None =>
      context ← prepare_context (context_manager ag) page_info None;
      let sm := AgentState.set_state sm AgentState.DECIDING in
      match decision_taken a with
      | Undecided error =>
          mret (Return (failure error None) (with_managers ag (context_manager ag) sm))
      | Decided action_name action_params =>
          if String.eqb action_name "task_complete" then
            if negb (ContextManager.can_complete_task (context_manager ag)) then
              let reason :=
                let pending :=
                  ContextManager.get_pending_requirements_message (context_manager ag) in
                if Py.truthy pending then pending else "Требования задачи не выполнены" in
              cm ← add_to_history (context_manager ag) "task_complete_rejected"
                     (rejection reason);
              mret (Continue (with_managers ag cm sm))
            else
              match completion a with
              | Some completion_check =>
                  if negb (is_completed completion_check) then
                    cm ← add_to_history (context_manager ag) "task_complete_rejected"
                           (rejection (completion_message completion_check));
                    mret (Continue (with_managers ag cm sm))
                  else
                    mret (Return
                            {| task_success := true;
                               task_message :=
                                 match action_params !! "summary" with
                                 | Some summary => summary
                                 | None => "Задача выполнена"
                                 end;
                               task_error := ""; task_loop_info := None |}
                            (with_managers ag (context_manager ag)
                               (AgentState.set_state sm AgentState.COMPLETED)))
              | None =>
                  mret (Return
                          {| task_success := true;
                             task_message :=
                               match action_params !! "summary" with
                               | Some summary => summary
                               | None => "Задача выполнена"
                               end;
                             task_error := ""; task_loop_info := None |}
                          (with_managers ag (context_manager ag)
                             (AgentState.set_state sm AgentState.COMPLETED)))
              end
          else act task (with_managers ag (context_manager ag) sm) a current_url
                 action_name action_params
      end
  end.

(** [config.MAX_ITERATIONS]. *)
Variable max_iterations : nat.

(** The [while] loop of [execute_task] when no stop is requested: [n] is
    the number of passes left before [max_iterations] is reached, and
    [script] gives the answers of the collaborators at each pass. *)
Fixpoint loop (task : string) (script : nat -> answers) (n : nat) (ag : agent)
    : M (task_result * agent) :=
  match n with
  | 0 =>
      mret (failure ("Превышен лимит итераций (" +:+
                     TokenOptimizer.str_of_nat max_iterations +:+ ")") None, ag)
  | S n' =>
      outcome ← pass task ag (script (current_iteration ag));
      match outcome with
      | Continue ag' => loop task script n' ag'
      | Return result ag' => mret (result, ag')
      end
  end.

(** [execute_task] for an initialised browser, when no stop is requested
    and no collaborator raises. *)
Definition execute_task (task : string) (script : nat -> answers) (ag : agent)
    : M (task_result * agent) :=
  loop task script max_iterations
    {| context_manager := ContextManager.set_task (context_manager ag) task;
       state_manager := AgentState.set_task (state_manager ag) task;
       current_iteration := 0;
       backend_calls := backend_calls ag |}.

End WithCollaborators.

(** [MainAgent.__init__]. *)
Definition new_agent : agent :=
  {| context_manager := ContextManager.new_manager;
     state_manager := AgentState.new_manager;
     current_iteration := 0; backend_calls := [] |}.

(** Stand-ins for the parameters, for evaluating the loop on concrete
    inputs: the sample tokenizer and serialisers of the context manager
    and of the state manager, the names of the actions for a history,
    no sub-agents and 50 iterations. *)
Definition sample_str_of_history (h : list TokenOptimizer.history_entry) : string :=
  "[" +:+ Py.join ", " (map TokenOptimizer.h_action h) +:+ "]".

Definition sample_pass :=
  pass string ContextManager.sample_encode ContextManager.sample_decode
    ContextManager.sample_str_of_element ContextManager.sample_str_of_location
    ContextManager.sample_str_of_visible_modals ContextManager.sample_int_times_0_7
    ContextManager.sample_int_scaled sample_str_of_history
    AgentState.sample_dumps AgentState.sample_dumps false.

Definition sample_execute_task :=
  execute_task string ContextManager.sample_encode ContextManager.sample_decode
    ContextManager.sample_str_of_element ContextManager.sample_str_of_location
    ContextManager.sample_str_of_visible_modals ContextManager.sample_int_times_0_7
    ContextManager.sample_int_scaled sample_str_of_history
    AgentState.sample_dumps AgentState.sample_dumps false 50.

Definition example_page_state : page_state :=
  {| dom_hash := "5d41402abc4b"; interactive_count := 1;
     visible_modal_count := 0; visible_form_count := 0 |}.

(** The answers of a pass on the example page in which the decision is
    [d], the completion check passes, the security layer allows the
    action, the backend answers [r] and the page stays as it is. *)
Definition answers_with (d : decision params) (r : action_result) : answers :=
  {| observed_page := ContextManager.example_page;
     page_state_before := example_page_state;
     scroll_y_before := 0;
     decision_taken := d;
     completion := Some {| is_completed := true; completion_message := "" |};
     security_allowed := true;
     backend_result := r;
     scroll_y_after := None;
     page_after := ContextManager.example_page;
     page_state_after := example_page_state |}.



(** An agent whose task carries the requirements [reqs] and whose
    counters hold [counters]. *)
Definition agent_with (reqs : list (string * Z)) (counters : gmap string Z) : agent :=
  {| context_manager :=
       {| ContextManager.history := []; ContextManager.current_task := Some "task";
          ContextManager.extracted_info := []; ContextManager.completed_steps := [];
          ContextManager.progress_counters := counters;
          ContextManager.requirements := reqs;
          ContextManager.require_resume_review := false;
          ContextManager.resume_reviewed := false;
          ContextManager.pending_resume_wizard := false |};
     state_manager := AgentState.set_task AgentState.new_manager "task";
     current_iteration := 0; backend_calls := [] |}.

End MainAgent.

(* ================================================================== *)
(** * Part II: properties *)
(* ================================================================== *)

(** ** Facts about the string primitives *)

Module PyFacts.
Import Py.

Lemma app_cons c s t : String c s +:+ t = String c (s +:+ t).
Proof. reflexivity. Qed.

Lemma app_nil_l s : "" +:+ s = s.
Proof. reflexivity. Qed.

Lemma app_assoc s t u : (s +:+ t) +:+ u = s +:+ (t +:+ u).
Proof. induction s as [|c s IH]; [done|]. by rewrite !app_cons, IH. Qed.

Lemma prefix_app n b : String.prefix n (n +:+ b) = true.
Proof.
  induction n as [|c n IH]; [by destruct b|].
  rewrite app_cons. simpl. by destruct (ascii_dec c c).
Qed.

Lemma prefix_split n h : String.prefix n h = true → ∃ b, h = n +:+ b.
Proof.
  revert h. induction n as [|c n IH]; intros h Hp.
  - by exists h.
  - destruct h as [|d h]; [done|]. simpl in Hp.
    destruct (ascii_dec c d) as [->|]; [|done].
    destruct (IH _ Hp) as [b ->]. by exists b.
Qed.

Lemma contains_app n a b : contains n (a +:+ n +:+ b) = true.
Proof.
  induction a as [|c a IH].
  - rewrite app_nil_l. pose proof (prefix_app n b) as Hp.
    revert Hp. generalize (n +:+ b). intros h Hp.
    destruct h; cbn [contains]; by rewrite Hp.
  - rewrite app_cons. simpl. rewrite IH. apply orb_true_r.
Qed.

Lemma contains_split n h :
  contains n h = true → ∃ a b, h = a +:+ n +:+ b.
Proof.
  induction h as [|c h IH]; cbn [contains]; intros Hc.
  - rewrite orb_false_r in Hc. destruct (prefix_split _ _ Hc) as [b Hb].
    by exists "", b.
  - apply orb_true_iff in Hc as [Hp|Hc].
    + destruct (prefix_split _ _ Hp) as [b Hb]. by exists "", b.
    + destruct (IH Hc) as (a & b & ->). by exists (String c a), b.
Qed.

Lemma contains_trans n m h :
  contains n m = true → contains m h = true → contains n h = true.
Proof.
  intros (a & b & ->)%contains_split (a' & b' & ->)%contains_split.
  rewrite !app_assoc, <- (app_assoc a' a). apply contains_app.
Qed.

Lemma lower_cons_plain c s :
  head_plain s = true →
  lower (String c s) = String (lower_ascii c) (lower s).
Proof.
  intros Hs. destruct s as [|d s]; [done|].
  simpl in Hs. cbn [lower]. unfold is_cyr_upper.
  rewrite <- andb_assoc. apply negb_true_iff in Hs. rewrite Hs.
  by rewrite andb_false_r.
Qed.

Lemma lower_cons_ascii c s :
  (byte_of c <? 128)%N = true →
  lower (String c s) = String (lower_ascii c) (lower s).
Proof.
  intros Hc. destruct s as [|d s]; [done|].
  cbn [lower]. unfold is_cyr_upper.
  apply N.ltb_lt in Hc.
  destruct (N.eqb_spec (byte_of c) 208) as [E|_]; [lia|done].
Qed.

Lemma lower_app_ascii t b :
  ascii_only t = true → lower (t +:+ b) = lower t +:+ lower b.
Proof.
  induction t as [|c t IH]; [done|]. intros Ht.
  unfold ascii_only in Ht. cbn [list_ascii_of_string forallb] in Ht.
  apply andb_true_iff in Ht as [Hc Ht].
  rewrite app_cons, !lower_cons_ascii, app_cons, IH by done. done.
Qed.

Lemma lower_cons2 c d r :
  lower (String c (String d r)) =
    if is_cyr_upper c d
    then String (fst (cyr_lower d)) (String (snd (cyr_lower d)) (lower r))
    else String (lower_ascii c) (lower (String d r)).
Proof. reflexivity. Qed.

Lemma lower_app_head n :
  ∀ a s, (String.length a ≤ n)%nat → head_plain s = true →
         ∃ a', lower (a +:+ s) = a' +:+ lower s.
Proof.
  induction n as [|n IH]; intros a s Hlen Hs.
  - destruct a; [|simpl in Hlen; lia]. by exists "".
  - destruct a as [|c [|d rest]].
    + by exists "".
    + exists (String (lower_ascii c) ""). rewrite app_cons, app_nil_l.
      rewrite lower_cons_plain by auto. done.
    + rewrite !app_cons, lower_cons2.
      destruct (is_cyr_upper c d).
      * destruct (IH rest s) as [a' ->]; [simpl in *; lia|done|].
        by exists (String (fst (cyr_lower d)) (String (snd (cyr_lower d)) a')).
      * destruct (IH (String d rest) s) as [a' Ha']; [simpl in *; lia|done|].
        rewrite app_cons in Ha'. rewrite Ha'.
        by exists (String (lower_ascii c) a').
Qed.

Lemma head_plain_ascii t b : ascii_only t = true → t ≠ "" → head_plain (t +:+ b) = true.
Proof.
  destruct t as [|c t]; [done|]. intros Ht _.
  unfold ascii_only in Ht. cbn [list_ascii_of_string forallb] in Ht.
  apply andb_true_iff in Ht as [Hc _]. apply N.ltb_lt in Hc.
  rewrite app_cons. cbn [head_plain].
  apply negb_true_iff, andb_false_iff. left. apply N.leb_gt. lia.
Qed.

(** Lower-casing the text keeps the occurrences of an ASCII needle. *)
Lemma contains_lower t e :
  ascii_only t = true → contains t e = true →
  contains (lower t) (lower e) = true.
Proof.
  intros Ht (a & b & ->)%contains_split.
  destruct (decide (t = "")) as [->|Hne].
  { simpl. by destruct (lower _). }
  destruct (lower_app_head (String.length a) a (t +:+ b)) as [a' ->];
    [done|by apply head_plain_ascii|].
  rewrite lower_app_ascii by done. apply contains_app.
Qed.

End PyFacts.

(** ** Texts: counting, reversing, cutting *)

Module StringFacts.
Import Py PyFacts.

Lemma app_nil_r s : s +:+ "" = s.
Proof. induction s as [|a s IH]; [done|]. by rewrite app_cons, IH. Qed.

Lemma length_app s t : String.length (s +:+ t) = String.length s + String.length t.
Proof. induction s as [|a s IH]; [done|]. rewrite app_cons. cbn. by rewrite IH. Qed.


Lemma rev_app_app s t u : String.rev_app (s +:+ t) u = String.rev_app t (String.rev_app s u).
Proof.
  revert u. induction s as [|a s IH]; intros u; [done|]. rewrite app_cons. cbn. apply IH.
Qed.


Lemma rev_app_rev_app s u v :
  String.rev_app (String.rev_app s u) v = String.rev_app u (s +:+ v).
Proof.
  revert u. induction s as [|a s IH]; intros u; [done|].
  rewrite app_cons. cbn. by rewrite IH.
Qed.

Lemma rev_involutive s : String.rev (String.rev s) = s.
Proof. unfold String.rev. rewrite rev_app_rev_app. cbn. apply app_nil_r. Qed.


Lemma endswith_app c s t : t ≠ "" → endswith c (s +:+ t) = endswith c t.
Proof.
  intros Ht. unfold endswith, String.rev. rewrite rev_app_app.
  destruct t as [|a t]; [done|]. cbn.
  assert (∀ t u u', u ≠ "" → u' ≠ "" →
            (match u with String b _ => Some b | "" => None end) =
            (match u' with String b _ => Some b | "" => None end) →
            match String.rev_app t u with String b _ => Ascii.eqb b c | "" => false end =
            match String.rev_app t u' with String b _ => Ascii.eqb b c | "" => false end)
    as Hgen.
  { clear. induction t as [|a t IH]; intros u u' Hu Hu' Heq; cbn.
    - destruct u, u'; try done. by injection Heq as ->.
    - by apply IH. }
  by apply Hgen.
Qed.













End StringFacts.

(** ** Insertion-ordered dicts *)

Module DictFacts.
Import ErrorHandler.

Lemma dict_get_snoc {V} (d : list (string * V)) key value :
  dict_get d key = None → dict_get (d ++ [(key, value)]) key = Some value.
Proof.
  induction d as [|[k v] d IH]; cbn.
  - by rewrite String.eqb_refl.
  - destruct (String.eqb k key); [done|apply IH].
Qed.

Lemma dict_get_evict_snoc {V} bound (d : list (string * V)) key value :
  1 ≤ bound → dict_get d key = None →
  dict_get (evict_oldest bound (d ++ [(key, value)])) key = Some value.
Proof.
  intros Hb Hget. unfold evict_oldest.
  destruct (Nat.ltb_spec bound (length (d ++ [(key, value)]))) as [Hlt|];
    [|by apply dict_get_snoc].
  destruct d as [|[k v] d]; cbn in *; [lia|].
  destruct (String.eqb k key); [done|]. by apply dict_get_snoc.
Qed.

Lemma Forall_evict_oldest {V} (P : string * V → Prop) bound (d : list (string * V)) :
  Forall P d → Forall P (evict_oldest bound d).
Proof.
  intros Hd. unfold evict_oldest. destruct (_ <? _)%nat; [|done].
  destruct Hd; [constructor|done].
Qed.

Lemma dict_get_dict_set d key value :
  dict_get (ContextManager.dict_set d key value) key = Some value.
Proof.
  induction d as [|[k v] d IH]; cbn.
  - by rewrite String.eqb_refl.
  - destruct (String.eqb k key) eqn:E; cbn; rewrite E; [done|apply IH].
Qed.

Lemma dict_get_dict_set_ne d key value key' :
  key' ≠ key →
  dict_get (ContextManager.dict_set d key value) key' = dict_get d key'.
Proof.
  intros Hne. induction d as [|[k v] d IH]; cbn.
  - destruct (String.eqb key key') eqn:E; [|done].
    apply String.eqb_eq in E. congruence.
  - destruct (String.eqb k key) eqn:E; cbn.
    + apply String.eqb_eq in E. subst k.
      destruct (String.eqb key key') eqn:E'; [|done].
      apply String.eqb_eq in E'. congruence.
    + destruct (String.eqb k key'); [done|apply IH].
Qed.

Lemma dict_set_keys d key value :
  map fst (ContextManager.dict_set d key value) =
  if bool_decide (key ∈ map fst d) then map fst d else map fst d ++ [key].
Proof.
  induction d as [|[k v] d IH]; cbn; [done|].
  destruct (String.eqb k key) eqn:E; cbn.
  - apply String.eqb_eq in E. subst. rewrite bool_decide_eq_true_2; [done|by left].
  - apply String.eqb_neq in E. rewrite IH.
    case_bool_decide as H1; case_bool_decide as H2; try done.
    + exfalso. apply H2. by right.
    + exfalso. apply elem_of_cons in H2 as [?|?]; [congruence|done].
Qed.



End DictFacts.

(** ** The error classifier *)

Module ErrorHandlerSpec.
Import Py PyFacts ErrorHandler.

Definition timeout_advice : advice :=
  {| suggestion := "Превышен таймаут ожидания. Страница может загружаться медленно или элемент появляется с задержкой. Подождите загрузки страницы и попробуйте снова.";
     strategy := "wait" |}.

Lemma contains_false_trans n m h :
  contains n m = true → contains n h = false → contains m h = false.
Proof.
  intros Hnm Hn. destruct (contains m h) eqn:Hm; [|done].
  by rewrite (contains_trans _ _ _ Hnm Hm) in Hn.
Qed.

(** The time-out row of the keyword table answers whenever the
    not-found row, which is tried first, does not. *)
Lemma heuristic_timeout error action :
  contains "timeout" (lower error) = true →
  mentions_not_found error = false ∨
    (action ≠ "click_element" ∧ action ≠ "extract_text" ∧ action ≠ "type_text") →
  _heuristic_error_handling error action = Some timeout_advice.
Proof.
  intros Ht Hnf. unfold _heuristic_error_handling.
  rewrite Ht. cbn [orb].
  destruct Hnf as [Hnf|(H1 & H2 & H3)].
  - unfold mentions_not_found in Hnf.
    apply orb_false_iff in Hnf as [Hnf1 Hnf2].
    rewrite Hnf1, Hnf2.
    by rewrite (contains_false_trans "not found" "element not found" _ eq_refl Hnf1).
  - apply String.eqb_neq in H1, H2, H3. rewrite H1, H2, H3.
    by destruct (_ || _ || _).
Qed.

Lemma timeout_keyword error :
  contains "Timeout 10000ms exceeded" error = true →
  contains "timeout" (lower error) = true.
Proof.
  intros H. apply contains_lower in H; [|done].
  by apply (contains_trans _ (lower "Timeout 10000ms exceeded")).
Qed.

(** C9 (as amended).  With the default [retry_count = 0] of the call in
    [MainAgent.execute_task]: an error text that contains
    [Timeout 10000ms exceeded] is classified as [wait], with a
    non-empty suggestion, by the keyword table alone (the solution
    cache is left as it was and no analysis request is sent), for every
    action name, provided the first row of the table does not answer
    before: either the lower-cased text has neither [not found] nor
    [не найден], or the action is none of [click_element],
    [extract_text], [type_text]. *)
Theorem timeout_classified_wait digest analyze h error action context :
  contains "Timeout 10000ms exceeded" error = true →
  mentions_not_found error = false ∨
    (action ≠ "click_element" ∧ action ≠ "extract_text" ∧ action ≠ "type_text") →
  let out := handle_error digest analyze h error action context 0 in
  r_strategy (fst out) = Some "wait" ∧
  r_suggestion (fst out) ≠ "" ∧
  _error_solution_cache (snd out) = _error_solution_cache h ∧
  analysis_requests (snd out) = analysis_requests h.
Proof.
  intros Ht Hnf. apply timeout_keyword in Ht.
  unfold handle_error. cbn [Z.leb Z.compare max_retries].
  rewrite (heuristic_timeout _ _ Ht Hnf). cbn. done.
Qed.

(** The exact text of the scenario, for an action of the first row. *)
Lemma timeout_classified_wait_witness :
  let out := handle_error sample_digest sample_analyze new_handler
               "Timeout 10000ms exceeded" "click_element" "" 0 in
  r_strategy (fst out) = Some "wait" ∧
  r_suggestion (fst out) ≠ "" ∧
  _error_solution_cache (snd out) = [] ∧
  analysis_requests (snd out) = [].
Proof.
  apply (timeout_classified_wait sample_digest sample_analyze new_handler
           "Timeout 10000ms exceeded" "click_element" "").
  - vm_compute. reflexivity.
  - left. vm_compute. reflexivity.
Defined.

(** C9 as stated fails: the not-found row is tried before the time-out
    row, and for [click_element] it answers [scroll]. *)
Lemma timeout_not_always_wait :
  contains "Timeout 10000ms exceeded"
           "Element not found: Timeout 10000ms exceeded" = true ∧
  r_strategy (fst (handle_error sample_digest sample_analyze new_handler
                     "Element not found: Timeout 10000ms exceeded"
                     "click_element" "" 0)) = Some "scroll".
Proof. split; vm_compute; reflexivity. Qed.

End ErrorHandlerSpec.

(** ** The action validator *)

Module ActionValidatorSpec.
Import Data ActionValidator.

(** The first tier on a successful [type_text]: valid, whatever the
    page did. *)
Lemma heuristic_type_text_success (action_result : action_result) :
  success action_result = true →
  _heuristic_validation "type_text" action_result =
    Some {| v_is_valid := true; v_message := "Текст успешно введен в поле";
            v_suggestions := [] |}.
Proof. intros Hs. unfold _heuristic_validation. rewrite Hs. reflexivity. Qed.

(** C7.  For a [type_text] action whose result reports success, the
    heuristic tier answers [is_valid = true] whatever the page diff is,
    and [validate_action_result] returns that verdict at once: it is
    marked heuristic, not taken from the cache, and the validator is
    left as it was, so that neither the cache nor the log of requests
    to the service changes. *)
Theorem type_text_success_short_circuit
    (page_info : Type) digest oracle_expected oracle_match
    (v : validator) (action_params : params) (action_result : action_result)
    (task : string) (page : page_info) :
  success action_result = true →
  let out := validate_action_result page_info digest oracle_expected oracle_match
               v "type_text" action_params action_result task page in
  is_valid (fst out) = true ∧
  heuristic (fst out) = true ∧
  from_cache (fst out) = false ∧
  snd out = v.
Proof.
  intros Hs. unfold validate_action_result.
  rewrite (heuristic_type_text_success _ Hs). done.
Qed.

Lemma type_text_success_short_circuit_witness :
  let out := validate_action_result unit sample_digest sample_expected_outcome
               sample_outcome_match new_validator "type_text"
               {[ "text" := "python"; "element_description" := "search box" ]}
               quiet_success "find python jobs" tt in
  is_valid (fst out) = true ∧
  heuristic (fst out) = true ∧
  from_cache (fst out) = false ∧
  snd out = new_validator.
Proof.
  apply (type_text_success_short_circuit unit sample_digest sample_expected_outcome
           sample_outcome_match new_validator _ quiet_success "find python jobs" tt).
  reflexivity.
Defined.

End ActionValidatorSpec.

(** ** The cycle detector *)

Module AgentStateSpec.
Import Data AgentState.

Lemma last_n_replicate {A} (k n : nat) (x : A) :
  last_n k (replicate n x) = replicate (n `min` k) x.
Proof.
  unfold last_n. rewrite length_replicate, drop_replicate. f_equal. lia.
Qed.

Lemma remove_dups_cons `{EqDecision A} (x : A) l :
  remove_dups (x :: l) =
    if decide (x ∈ l) then remove_dups l else x :: remove_dups l.
Proof. reflexivity. Qed.

Lemma remove_dups_replicate `{EqDecision A} (x : A) n :
  remove_dups (replicate (S n) x) = [x].
Proof.
  induction n as [|n IH].
  - cbn [replicate]. rewrite remove_dups_cons. cbn [remove_dups].
    by rewrite decide_False by set_solver.
  - change (replicate (S (S n)) x) with (x :: replicate (S n) x).
    rewrite remove_dups_cons, IH. by rewrite decide_True by (cbn; set_solver).
Qed.

Lemma at_most_one_value_replicate `{EqDecision A} (x : A) n :
  at_most_one_value (replicate n x) = true.
Proof.
  unfold at_most_one_value. apply bool_decide_eq_true.
  destruct n; [cbn; lia|]. by rewrite remove_dups_replicate.
Qed.

Section Signatures.
Variable json_dumps str_of_params : params → string.

Lemma signature_no_diff a :
  no_page_diff a = true →
  _get_action_signature json_dumps a =
    (rec_action a +:+ ":" +:+ json_dumps (rec_parameters a), false, false, rec_action a).
Proof.
  unfold no_page_diff, _get_action_signature.
  intros [[[H1 H2]%andb_true_iff H3]%andb_true_iff H4]%andb_true_iff.
  apply negb_true_iff in H1, H2, H3, H4. by rewrite H1, H2, H3, H4.
Qed.

(** From [c] repeats already counted, [k] further copies of the last
    signature reach the threshold. *)
Lemma repeats_loop_hits recent sg name k c :
  1 ≤ k → repeat_threshold name ≤ c + k →
  is_Some (consecutive_repeats_loop recent 2 3
             (replicate k (sg, false, false, name)) c (Some sg)).
Proof.
  revert c. induction k as [|k IH]; intros c Hk Hthr; [lia|].
  cbn [replicate consecutive_repeats_loop].
  rewrite bool_decide_eq_true_2 by done. cbn [negb andb].
  unfold repeat_threshold in *.
  case_bool_decide as Hc; [done|].
  apply IH; destruct (_is_critical_action name); lia.
Qed.

Lemma no_page_diff_page_changed a :
  no_page_diff a = true → default true (rec_page_changed a) = false.
Proof.
  unfold no_page_diff.
  intros [[[H1 _]%andb_true_iff _]%andb_true_iff _]%andb_true_iff.
  by apply negb_true_iff in H1.
Qed.

Lemma at_most_one_value_pair `{EqDecision A} (x : A) : at_most_one_value [x; x] = true.
Proof. apply (at_most_one_value_replicate x 2). Qed.

Lemma not_critical_not_navigate name :
  _is_critical_action name = false → String.eqb name "navigate" = false.
Proof.
  unfold _is_critical_action. intros H%bool_decide_eq_false.
  apply String.eqb_neq. set_solver.
Qed.

Lemma signatures_of_repeats name p l :
  Forall (repeats_action name p) l →
  map (_get_action_signature json_dumps) l =
    replicate (length l) (name +:+ ":" +:+ json_dumps p, false, false, name).
Proof.
  induction 1 as [|a l (Hn & Hp & Hd) _ IH]; [done|]. cbn [map length replicate].
  rewrite IH, (signature_no_diff _ Hd), Hn, Hp. done.
Qed.

Lemma consecutive_repeats_of_repeats name p l :
  Forall (repeats_action name p) l → repeat_threshold name ≤ length l →
  is_Some (_check_consecutive_repeats json_dumps l 2 3).
Proof.
  intros Hl Hn. unfold _check_consecutive_repeats.
  assert (2 ≤ length l)
    by (unfold repeat_threshold in Hn; destruct (_is_critical_action _); lia).
  rewrite bool_decide_eq_false_2 by lia.
  rewrite (signatures_of_repeats _ _ _ Hl).
  destruct (length l) as [|n]; [lia|]. cbn [replicate consecutive_repeats_loop].
  rewrite bool_decide_eq_false_2 by done.
  apply repeats_loop_hits; lia.
Qed.

Lemma Forall_last_n_drop {A} (P : A → Prop) n (l : list A) :
  Forall P l → Forall P (last_n n l).
Proof. apply Forall_drop. Qed.

Lemma length_last_n_min {A} n (l : list A) : length (last_n n l) = length l `min` n.
Proof. unfold last_n. rewrite length_drop. lia. Qed.

Lemma detect_loop_reaches_threshold m name p :
  Forall (repeats_action name p) (action_history m) →
  repeat_threshold name ≤ length (action_history m) →
  is_Some (detect_loop json_dumps str_of_params m).
Proof.
  intros Hl Hn. unfold detect_loop.
  assert (2 ≤ length (action_history m))
    by (unfold repeat_threshold in Hn; destruct (_is_critical_action _); lia).
  rewrite bool_decide_eq_false_2 by lia.
  destruct (consecutive_repeats_of_repeats name p
              (last_n 6 (last_n (lookback * 2) (action_history m)))) as [li ->];
    [by do 2 apply Forall_last_n_drop| |done].
  rewrite !length_last_n_min.
  unfold repeat_threshold, lookback in *. destruct (_is_critical_action _); lia.
Qed.

Lemma repeating_errors_pair a b :
  rec_action a = rec_action b → rec_parameters a = rec_parameters b →
  default true (rec_page_changed a) = false →
  default true (rec_page_changed b) = false →
  _check_repeating_errors str_of_params [a; b] 2 = None ↔
  forallb failed_with_error [a; b]
  && at_most_one_value (map (fun a => default "" (error (rec_result a))) [a; b]) = false.
Proof.
  intros Hn Hp Ha Hb. unfold _check_repeating_errors. cbn [List.filter forallb].
  fold (failed_with_error a) (failed_with_error b).
  destruct (failed_with_error a), (failed_with_error b);
    cbn [map length any existsb andb]; try done.
  rewrite Ha, Hb, Hn, Hp, !at_most_one_value_pair. cbn [id orb negb andb].
  rewrite bool_decide_eq_true_2 by lia. cbn [andb].
  rewrite !andb_true_r. by destruct (at_most_one_value _).
Qed.

Lemma repeating_urls_pair a b :
  _is_critical_action (rec_action a) = false → rec_action b = rec_action a →
  _check_repeating_urls [a; b] 2 = None.
Proof.
  intros Hc%not_critical_not_navigate Hn. unfold _check_repeating_urls.
  cbn [List.filter]. by rewrite Hn, Hc.
Qed.

Lemma extract_text_pair a b :
  rec_action b = rec_action a → rec_parameters b = rec_parameters a →
  default true (rec_page_changed a) = false →
  default true (rec_page_changed b) = false →
  check_extract_text [a; b] = None ↔
  String.eqb (rec_action a) "extract_text"
  && Py.truthy (pget (rec_parameters a) "description") = false.
Proof.
  intros Hn Hp Ha Hb. unfold check_extract_text, last_n.
  cbn [length Nat.sub drop List.filter].
  rewrite bool_decide_eq_true_2 by lia. rewrite Hn.
  destruct (String.eqb _ _); cbn [length andb]; [|done].
  rewrite bool_decide_eq_true_2 by lia.
  cbn [map head default any existsb]. rewrite Ha, Hb, Hp, at_most_one_value_pair.
  by destruct (Py.truthy _).
Qed.

Lemma query_dom_pair a b :
  rec_action b = rec_action a → rec_parameters b = rec_parameters a →
  default true (rec_page_changed a) = false →
  default true (rec_page_changed b) = false →
  check_query_dom [a; b] = None ↔
  String.eqb (rec_action a) "query_dom"
  && Py.truthy (pget (rec_parameters a) "query") = false.
Proof.
  intros Hn Hp Ha Hb. unfold check_query_dom, last_n.
  cbn [length Nat.sub drop List.filter].
  rewrite bool_decide_eq_true_2 by lia. rewrite Hn.
  destruct (String.eqb _ _); cbn [length andb]; [|done].
  rewrite bool_decide_eq_true_2 by lia.
  cbn [map List.filter]. rewrite Hp.
  destruct (Py.truthy _); cbn [map length count_pairs List.filter]; [|done].
  rewrite bool_decide_eq_true_2 by lia.
  rewrite String.eqb_refl. cbn [orb length Nat.add].
  rewrite bool_decide_eq_true_2 by lia.
  cbn [any existsb]. rewrite Ha, Hb. done.
Qed.

Lemma detect_loop_pair m name p a b :
  action_history m = [a; b] →
  repeats_action name p a → repeats_action name p b →
  _is_critical_action name = false →
  detect_loop json_dumps str_of_params m = None ↔
  two_repeat_check_applies name p [a; b] = false.
Proof.
  intros Hh (Hna & Hpa & Hda) (Hnb & Hpb & Hdb) Hc. unfold detect_loop. rewrite Hh.
  cbn [length]. rewrite bool_decide_eq_false_2 by lia.
  unfold last_n, lookback. cbn [length Nat.mul Nat.add Nat.sub drop].
  unfold _check_consecutive_repeats. cbn [length map consecutive_repeats_loop].
  rewrite bool_decide_eq_false_2 by lia.
  rewrite (signature_no_diff _ Hda), (signature_no_diff _ Hdb), Hna, Hnb, Hpa, Hpb.
  cbn [consecutive_repeats_loop].
  rewrite bool_decide_eq_false_2 by done.
  rewrite bool_decide_eq_true_2 by done. cbn [negb andb]. rewrite Hc.
  rewrite bool_decide_eq_false_2 by lia.
  pose proof (no_page_diff_page_changed _ Hda) as Hca.
  pose proof (no_page_diff_page_changed _ Hdb) as Hcb.
  pose proof (repeating_errors_pair a b) as He.
  pose proof (extract_text_pair a b) as Hx.
  pose proof (query_dom_pair a b) as Hq.
  rewrite Hna, Hnb, Hpa, Hpb in He, Hx, Hq.
  specialize (He eq_refl eq_refl Hca Hcb).
  specialize (Hx eq_refl eq_refl Hca Hcb).
  specialize (Hq eq_refl eq_refl Hca Hcb).
  rewrite (repeating_urls_pair a b) by (by rewrite ?Hna, ?Hnb).
  unfold _check_pattern_repetition. cbn [length map].
  rewrite bool_decide_eq_false_2 by lia.
  unfold two_repeat_check_applies. rewrite !orb_false_iff.
  destruct (_check_repeating_errors _ _ _); [intuition congruence|].
  destruct (check_extract_text _); [intuition congruence|].
  destruct (check_query_dom _); intuition congruence.
Qed.


(** C2 (as amended).  For a history of [N] records that carry the same
    action name and the same parameters and show no page diff, whatever
    their results, [detect_loop] reports a loop once [N] reaches the
    threshold of the action, 2 for [navigate] and [click_element] and 3
    for every other action.  Below the threshold it answers [None],
    except in one case: [N = 2] and one of the checks whose threshold is
    two repeats for every action applies (both records failed with one
    and the same error text, or the action is an [extract_text] with a
    description, or a [query_dom] with a query). *)
Theorem detect_loop_identical_records (m : manager) (action_name : string)
    (parameters : params) :
  Forall (repeats_action action_name parameters) (action_history m) →
  let N := length (action_history m) in
  (repeat_threshold action_name ≤ N →
   is_Some (detect_loop json_dumps str_of_params m)) ∧
  (N < repeat_threshold action_name →
   (detect_loop json_dumps str_of_params m = None ↔
    ¬ (N = 2 ∧
       two_repeat_check_applies action_name parameters (action_history m) = true))).
Proof.
  intros Hl N. split.
  - by apply detect_loop_reaches_threshold with parameters.
  - intros Hlt. subst N.
    destruct (action_history m) as [|a [|b [|c l]]] eqn:Hh.
    + unfold detect_loop. rewrite Hh. cbn. intuition lia.
    + unfold detect_loop. rewrite Hh. cbn. intuition lia.
    + assert (_is_critical_action action_name = false) as Hc.
      { unfold repeat_threshold in Hlt. cbn in Hlt.
        destruct (_is_critical_action _); [lia|done]. }
      apply Forall_cons in Hl as [Ha Hl]. apply Forall_cons in Hl as [Hb _].
      rewrite (detect_loop_pair m action_name parameters a b Hh Ha Hb Hc).
      destruct (two_repeat_check_applies _ _ _); intuition congruence.
    + unfold repeat_threshold in Hlt. cbn in Hlt.
      destruct (_is_critical_action _); lia.
Qed.

End Signatures.

(** Three scrolls in a row, one that succeeded and two that failed with
    different errors: the third one is reported. *)
Lemma detect_loop_identical_records_witness :
  let history := [scroll_down; scroll_failed "Timeout"; scroll_failed "Detached"] in
  (repeat_threshold "scroll" ≤ 3 →
   is_Some (detect_loop sample_dumps sample_dumps (with_history history))) ∧
  (3 < repeat_threshold "scroll" →
   (detect_loop sample_dumps sample_dumps (with_history history) = None ↔
    ¬ (3 = 2 ∧
       two_repeat_check_applies "scroll" {[ "direction" := "down" ]} history = true))).
Proof.
  intros history.
  apply (detect_loop_identical_records sample_dumps sample_dumps
           (with_history history) "scroll" {[ "direction" := "down" ]}).
  repeat constructor.
Defined.

(** Two failed scrolls are reported when their error texts agree, and
    are not when they differ. *)
Lemma two_failed_scrolls :
  detect_loop sample_dumps sample_dumps
    (with_history [scroll_failed "Timeout"; scroll_failed "Timeout"]) ≠ None ∧
  detect_loop sample_dumps sample_dumps
    (with_history [scroll_failed "Timeout"; scroll_failed "Detached"]) = None.
Proof. split; vm_compute; [discriminate|reflexivity]. Qed.

(** C2 as stated fails below the threshold: two identical [extract_text]
    records without page diff are one short of the threshold of the
    action, and [detect_loop] reports them. *)
Lemma detect_loop_below_threshold :
  no_page_diff extract_price = true ∧
  2 < repeat_threshold (rec_action extract_price) ∧
  detect_loop sample_dumps sample_dumps
    (with_history (replicate 2 extract_price)) ≠ None.
Proof. split; [|split]; vm_compute; [reflexivity|lia|discriminate]. Qed.

End AgentStateSpec.

(** ** The token cache, and context assembly *)

Module ContextSpec.
Import Page TokenCache TokenOptimizer.

Section Cache.
Context {token : Type} (encode : string → list token).

Lemma returns_ret {A} (x : A) : returns encode (mret x) x.
Proof. intros c Hc. done. Qed.

Lemma returns_bind {A B} (m : M A) (f : A → M B) v w :
  returns encode m v → returns encode (f v) w → returns encode (m ≫= f) w.
Proof.
  intros Hm Hf c Hc. destruct (Hm c Hc) as [Hv Hc'].
  unfold mbind, M_bind, bind. destruct (m c) as [x c']. simpl in *. subst x.
  by apply Hf.
Qed.

Lemma run_bind {A B} (m : M A) (f : A → M B) c :
  (m ≫= f) c = f (m c).1 (m c).2.
Proof. unfold mbind, M_bind, bind. by destruct (m c). Qed.

Lemma oblivious_ret {A} (x : A) : oblivious encode (mret x).
Proof. exists x. apply returns_ret. Qed.

Lemma oblivious_bind {A B} (m : M A) (f : A → M B) :
  oblivious encode m → (∀ x, oblivious encode (f x)) → oblivious encode (m ≫= f).
Proof.
  intros [v Hm] Hf. destruct (Hf v) as [w Hw]. exists w. by eapply returns_bind.
Qed.

Lemma dict_get_consistent (c : cache) text n :
  consistent encode c → ErrorHandler.dict_get c text = Some n → n = length (encode text).
Proof.
  induction 1 as [|[t k] c Hk Hc IH]; [done|]. cbn.
  destruct (String.eqb_spec t text) as [->|]; [|done].
  intros [= <-]. done.
Qed.

Lemma evict_oldest_consistent bound (c : cache) :
  consistent encode c → consistent encode (ErrorHandler.evict_oldest bound c).
Proof.
  intros Hc. unfold ErrorHandler.evict_oldest. destruct (_ <? _)%nat; [|done].
  destruct Hc; [constructor|done].
Qed.

Lemma returns_count_tokens text :
  returns encode (count_tokens token encode text) (length (encode text)).
Proof.
  intros c Hc. unfold count_tokens. case_bool_decide; [|done].
  destruct (ErrorHandler.dict_get c text) as [n|] eqn:Hget; cbn.
  - split; [|done]. by eapply dict_get_consistent.
  - split; [done|]. apply evict_oldest_consistent.
    apply Forall_app. split; [done|]. by constructor.
Qed.

Lemma oblivious_count_tokens text : oblivious encode (count_tokens token encode text).
Proof. eexists. apply returns_count_tokens. Qed.

Lemma oblivious_foldM {A B} (f : B → A → M B) l b :
  (∀ b x, oblivious encode (f b x)) → oblivious encode (foldM f l b).
Proof.
  intros Hf. revert b. induction l as [|x l IH]; intros b; cbn [foldM].
  - apply oblivious_ret.
  - apply oblivious_bind; [apply Hf|]. intros b'. apply IH.
Qed.


End Cache.

Ltac oblivious_step :=
  first
    [ apply oblivious_ret
    | apply oblivious_count_tokens
    | apply oblivious_foldM; intros ? ?
    | apply oblivious_bind; [|intros ?]
    | match goal with
      | |- oblivious _ (if ?b then _ else _) => destruct b
      | |- oblivious _ (match ?x with _ => _ end) => destruct x
      end ].

Section Optimizer.
Context {token : Type} (encode : string → list token) (decode : list token → string).
Context (str_of_element : element → string).
Context (str_of_location : location_context → string).
Context (str_of_visible_modals : visible_modals_info → string).
Context (int_times_0_7 : Z → Z) (int_scaled : nat → Z → nat → Z).
Context (str_of_history : list history_entry → string).

Lemma oblivious_optimize_step max_tokens task_type acc element :
  oblivious encode
    (optimize_step token encode str_of_element max_tokens task_type acc element).
Proof. unfold optimize_step. destruct acc. repeat oblivious_step. Qed.

Lemma oblivious_optimize_elements elements max_tokens task_type :
  oblivious encode
    (_optimize_elements token encode str_of_element elements max_tokens task_type).
Proof.
  unfold _optimize_elements. destruct elements; [apply oblivious_ret|].
  apply oblivious_bind.
  - apply oblivious_foldM. intros. apply oblivious_optimize_step.
  - intros [? ?]. apply oblivious_ret.
Qed.

Lemma oblivious_optimize_page_info page_info max_tokens task_type :
  oblivious encode
    (optimize_page_info token encode decode str_of_element str_of_location
       str_of_visible_modals int_times_0_7 page_info max_tokens task_type).
Proof.
  unfold optimize_page_info.
  apply oblivious_bind; [apply oblivious_optimize_elements|intros ?].
  repeat oblivious_step.
Qed.

Lemma oblivious_assemble_page cm page_info max_tokens :
  oblivious encode
    (ContextManager.assemble_page token encode decode str_of_element str_of_location
       str_of_visible_modals int_times_0_7 cm page_info max_tokens).
Proof.
  unfold ContextManager.assemble_page.
  apply oblivious_bind; [apply oblivious_optimize_page_info|intros ?].
  apply oblivious_ret.
Qed.

Lemma oblivious_prepare_context cm page_info max_tokens :
  oblivious encode
    (ContextManager.prepare_context token encode decode str_of_element str_of_location
       str_of_visible_modals int_times_0_7 int_scaled cm page_info max_tokens).
Proof.
  unfold ContextManager.prepare_context.
  apply oblivious_bind; [apply oblivious_assemble_page|intros ?].
  apply oblivious_bind; [apply oblivious_count_tokens|intros ?].
  destruct (_ <? _)%Z; [|apply oblivious_ret].
  apply oblivious_bind; [apply oblivious_count_tokens|intros ?].
  destruct (_ <? _)%Z; apply oblivious_ret.
Qed.


Abbreviation prepare :=
  (ContextManager.prepare_context token encode decode str_of_element str_of_location
     str_of_visible_modals int_times_0_7 int_scaled).

(** C8.  [prepare_context] reads the manager and the page model and
    writes nothing but the token cache, and its result does not depend
    on the entries of a consistent cache (one that holds, for each text,
    its own number of tokens, as every cache filled by [count_tokens]
    does).  Hence a second call with the same page model, the same
    [max_tokens] and the same manager, started on the cache that the
    first call left, returns the same string. *)
Theorem prepare_context_idempotent cm page_info max_tokens c :
  consistent encode c →
  let first_call := prepare cm page_info max_tokens c in
  let second_call := prepare cm page_info max_tokens first_call.2 in
  first_call.1 = second_call.1.
Proof.
  intros Hc. destruct (oblivious_prepare_context cm page_info max_tokens) as [v Hv].
  destruct (Hv c Hc) as [H1 Hc1]. destruct (Hv _ Hc1) as [H2 _].
  cbn. congruence.
Qed.

Ltac run_cache :=
  repeat match goal with
         | |- context [let '(_, _) := ?m ?c in _] => destruct (m c)
         end.

Lemma assemble_page_header cm page_info max_tokens c :
  let o := (ContextManager.assemble_page token encode decode str_of_element
              str_of_location str_of_visible_modals int_times_0_7 cm page_info
              max_tokens c).1 in
  o_url o = url page_info ∧ o_title o = title page_info.
Proof.
  unfold ContextManager.assemble_page, optimize_page_info.
  unfold mbind, M_bind, bind, mret, M_ret, ret.
  destruct (_optimize_elements _ _ _ _ _ _ c) as [els c1].
  destruct (count_tokens _ _ _ c1) as [n1 c2].
  destruct (location page_info); destruct (visible_modals page_info); cbn;
    run_cache; done.
Qed.

Lemma length_last_n_le {A} k (l : list A) : length (AgentState.last_n k l) ≤ k.
Proof. unfold AgentState.last_n. rewrite length_drop. lia. Qed.

Lemma last_n_subseteq {A} k (l : list A) : AgentState.last_n k l ⊆ l.
Proof. apply subseteq_drop. Qed.

Lemma List_filter_sub {A} (p : A → bool) (l : list A) : List.filter p l ⊆ l.
Proof.
  intros x Hx. apply list_elem_of_In, List.filter_In in Hx as [Hx _].
  by apply list_elem_of_In.
Qed.

Lemma filter_split_length {A} (p q : A → bool) (l : list A) :
  (∀ x, p x = negb (q x)) →
  length (List.filter p l) + length (List.filter q l) = length l.
Proof.
  intros Hpq. induction l as [|x l IH]; [done|]. cbn. rewrite Hpq.
  destruct (q x); cbn; lia.
Qed.

(** The history that the reduction stages format: records of the
    history of the manager. *)
Lemma combined_history_sub (h : list history_entry) :
  ContextManager.combined_history h ⊆ h.
Proof.
  unfold ContextManager.combined_history. cbv zeta.
  intros x [Hx|Hx]%elem_of_app.
  - by eapply List_filter_sub.
  - apply List_filter_sub in Hx. destruct (bool_decide _); [|done].
    by eapply last_n_subseteq.
Qed.

(** C1 (as amended).  For every page model and every positive
    [max_tokens], [prepare_context] measures the context it assembled
    and, when that exceeds [max_tokens], the reduced context; it returns
    the first of the two that measures at most [max_tokens].  When
    neither does, it returns, without measuring it, the context of the
    last stage: the same URL and title, at most 15 elements, no text
    preview and at most 2 history records.  So the estimated cost of the
    result is at most [max_tokens] unless the result is that last
    context.  The reduced context keeps the URL and the title, holds no
    more elements than the assembled one, a prefix of its text preview
    and at most 5 records of the history. *)
Theorem prepare_context_budget cm page_info (max_tokens : Z) c :
  consistent encode c → (0 < max_tokens)%Z →
  let cost (s : string) := Z.of_nat (length (encode s)) in
  let context := (prepare cm page_info (Some max_tokens) c).1 in
  let page :=
    (ContextManager.assemble_page token encode decode str_of_element str_of_location
       str_of_visible_modals int_times_0_7 cm page_info max_tokens c).1 in
  let assembled := format_context page (ContextManager.history cm) in
  let reduced :=
    ContextManager.reduced_context int_scaled max_tokens (length (encode assembled))
      page (ContextManager.history cm) in
  let last :=
    ContextManager.last_context int_scaled max_tokens (length (encode assembled))
      page (ContextManager.history cm) in
  ((cost assembled ≤ max_tokens)%Z → context = assembled) ∧
  ((max_tokens < cost assembled)%Z → (cost reduced ≤ max_tokens)%Z →
   context = reduced) ∧
  ((max_tokens < cost assembled)%Z → (max_tokens < cost reduced)%Z →
   context = last) ∧
  ((cost context ≤ max_tokens)%Z ∨ context = last) ∧
  (∃ page' history',
     reduced = format_context page' history' ∧
     o_url page' = url page_info ∧ o_title page' = title page_info ∧
     length (o_interactive_elements page') ≤ length (o_interactive_elements page) ∧
     (∃ n, o_visible_text_preview page' = Py.take n (o_visible_text_preview page)) ∧
     history' ⊆ ContextManager.history cm ∧ length history' ≤ 5) ∧
  (∃ page' history',
     last = format_context page' history' ∧
     o_url page' = url page_info ∧ o_title page' = title page_info ∧
     length (o_interactive_elements page') ≤ 15 ∧
     o_visible_text_preview page' = "" ∧
     history' ⊆ ContextManager.history cm ∧ length history' ≤ 2).
Proof.
  intros Hc Hpos. cbv zeta.
  destruct (assemble_page_header cm page_info max_tokens c) as [Hurl Htitle].
  destruct (oblivious_assemble_page cm page_info max_tokens) as [o' Ho].
  destruct (Ho c Hc) as [_ Hc1]. clear Ho o'.
  set (o := (ContextManager.assemble_page _ _ _ _ _ _ _ _ _ _ c).1) in *.
  set (c1 := (ContextManager.assemble_page _ _ _ _ _ _ _ _ _ _ c).2) in *.
  set (assembled := format_context o (ContextManager.history cm)).
  set (reduced := ContextManager.reduced_context _ _ _ _ _).
  set (last := ContextManager.last_context _ _ _ _ _).
  assert ((prepare cm page_info (Some max_tokens) c).1 =
          if (max_tokens <? Z.of_nat (length (encode assembled)))%Z
          then if (max_tokens <? Z.of_nat (length (encode reduced)))%Z
               then last else reduced
          else assembled) as ->.
  { unfold ContextManager.prepare_context. cbv zeta.
    destruct (Z.eqb_spec max_tokens 0) as [?|_]; [lia|].
    rewrite run_bind. fold o c1. rewrite run_bind. fold assembled.
    destruct (returns_count_tokens encode assembled c1 Hc1) as [-> Hc2].
    destruct (max_tokens <? Z.of_nat (length (encode assembled)))%Z; [|reflexivity].
    rewrite run_bind.
    set (c2 := (count_tokens token encode assembled c1).2) in *.
    change (count_tokens token encode ?t c2) with (count_tokens token encode reduced c2).
    destruct (returns_count_tokens encode reduced c2 Hc2) as [-> _].
    destruct (max_tokens <? Z.of_nat (length (encode reduced)))%Z; reflexivity. }
  split; [|split; [|split; [|split; [|split]]]].
  - intros Hfit. destruct (Z.ltb_spec max_tokens (Z.of_nat (length (encode assembled))));
      [lia|done].
  - intros Hover Hfit.
    destruct (Z.ltb_spec max_tokens (Z.of_nat (length (encode assembled)))); [|lia].
    destruct (Z.ltb_spec max_tokens (Z.of_nat (length (encode reduced)))); [lia|done].
  - intros Hover Hover2.
    destruct (Z.ltb_spec max_tokens (Z.of_nat (length (encode assembled)))); [|lia].
    destruct (Z.ltb_spec max_tokens (Z.of_nat (length (encode reduced)))); [done|lia].
  - destruct (Z.ltb_spec max_tokens (Z.of_nat (length (encode assembled))));
      [|left; lia].
    destruct (Z.ltb_spec max_tokens (Z.of_nat (length (encode reduced))));
      [by right|left; lia].
  - subst reduced. unfold ContextManager.reduced_context, ContextManager.reduced_page,
      ContextManager.cut_elements. cbv zeta.
    eexists _, _. split; [reflexivity|].
    split; [by destruct (_ <? _)%Z|]. split; [by destruct (_ <? _)%Z|].
    split; [|split; [|split]].
    + destruct (_ <? _)%Z; cbn [ContextManager.with_elements o_interactive_elements].
      * by rewrite length_map.
      * rewrite length_app, length_take.
        match goal with |- context [List.filter ?p ?l] =>
          pose proof (filter_split_length p (λ e, (ContextManager.relevance e <=? 5)%Z) l)
            as Hsplit end.
        rewrite <- Hsplit; [lia|]. intros e. cbn.
        destruct (Z.ltb_spec 5 (ContextManager.relevance e)),
                 (Z.leb_spec (ContextManager.relevance e) 5); done || lia.
    + destruct (_ <? _)%Z; cbn; eauto.
    + etrans; [apply last_n_subseteq|apply combined_history_sub].
    + apply length_last_n_le.
  - subst last. unfold ContextManager.last_context, ContextManager.reduced_page,
      ContextManager.cut_elements. cbv zeta.
    eexists _, _. split; [reflexivity|].
    cbn [ContextManager.with_elements o_url o_title o_interactive_elements
         o_visible_text_preview].
    split; [by destruct (_ <? _)%Z|]. split; [by destruct (_ <? _)%Z|].
    split; [rewrite length_take; lia|]. split; [done|]. split.
    + match goal with
      | |- (if bool_decide ?P then _ else _) ⊆ _ =>
          destruct (bool_decide P);
            [etrans; [apply last_n_subseteq|]|]; apply combined_history_sub
      end.
    + match goal with
      | |- length (if bool_decide ?P then _ else _) ≤ _ =>
          destruct (bool_decide_reflect P); [apply length_last_n_le|lia]
      end.
Qed.

End Optimizer.

Lemma prepare_context_idempotent_witness :
  let first_call :=
    ContextManager.sample_prepare_context
      (ContextManager.manager_for "Тестовая задача" []) ContextManager.example_page
      None [] in
  let second_call :=
    ContextManager.sample_prepare_context
      (ContextManager.manager_for "Тестовая задача" []) ContextManager.example_page
      None first_call.2 in
  first_call.1 = second_call.1.
Proof.
  apply (prepare_context_idempotent ContextManager.sample_encode
           ContextManager.sample_decode ContextManager.sample_str_of_element
           ContextManager.sample_str_of_location
           ContextManager.sample_str_of_visible_modals
           ContextManager.sample_int_times_0_7 ContextManager.sample_int_scaled
           (ContextManager.manager_for "Тестовая задача" [])
           ContextManager.example_page None []).
  apply Forall_nil_2.
Defined.

Lemma prepare_context_budget_witness :
  let encode := ContextManager.sample_encode in
  let cm := ContextManager.manager_for "Тестовая задача" [] in
  let page_info := ContextManager.example_page in
  let max_tokens := 5%Z in
  let cost (s : string) := Z.of_nat (length (encode s)) in
  let context :=
    (ContextManager.sample_prepare_context cm page_info (Some max_tokens) []).1 in
  let page :=
    (ContextManager.assemble_page string encode ContextManager.sample_decode
       ContextManager.sample_str_of_element ContextManager.sample_str_of_location
       ContextManager.sample_str_of_visible_modals ContextManager.sample_int_times_0_7
       cm page_info max_tokens []).1 in
  let assembled := format_context page (ContextManager.history cm) in
  let reduced :=
    ContextManager.reduced_context ContextManager.sample_int_scaled max_tokens
      (length (encode assembled)) page (ContextManager.history cm) in
  let last :=
    ContextManager.last_context ContextManager.sample_int_scaled max_tokens
      (length (encode assembled)) page (ContextManager.history cm) in
  ((cost assembled ≤ max_tokens)%Z → context = assembled) ∧
  ((max_tokens < cost assembled)%Z → (cost reduced ≤ max_tokens)%Z →
   context = reduced) ∧
  ((max_tokens < cost assembled)%Z → (max_tokens < cost reduced)%Z →
   context = last) ∧
  ((cost context ≤ max_tokens)%Z ∨ context = last) ∧
  (∃ page' history',
     reduced = format_context page' history' ∧
     o_url page' = url page_info ∧ o_title page' = title page_info ∧
     length (o_interactive_elements page') ≤ length (o_interactive_elements page) ∧
     (∃ n, o_visible_text_preview page' = Py.take n (o_visible_text_preview page)) ∧
     history' ⊆ ContextManager.history cm ∧ length history' ≤ 5) ∧
  (∃ page' history',
     last = format_context page' history' ∧
     o_url page' = url page_info ∧ o_title page' = title page_info ∧
     length (o_interactive_elements page') ≤ 15 ∧
     o_visible_text_preview page' = "" ∧
     history' ⊆ ContextManager.history cm ∧ length history' ≤ 2).
Proof.
  apply (prepare_context_budget ContextManager.sample_encode
           ContextManager.sample_decode ContextManager.sample_str_of_element
           ContextManager.sample_str_of_location
           ContextManager.sample_str_of_visible_modals
           ContextManager.sample_int_times_0_7 ContextManager.sample_int_scaled
           (ContextManager.manager_for "Тестовая задача" [])
           ContextManager.example_page 5%Z []).
  - apply Forall_nil_2.
  - lia.
Defined.

(** C1 as stated fails: for the page of the test suite and a budget of 5
    tokens the result is the two header lines, which the sample
    tokenizer counts as 6 tokens. *)
Lemma prepare_context_over_budget :
  let context :=
    (ContextManager.sample_prepare_context
       (ContextManager.manager_for "Тестовая задача" []) ContextManager.example_page
       (Some 5%Z) []).1 in
  (0 < 5)%Z ∧
  context = "Текущая страница: https://example.com" +:+ nl +:+
            "Заголовок: Example Domain" ∧
  (5 < Z.of_nat (length (ContextManager.sample_encode context)))%Z.
Proof. vm_compute. repeat split; reflexivity. Qed.

End ContextSpec.

(** ** The decision step: request budget and argument repair *)

Module DecisionSpec.
Import Data TokenCache Decision ContextSpec StringFacts DictFacts.












Section Decide.
Context (json_loads : string → loads_result).
Context {token : Type} (encode : string → list token).
Context (system_prompt : string) (tools_str : option string) (MAX_REQUEST_TOKENS : Z).
Context (build_user_message : string → string → string).
Context {page : Type} (prepare : page → option Z → M string).
Context (oracle : request → oracle_response).
Context (ENABLE_SUB_AGENTS : bool) (advisor : advice_request → option string).

Abbreviation decide :=
  (_decide_action json_loads token encode system_prompt tools_str MAX_REQUEST_TOKENS
     build_user_message page prepare oracle ENABLE_SUB_AGENTS advisor).

Lemma returns_estimate_request_size sp um tools :
  returns encode (ContextManager.estimate_request_size token encode sp um tools)
    (request_tokens token encode sp um tools).
Proof.
  unfold ContextManager.estimate_request_size, request_tokens, tools_size.
  eapply returns_bind; [apply returns_count_tokens|].
  eapply returns_bind; [apply returns_count_tokens|].
  destruct tools.
  - eapply returns_bind; [apply returns_count_tokens|]. apply returns_ret.
  - eapply returns_bind; [apply returns_ret|]. apply returns_ret.
Qed.


(** The sub-agent is asked once when sub-agents are enabled, and not at
    all otherwise. *)
Lemma advice_requests context task :
  length (advice ENABLE_SUB_AGENTS advisor context task).2 =
  if ENABLE_SUB_AGENTS then 1 else 0.
Proof.
  unfold advice, get_recommendation. destruct ENABLE_SUB_AGENTS; [|done].
  cbn [negb]. by destruct (advisor _).
Qed.

Lemma advice_requested_spec context task (page_info : page) c :
  advice_requested (decide context task page_info c).1 =
  (advice ENABLE_SUB_AGENTS advisor context task).2.
Proof.
  unfold _decide_action. cbv zeta. rewrite run_bind.
  destruct (_ <? _)%Z; [|done].
  rewrite !run_bind. destruct (_ <? _)%Z; [|done].
  by rewrite !run_bind.
Qed.

(** A tool call always yields a decision, whatever its argument string. *)
Lemma tool_call_decided function_name args_str :
  decided (decision_of_response json_loads (ToolCall function_name args_str)) = true.
Proof. reflexivity. Qed.


(** C5 (as amended).  With a token cache that agrees with the encoder:
    a request within MAX_REQUEST_TOKENS is sent as it is.  A request above
    it makes the step compute the room left for the context, which is
    MAX_REQUEST_TOKENS less the tool catalogue, the system prompt and a
    reserve of 500 tokens.  If that room is positive the context is
    derived again from the page model with the room as its ceiling,
    exactly once, and the rebuilt request is sent whatever its size.  If
    the room is not positive the step fails at once: nothing is derived
    again and nothing is sent.  The context of the first request is the
    one passed in, followed by the recommendation of a sub-agent when
    sub-agents are enabled and one was obtained. *)
Theorem decide_action_budget context task (page_info : page) c :
  consistent encode c →
  let advised :=
    with_recommendation context (advice ENABLE_SUB_AGENTS advisor context task).1 in
  let user_message := build_user_message advised task in
  let request_size := request_tokens token encode system_prompt user_message tools_str in
  let available_for_context :=
    (MAX_REQUEST_TOKENS - Z.of_nat (request_tokens token encode "" "" tools_str)
     - Z.of_nat (length (encode system_prompt)) - 500)%Z in
  let trace := (decide context task page_info c).1 in
  ((Z.of_nat request_size ≤ MAX_REQUEST_TOKENS)%Z →
   rederived_at trace = [] ∧
   requests_sent trace = [(system_prompt, user_message)] ∧
   decision_made trace =
     decision_of_response json_loads (oracle (system_prompt, user_message))) ∧
  ((MAX_REQUEST_TOKENS < Z.of_nat request_size)%Z →
   ((0 < available_for_context)%Z →
    ∃ c', consistent encode c' ∧
      let user_message' :=
        build_user_message (prepare page_info (Some available_for_context) c').1 task in
      rederived_at trace = [available_for_context] ∧
      requests_sent trace = [(system_prompt, user_message')] ∧
      decision_made trace =
        decision_of_response json_loads (oracle (system_prompt, user_message'))) ∧
   ((available_for_context ≤ 0)%Z →
    rederived_at trace = [] ∧ requests_sent trace = [] ∧
    decided (decision_made trace) = false)).
Proof.
  intros Hc. cbv zeta. unfold _decide_action. cbv zeta.
  set (advised :=
         with_recommendation context (advice ENABLE_SUB_AGENTS advisor context task).1).
  rewrite run_bind.
  destruct (returns_estimate_request_size system_prompt
              (build_user_message advised task) tools_str c Hc) as [-> Hc1].
  set (c1 := (ContextManager.estimate_request_size _ _ _ _ _ c).2) in *.
  destruct (Z.ltb_spec MAX_REQUEST_TOKENS
              (Z.of_nat (request_tokens token encode system_prompt
                           (build_user_message advised task) tools_str)))
    as [Hover|Hfit].
  - split; [lia|]. intros _.
    rewrite run_bind.
    destruct (returns_estimate_request_size "" "" tools_str c1 Hc1) as [-> Hc2].
    set (c2 := (ContextManager.estimate_request_size _ _ _ _ _ c1).2) in *.
    rewrite run_bind.
    destruct (returns_count_tokens encode system_prompt c2 Hc2) as [-> Hc3].
    set (c3 := (TokenOptimizer.count_tokens _ _ _ c2).2) in *.
    destruct (Z.ltb_spec 0
                (MAX_REQUEST_TOKENS
                 - Z.of_nat (request_tokens token encode "" "" tools_str)
                 - Z.of_nat (length (encode system_prompt)) - 500)) as [Hav|Hno].
    + split; [|lia]. intros _. exists c3. split; [done|].
      rewrite !run_bind. done.
    + split; [lia|]. intros _. done.
  - split; [|lia]. intros _. done.
Qed.

End Decide.


(** An argument string cut before its closing quote and brace: the
    repair closes both and the decision carries the address. *)
Lemma truncated_arguments_repaired :
  repair_json truncated_arguments = truncated_arguments +:+ String Py.dq "}" ∧
  decision_made
    (sample_decide 25000 "ctx" "task" ContextManager.example_page []).1 =
    Decided "navigate" (dict_of_strings [("url", "https://example.com")]).
Proof. split; vm_compute; reflexivity. Qed.


(** With the sub-agents switched on, the step first asks a sub-agent for
    a recommendation, once, and the request for the decision quotes the
    recommendation. *)
Lemma recommendation_requested :
  let trace :=
    (sample_decide_with sample_oracle true 25000 "ctx" "Открой вакансии"
       ContextManager.example_page []).1 in
  advice_requested trace = [("NavigationAgent", "ctx", "Открой вакансии")] ∧
  ∃ user_message,
    requests_sent trace = [(sample_system_prompt, user_message)] ∧
    Py.contains "=== РЕКОМЕНДАЦИЯ ОТ NavigationAgent ===" user_message = true.
Proof.
  cbv zeta. split; [vm_compute; reflexivity|].
  eexists. split; [vm_compute; reflexivity|]. vm_compute. reflexivity.
Qed.

(** A task of 600 words against a ceiling of 600 tokens: the room left
    for the context is 90 tokens, the context is derived again once and
    the rebuilt request is sent. *)
Lemma decide_action_budget_witness :
  let trace := (sample_decide 600 "ctx" long_task ContextManager.example_page []).1 in
  rederived_at trace = [90%Z] ∧ length (requests_sent trace) = 1 ∧
  decided (decision_made trace) = true.
Proof.
  cbv zeta.
  pose proof (decide_action_budget sample_json_loads
           ContextManager.sample_encode sample_system_prompt (Some sample_tools) 600
           sample_build_user_message
           (ContextManager.sample_prepare_context
              (ContextManager.manager_for "Тестовая задача" []))
           sample_oracle false sample_advisor "ctx" long_task
           ContextManager.example_page [] (Forall_nil_2 _)) as H.
  cbv zeta in H. destruct H as [_ H].
  destruct H as [H _]; [vm_compute; reflexivity|].
  destruct H as (c' & _ & H1 & H2 & H3); [vm_compute; reflexivity|].
  split; [etrans; [exact H1|vm_compute; reflexivity]|].
  unfold sample_decide, sample_decide_with.
  split; [by rewrite H2|]. by rewrite H3.
Defined.

(** C5 as stated fails, in both directions, for a task of 600 words.
    Against a ceiling of 500 tokens the request is over the ceiling and
    the step fails although the context was never derived again and no
    second attempt was made.  Against a ceiling of 600 tokens the context
    is derived again, the rebuilt request is still over the ceiling, and
    it is sent all the same. *)
Lemma request_budget_not_enforced :
  (let user_message := sample_build_user_message "ctx" long_task in
   let trace := (sample_decide 500 "ctx" long_task ContextManager.example_page []).1 in
   (500 < Z.of_nat (request_tokens string ContextManager.sample_encode
                      sample_system_prompt user_message (Some sample_tools)))%Z ∧
   rederived_at trace = [] ∧ requests_sent trace = [] ∧
   decided (decision_made trace) = false) ∧
  (let trace := (sample_decide 600 "ctx" long_task ContextManager.example_page []).1 in
   rederived_at trace = [90%Z] ∧
   decided (decision_made trace) = true ∧
   ∃ user_message, requests_sent trace = [(sample_system_prompt, user_message)] ∧
     (600 < Z.of_nat (request_tokens string ContextManager.sample_encode
                        sample_system_prompt user_message (Some sample_tools)))%Z).
Proof.
  split.
  - vm_compute. repeat split; reflexivity.
  - vm_compute. split; [reflexivity|]. split; [reflexivity|].
    eexists. split; [reflexivity|]. vm_compute. reflexivity.
Qed.

End DecisionSpec.

(** ** The loop: completion gating, progress and repeated questions *)

Module MainAgentSpec.
Import Data TokenCache Decision MainAgent ContextSpec.

Lemma can_complete_task_true cm :
  ContextManager.can_complete_task cm = true ↔
  ∀ key count, (key, count) ∈ ContextManager.requirements cm →
               (count ≤ ContextManager.progress cm key)%Z.
Proof.
  unfold ContextManager.can_complete_task. rewrite forallb_forall. split.
  - intros H key count Hin. apply list_elem_of_In, H in Hin. simpl in Hin.
    destruct (Z.ltb_spec (ContextManager.progress cm key) count); [done|lia].
  - intros H [key count] Hin. apply list_elem_of_In, H in Hin.
    destruct (Z.ltb_spec (ContextManager.progress cm key) count); [lia|done].
Qed.

Lemma can_complete_task_false cm :
  ContextManager.can_complete_task cm = false ↔
  ∃ key count, (key, count) ∈ ContextManager.requirements cm ∧
               (ContextManager.progress cm key < count)%Z.
Proof.
  unfold ContextManager.can_complete_task.
  induction (ContextManager.requirements cm) as [|[key count] l IH]; simpl.
  - split; [done|]. intros (? & ? & H & _). by apply elem_of_nil in H.
  - rewrite andb_false_iff, IH, negb_false_iff, Z.ltb_lt. split.
    + intros [H|(k & n & Hin & H)].
      * exists key, count. split; [left|done].
      * exists k, n. split; [by right|done].
    + intros (k & n & Hin & H). apply elem_of_cons in Hin as [[= -> ->]|Hin].
      * by left.
      * right. eauto.
Qed.

Lemma can_complete_task_counters cm cm' :
  ContextManager.counters cm' = ContextManager.counters cm →
  ContextManager.can_complete_task cm' = ContextManager.can_complete_task cm.
Proof.
  unfold ContextManager.counters, ContextManager.can_complete_task,
    ContextManager.progress.
  intros [= -> ->]. done.
Qed.

Lemma same_page_refl url q :
  AgentState.q_url q = url → AgentState.same_page url q = true.
Proof.
  intros <-. unfold AgentState.same_page. rewrite String.eqb_refl.
  by rewrite orb_true_r.
Qed.

Lemma was_query_asked_hit m query url q :
  q ∈ AgentState.query_dom_history m →
  AgentState.same_page url q = true →
  AgentState._normalize_query query = AgentState._normalize_query (AgentState.q_query q)
  ∨ AgentState._are_queries_similar (AgentState._normalize_query query)
      (AgentState._normalize_query (AgentState.q_query q)) = true →
  AgentState.was_query_asked m query url = true.
Proof.
  intros Hin Hpage Hmatch. unfold AgentState.was_query_asked.
  apply existsb_exists. exists q. split; [by apply list_elem_of_In|].
  cbv zeta. destruct Hmatch as [-> | ->].
  - by rewrite String.eqb_refl.
  - by destruct (_ =? _)%string.
Qed.

Lemma get_query_answer_hit m query url q :
  q ∈ AgentState.query_dom_history m →
  AgentState.same_page url q = true →
  AgentState._normalize_query query = AgentState._normalize_query (AgentState.q_query q)
  ∨ AgentState._are_queries_similar (AgentState._normalize_query query)
      (AgentState._normalize_query (AgentState.q_query q)) = true →
  ∃ q', q' ∈ AgentState.query_dom_history m ∧
        AgentState.same_page url q' = true ∧
        AgentState.get_query_answer m query url = Some (AgentState.q_answer q').
Proof.
  intros Hin Hpage Hmatch. unfold AgentState.get_query_answer. cbv zeta.
  destruct (find _ _) as [q'|] eqn:Hfind.
  - apply find_some in Hfind as [Hin' Hq'].
    exists q'. split; [by apply list_elem_of_In, in_rev|].
    apply andb_true_iff in Hq' as [_ Hq']. done.
  - apply find_none with (x := q) in Hfind.
    + rewrite Hpage, andb_true_r in Hfind.
      destruct Hmatch as [Heq|Hsim].
      * by rewrite Heq, String.eqb_refl in Hfind.
      * by rewrite Hsim, orb_true_r in Hfind.
    + by apply in_rev, list_elem_of_In; rewrite rev_involutive.
Qed.

Section Loop.
Context {token : Type} (encode : string → list token) (decode : list token → string).
Context (str_of_element : Page.element → string).
Context (str_of_location : Page.location_context → string).
Context (str_of_visible_modals : Page.visible_modals_info → string).
Context (int_times_0_7 : Z → Z) (int_scaled : nat → Z → nat → Z).
Context (str_of_history : list TokenOptimizer.history_entry → string).
Context (json_dumps str_of_params : params → string).
Context (ENABLE_SUB_AGENTS : bool) (max_iterations : nat).

Abbreviation act_ :=
  (act token encode decode str_of_element str_of_location str_of_visible_modals
     int_times_0_7 int_scaled str_of_history json_dumps str_of_params ENABLE_SUB_AGENTS).
Abbreviation pass_ :=
  (pass token encode decode str_of_element str_of_location str_of_visible_modals
     int_times_0_7 int_scaled str_of_history json_dumps str_of_params ENABLE_SUB_AGENTS).
Abbreviation loop_ :=
  (loop token encode decode str_of_element str_of_location str_of_visible_modals
     int_times_0_7 int_scaled str_of_history json_dumps str_of_params ENABLE_SUB_AGENTS
     max_iterations).
Abbreviation execute_task_ :=
  (execute_task token encode decode str_of_element str_of_location str_of_visible_modals
     int_times_0_7 int_scaled str_of_history json_dumps str_of_params ENABLE_SUB_AGENTS
     max_iterations).

Lemma trim_history_counters cm c :
  ContextManager.counters
    (ContextManager._trim_history token encode str_of_history cm c).1 =
  ContextManager.counters cm.
Proof.
  unfold ContextManager._trim_history. rewrite run_bind.
  destruct (_ <=? _)%Z; [done|]. rewrite run_bind.
  destruct (_ <=? _)%Z; [done|]. rewrite run_bind.
  destruct (bool_decide _); done.
Qed.

Lemma add_to_history_counters cm action result c :
  ContextManager.counters
    (add_to_history token encode str_of_history cm action result c).1 =
  ContextManager.counters cm.
Proof.
  unfold add_to_history, ContextManager.add_to_history.
  rewrite trim_history_counters. by destruct (_ && _).
Qed.

Lemma track_progress_counters cm (d : decision params) action_name action_params
    action_result :
  ContextManager.counters
    (track_progress cm d action_name action_params action_result) =
  ContextManager.counters cm.
Proof.
  unfold track_progress, ContextManager.update_progress.
  by repeat match goal with |- context [if ?b then _ else _] => destruct b end.
Qed.

Lemma act_spec task ag a current_url action_name action_params c :
  let o := (act_ task ag a current_url action_name action_params c).1 in
  ContextManager.counters (context_manager (agent_after o)) =
    ContextManager.counters (context_manager ag) ∧
  AgentState.state (state_manager (agent_after o)) = AgentState.REFLECTING ∧
  backend_calls (agent_after o) =
    (if security_allowed a then backend_calls ag ++ [(action_name, action_params)]
     else backend_calls ag) ∧
  match o with Return r _ => task_success r = false | Continue _ => True end.
Proof.
  cbv zeta. unfold act.
  destruct (page_diff a current_url action_name)
    as [[page_changed dom_changed] new_elements_info].
  destruct (security_allowed a); rewrite !run_bind;
    (destruct (success _); [|destruct (detect_loop _ _ _)]);
    cbn -[track_progress ContextManager.counters add_to_history record_action];
    rewrite track_progress_counters, add_to_history_counters; done.
Qed.

Lemma observe_state ag a :
  AgentState.state (observe ag a) = AgentState.OBSERVING.
Proof.
  unfold observe, AgentState.add_visited_url.
  repeat match goal with |- context [if ?b then _ else _] => destruct b end; done.
Qed.

Lemma observe_query_dom_history ag a :
  AgentState.query_dom_history (observe ag a) =
  AgentState.query_dom_history (state_manager ag).
Proof.
  unfold observe, AgentState.add_visited_url.
  repeat match goal with |- context [if ?b then _ else _] => destruct b end; done.
Qed.

Lemma pass_spec task ag a c :
  let o := (pass_ task ag a c).1 in
  ContextManager.counters (context_manager (agent_after o)) =
    ContextManager.counters (context_manager ag) ∧
  match o with
  | Continue ag' => AgentState.state (state_manager ag') ≠ AgentState.COMPLETED
  | Return r ag' =>
      task_success r = true ∨ AgentState.state (state_manager ag') = AgentState.COMPLETED →
      ContextManager.can_complete_task (context_manager ag) = true
  end.
Proof.
  cbv zeta. unfold pass. cbn [context_manager]. pose proof (observe_state ag a) as Hobs.
  destruct (detect_loop _ _ _) as [loop_info|].
  { split; [done|]. cbn. intros [|]; congruence. }
  rewrite run_bind.
  destruct (decision_taken a) as [action_name action_params|error].
  2: { split; [done|]. cbn. intros [|]; congruence. }
  destruct (String.eqb action_name "task_complete").
  - destruct (ContextManager.can_complete_task (context_manager ag)) eqn:Hcan; cbn [negb].
    + destruct (completion a) as [completion_check|]; [|by split].
      destruct (is_completed completion_check); cbn [negb]; [by split|].
      rewrite run_bind. cbn. split; [apply add_to_history_counters|done].
    + rewrite run_bind. cbn. split; [apply add_to_history_counters|done].
  - match goal with |- context [act _ _ _ _ _ _ _ _ _ _ _ _ ?t ?g ?a' ?u ?n ?p ?c'] =>
      pose proof (act_spec t g a' u n p c') as H; cbv zeta in H;
      destruct (act _ _ _ _ _ _ _ _ _ _ _ _ t g a' u n p c').1 as [ag'|r ag']
    end; cbn in *; destruct H as (Hcm & Hst & _ & Hr).
    + split; [done|]. congruence.
    + split; [done|]. intros [|]; congruence.
Qed.

Lemma pass_rejects task ag a action_params c :
  decision_taken a = Decided "task_complete" action_params →
  ContextManager.can_complete_task (context_manager ag) = false →
  detect_loop json_dumps str_of_params (observe ag a) = None →
  ∃ ag', (pass_ task ag a c).1 = Continue ag' ∧
         AgentState.state (state_manager ag') = AgentState.DECIDING ∧
         backend_calls ag' = backend_calls ag ∧
         current_iteration ag' = S (current_iteration ag) ∧
         ContextManager.can_complete_task (context_manager ag') = false.
Proof.
  intros Hd Hcan Hloop. unfold pass. cbn [context_manager].
  rewrite Hloop. cbv iota. rewrite run_bind, Hd. cbv iota.
  change ("task_complete" =? "task_complete")%string with true. cbv iota.
  rewrite Hcan. cbn [negb]. rewrite run_bind. eexists. split; [reflexivity|].
  cbn. repeat split.
  rewrite <- Hcan. apply can_complete_task_counters, add_to_history_counters.
Qed.

Lemma loop_spec task script n ag c :
  let x := (loop_ task script n ag c).1 in
  ContextManager.counters (context_manager x.2) =
    ContextManager.counters (context_manager ag) ∧
  (task_success x.1 = true →
   ContextManager.can_complete_task (context_manager ag) = true) ∧
  (AgentState.state (state_manager x.2) = AgentState.COMPLETED →
   AgentState.state (state_manager ag) = AgentState.COMPLETED ∨
   ContextManager.can_complete_task (context_manager ag) = true).
Proof.
  cbv zeta. revert ag c. induction n as [|n IH]; intros ag c; simpl.
  - cbn. split; [done|]. split; [done|]. by left.
  - rewrite run_bind.
    pose proof (pass_spec task ag (script (current_iteration ag)) c) as H.
    cbv zeta in H.
    destruct (pass _ _ _ _ _ _ _ _ _ _ _ _ _ _ _ _).1 as [ag'|r ag']; cbn in H.
    + destruct H as [Hcm Hst].
      match goal with |- context [loop _ _ _ _ _ _ _ _ _ _ _ _ _ _ _ _ _ ?c'] =>
        destruct (IH ag' c') as (IH1 & IH2 & IH3) end.
      rewrite <- (can_complete_task_counters _ _ Hcm).
      split; [congruence|]. split; [done|]. intros Hdone. right.
      by destruct (IH3 Hdone).
    + destruct H as [Hcm H]. cbn. split; [done|]. split; [auto|]. intros; right; auto.
Qed.

Lemma execute_task_spec task script ag c :
  let x := (execute_task_ task script ag c).1 in
  ContextManager.counters (context_manager x.2) =
    (ContextManager._parse_task_requirements task, ∅) ∧
  (task_success x.1 = true ∨
   AgentState.state (state_manager x.2) = AgentState.COMPLETED →
   ContextManager.can_complete_task (context_manager x.2) = true).
Proof.
  cbv zeta. unfold execute_task.
  match goal with |- context [loop _ _ _ _ _ _ _ _ _ _ _ _ _ ?t ?s ?n ?g ?c'] =>
    destruct (loop_spec t s n g c') as (H1 & H2 & H3) end.
  cbn in H1, H2, H3.
  split; [done|]. rewrite (can_complete_task_counters _ _ H1).
  intros [H|H]; [auto|]. destruct (H3 H); [done|auto].
Qed.

(** C3.  A session is never completed while a requirement counter is
    short.  First, can_complete_task is true exactly when every parsed
    requirement has an achieved count that is at least the required one.
    Second, when some counter is below its required count and the
    decision is task_complete, can_complete_task is false and the pass
    (the loop check at its head having found nothing) goes on to the next
    pass: the state is DECIDING, not COMPLETED, no action reaches the
    backend, and the counters are still short.  Third, whenever
    execute_task returns success, or leaves the state COMPLETED, every
    requirement is met. *)
Theorem completion_gated :
  (∀ cm,
     ContextManager.can_complete_task cm = true ↔
     ∀ key count, (key, count) ∈ ContextManager.requirements cm →
                  (count ≤ ContextManager.progress cm key)%Z) ∧
  (∀ task ag a action_params c key count,
     (key, count) ∈ ContextManager.requirements (context_manager ag) →
     (ContextManager.progress (context_manager ag) key < count)%Z →
     decision_taken a = Decided "task_complete" action_params →
     detect_loop json_dumps str_of_params (observe ag a) = None →
     ContextManager.can_complete_task (context_manager ag) = false ∧
     ∃ ag', (pass_ task ag a c).1 = Continue ag' ∧
            AgentState.state (state_manager ag') = AgentState.DECIDING ∧
            backend_calls ag' = backend_calls ag ∧
            current_iteration ag' = S (current_iteration ag) ∧
            ContextManager.can_complete_task (context_manager ag') = false) ∧
  (∀ task script ag c,
     let x := (execute_task_ task script ag c).1 in
     task_success x.1 = true ∨
     AgentState.state (state_manager x.2) = AgentState.COMPLETED →
     ∀ key count, (key, count) ∈ ContextManager.requirements (context_manager x.2) →
                  (count ≤ ContextManager.progress (context_manager x.2) key)%Z).
Proof.
  split; [apply can_complete_task_true|]. split.
  - intros task ag a action_params c key count Hin Hlt Hd Hloop.
    assert (ContextManager.can_complete_task (context_manager ag) = false) as Hcan
      by (apply can_complete_task_false; eauto).
    split; [done|]. by eapply pass_rejects.
  - intros task script ag c x H. apply can_complete_task_true.
    by apply (execute_task_spec task script ag c).
Qed.

(** C4.  The progress on the requirements never advances: the body of
    update_progress is empty and nothing else writes the counters.  For
    the task that asks for 3 applications, whatever the collaborators
    answer at each pass (so also when every action succeeds), the run ends
    with the requirement applications: 3, an achieved count of 0, and
    can_complete_task false; it never returns success and never reaches
    the state COMPLETED. *)
Theorem requirement_never_reached script ag c :
  let x := (execute_task_ "Откликнись на 3 вакансии Python-разработчика" script ag c).1 in
  ContextManager.requirements (context_manager x.2) = [("applications", 3%Z)] ∧
  ContextManager.progress (context_manager x.2) "applications" = 0%Z ∧
  ContextManager.can_complete_task (context_manager x.2) = false ∧
  task_success x.1 = false ∧
  AgentState.state (state_manager x.2) ≠ AgentState.COMPLETED.
Proof.
  intros x.
  destruct (execute_task_spec "Откликнись на 3 вакансии Python-разработчика"
              script ag c) as [Hcm Hdone].
  fold x in Hcm, Hdone.
  assert (ContextManager.requirements (context_manager x.2) = [("applications", 3%Z)]
          ∧ ContextManager.progress_counters (context_manager x.2) = ∅) as [Hreq Hprog].
  { unfold ContextManager.counters in Hcm. injection Hcm as -> ->.
    split; [vm_compute; reflexivity|done]. }
  assert (ContextManager.can_complete_task (context_manager x.2) = false) as Hcan.
  { unfold ContextManager.can_complete_task, ContextManager.progress.
    rewrite Hreq, Hprog. reflexivity. }
  split; [done|]. split; [unfold ContextManager.progress; by rewrite Hprog|].
  split; [done|].
  split.
  - destruct (task_success x.1) eqn:E; [|done]. rewrite Hdone in Hcan; [done|by left].
  - intros E. rewrite Hdone in Hcan; [done|by right].
Qed.






End Loop.

(** Scenario: 3 applications required, 2 achieved, and the decision is
    task_complete. *)
Lemma completion_gated_witness :
  let ag := agent_with [("applications", 3%Z)] {[ "applications" := 2%Z ]} in
  let a := answers_with (Decided "task_complete" ∅) quiet_success in
  ContextManager.can_complete_task (context_manager ag) = false ∧
  ∃ ag', (sample_pass "task" ag a []).1 = Continue ag' ∧
         AgentState.state (state_manager ag') = AgentState.DECIDING ∧
         backend_calls ag' = backend_calls ag ∧
         current_iteration ag' = S (current_iteration ag) ∧
         ContextManager.can_complete_task (context_manager ag') = false.
Proof.
  intros ag a.
  apply (proj1 (proj2 (completion_gated
           ContextManager.sample_encode ContextManager.sample_decode
           ContextManager.sample_str_of_element ContextManager.sample_str_of_location
           ContextManager.sample_str_of_visible_modals
           ContextManager.sample_int_times_0_7 ContextManager.sample_int_scaled
           sample_str_of_history AgentState.sample_dumps AgentState.sample_dumps
           false 50))
         "task" ag a ∅ [] "applications" 3%Z).
  - left.
  - vm_compute. reflexivity.
  - reflexivity.
  - vm_compute. reflexivity.
Defined.



(** A question that holds a folded synonym is not found again, even when
    it is repeated letter for letter: its stored key differs from its
    normal form. *)
Lemma synonym_query_asked_again :
  let q := "Какие элементы видны?" in
  let sm := AgentState.add_query_dom AgentState.new_manager q "кнопки" "https://example.com" in
  AgentState._normalize_query q = "какой элемент виден" ∧
  ActionExecutor._normalize_query_for_comparison q = "какие элементы видны" ∧
  (ActionExecutor.sample_query_dom (Some sm) {[ "query" := q ]}).2 =
    [(q, "Текущая страница: https://example.com")].
Proof. cbv zeta. repeat split; vm_compute; reflexivity. Qed.

(** With 3 applications achieved out of 3 required, the same decision is
    accepted: the pass returns success and the state is COMPLETED.  So is
    the first task_complete of a task that has no quantitative
    requirement. *)
Lemma task_complete_accepted_example :
  let a := answers_with (Decided "task_complete" ∅) quiet_success in
  let after_pass :=
    (sample_pass "task"
       (agent_with [("applications", 3%Z)] {[ "applications" := 3%Z ]}) a []).1 in
  let after_run := (sample_execute_task "Найди поле поиска" (fun _ => a) new_agent []).1 in
  (∃ result ag', after_pass = Return result ag' ∧ task_success result = true ∧
                 AgentState.state (state_manager ag') = AgentState.COMPLETED) ∧
  task_success after_run.1 = true ∧
  AgentState.state (state_manager after_run.2) = AgentState.COMPLETED.
Proof.
  cbv zeta. split.
  - vm_compute. eexists _, _. repeat split; reflexivity.
  - vm_compute. split; reflexivity.
Qed.

(** A run in which every pass decides task_complete: each one is turned
    down, and the run stops at the limit of 50 iterations with the
    status 0 of 3. *)
Lemma requirement_never_reached_example :
  let script := fun _ : nat => answers_with (Decided "task_complete" ∅) quiet_success in
  let x := (sample_execute_task "Откликнись на 3 вакансии Python-разработчика"
              script new_agent []).1 in
  task_success x.1 = false ∧
  task_error x.1 = "Превышен лимит итераций (50)" ∧
  current_iteration x.2 = 50 ∧
  ContextManager.get_requirements_status (context_manager x.2) = "applications: 0/3".
Proof. vm_compute. repeat split; reflexivity. Qed.

End MainAgentSpec.

(* ================================================================== *)
(** * Part II, continued: the functions around the ones above *)
(* ================================================================== *)

(** ** The stable sort and the prefixes of a text *)

Module SortFacts.
Import TokenOptimizer.

Section Insertion.
Context {A K : Type} (key : A → K) (lt : K → K → bool).

Lemma insert_desc_perm x l : insert_desc key lt x l ≡ₚ x :: l.
Proof.
  induction l as [|y l IH]; cbn; [done|].
  destruct (lt (key x) (key y)); [|done].
  rewrite IH. apply Permutation_swap.
Qed.

Lemma sorted_desc_perm l : sorted_desc key lt l ≡ₚ l.
Proof.
  induction l as [|x l IH]; cbn; [done|].
  unfold sorted_desc in *. cbn. by rewrite insert_desc_perm, IH.
Qed.

End Insertion.

Lemma len_take n s : Py.len (Py.take n s) ≤ n.
Proof.
  revert n. induction s as [|a s IH]; intros n; cbn; [lia|].
  destruct (Py.is_continuation a) eqn:E; cbn.
  - rewrite E. cbn. apply IH.
  - destruct n; cbn; [lia|]. rewrite E. specialize (IH n). lia.
Qed.

Lemma take_take n m s : Py.take n (Py.take m s) = Py.take (n `min` m) s.
Proof.
  revert n m. induction s as [|a s IH]; intros n m; cbn; [done|].
  destruct (Py.is_continuation a) eqn:E; cbn.
  - rewrite E. f_equal. apply IH.
  - destruct m; cbn.
    + rewrite Nat.min_0_r. done.
    + rewrite E. destruct n; cbn; [done|]. f_equal. apply IH.
Qed.

End SortFacts.

(** ** The state manager: visited addresses, questions, loop detection *)

Module AgentStateFacts.
Import Data AgentState.

Lemma add_visited_url_urls m url :
  visited_urls (add_visited_url m url) =
  if bool_decide (normalize_url url ∈ visited_urls m) then visited_urls m
  else visited_urls m ++ [normalize_url url].
Proof. unfold add_visited_url. by case_bool_decide. Qed.

(** X1.  After add_visited_url, is_url_visited holds for the address
    and for every address with the same normal form (the query string,
    the fragment and the slashes at the end do not count), and every
    address visited before is still visited. *)
Theorem visited_url_recorded m url url' :
  normalize_url url' = normalize_url url →
  is_url_visited (add_visited_url m url) url' = true ∧
  ∀ u, is_url_visited m u = true → is_url_visited (add_visited_url m url) u = true.
Proof.
  intros Hn. unfold is_url_visited. rewrite add_visited_url_urls, Hn. split.
  - apply bool_decide_eq_true. case_bool_decide; [done|].
    apply elem_of_app. right. by apply list_elem_of_singleton.
  - intros u Hu. apply bool_decide_eq_true in Hu. apply bool_decide_eq_true.
    case_bool_decide; [done|]. apply elem_of_app. by left.
Qed.

Lemma visited_url_recorded_witness :
  is_url_visited (add_visited_url new_manager "https://example.com/jobs/?page=2#list")
    "https://example.com/jobs" = true.
Proof.
  refine (proj1 (visited_url_recorded new_manager
                   "https://example.com/jobs/?page=2#list"
                   "https://example.com/jobs" _)).
  vm_compute. reflexivity.
Defined.

(** X2.  The list of visited addresses never holds an address twice:
    add_visited_url keeps it free of duplicates, and adding an address a
    second time changes nothing. *)
Theorem visited_urls_unique m url :
  NoDup (visited_urls m) →
  NoDup (visited_urls (add_visited_url m url)) ∧
  add_visited_url (add_visited_url m url) url = add_visited_url m url.
Proof.
  intros Hnd. split.
  - rewrite add_visited_url_urls. case_bool_decide; [done|].
    apply NoDup_app. split; [done|]. split.
    + intros x Hx Hx'. apply list_elem_of_singleton in Hx'. by subst.
    + apply NoDup_singleton.
  - unfold add_visited_url at 1.
    rewrite bool_decide_eq_true_2; [done|].
    rewrite add_visited_url_urls. case_bool_decide; [done|].
    apply elem_of_app. right. by apply list_elem_of_singleton.
Qed.

Lemma visited_urls_unique_witness :
  let m := add_visited_url new_manager "https://example.com/" in
  NoDup (visited_urls (add_visited_url m "https://example.com")) ∧
  add_visited_url (add_visited_url m "https://example.com") "https://example.com" =
  add_visited_url m "https://example.com".
Proof.
  intros m. apply (visited_urls_unique m "https://example.com").
  vm_compute. apply NoDup_singleton.
Defined.

Lemma add_query_dom_history m query answer url :
  ∃ older,
    query_dom_history (add_query_dom m query answer url) =
      older ++ [{| q_query := query; q_normalized_query := _normalize_query query;
                   q_answer := answer; q_url := url;
                   q_iteration := iteration_count m |}] ∧
    length older ≤ 19 ∧ older `suffix_of` query_dom_history m.
Proof.
  unfold add_query_dom. cbn [query_dom_history].
  case_bool_decide as Hlen.
  - rewrite length_app in Hlen. cbn in Hlen.
    exists (drop (length (query_dom_history m) - 19) (query_dom_history m)).
    unfold last_n. rewrite length_app. cbn [length].
    replace (length (query_dom_history m) + 1 - 20)
      with (length (query_dom_history m) - 19) by lia.
    rewrite drop_app_le by lia. split; [done|]. split.
    + rewrite length_drop. lia.
    + apply suffix_drop.
  - rewrite length_app in Hlen. cbn in Hlen.
    exists (query_dom_history m). split; [done|]. split; [lia|done].
Qed.

(** X3.  The question history never holds more than 20 records: after
    add_query_dom it has at most 20 entries whatever it held before, and
    its last entry is the question just recorded. *)
Theorem query_history_bounded m query answer url :
  length (query_dom_history (add_query_dom m query answer url)) ≤ 20 ∧
  last (query_dom_history (add_query_dom m query answer url)) =
    Some {| q_query := query; q_normalized_query := _normalize_query query;
            q_answer := answer; q_url := url; q_iteration := iteration_count m |}.
Proof.
  destruct (add_query_dom_history m query answer url) as (older & -> & Hlen & _).
  rewrite length_app, last_snoc. cbn. split; [lia|done].
Qed.

Lemma same_page_own url q : q_url q = url → same_page url q = true.
Proof.
  intros <-. unfold same_page. rewrite String.eqb_refl. by rewrite orb_true_r.
Qed.

(** X4.  A question that was just recorded is found again: for the same
    question and address, was_query_asked holds and get_query_answer
    returns the answer recorded last, also when older records match. *)
Theorem latest_answer_returned m query answer url :
  get_query_answer (add_query_dom m query answer url) query url = Some answer ∧
  was_query_asked (add_query_dom m query answer url) query url = true.
Proof.
  destruct (add_query_dom_history m query answer url) as (older & Hh & _ & _).
  split.
  - unfold get_query_answer. rewrite Hh, rev_app_distr. cbn [rev app find].
    cbn [q_query]. rewrite String.eqb_refl, same_page_own by done.
    done.
  - unfold was_query_asked. rewrite Hh, existsb_app. cbn [existsb].
    cbn [q_query]. rewrite String.eqb_refl, same_page_own by done.
    by rewrite orb_true_r.
Qed.

(** X5.  was_query_asked and get_query_answer agree: a question counts
    as asked exactly when get_query_answer finds an answer for it. *)
Theorem asked_iff_answer m query url :
  was_query_asked m query url = true ↔ is_Some (get_query_answer m query url).
Proof.
  unfold was_query_asked, get_query_answer. cbv zeta.
  rewrite fmap_is_Some.
  set (f := fun q : query_record => if (_ =? _)%string then _ else _).
  set (g := fun q : query_record => (_ || _) && _).
  assert (∀ q, f q = g q) as Hfg.
  { intros q. unfold f, g. destruct (_ =? _)%string; [done|].
    by destruct (_are_queries_similar _ _). }
  rewrite existsb_exists. split.
  - intros (q & Hin & Hq). destruct (find g (rev (query_dom_history m))) eqn:E; [done|].
    apply find_none with (x := q) in E; [|by apply in_rev; rewrite rev_involutive].
    rewrite <- Hfg in E. congruence.
  - intros [q Hq]. apply find_some in Hq as [Hin Hq].
    exists q. split; [by apply in_rev|]. by rewrite Hfg.
Qed.

Lemma list_intersection_length_comm (l k : list string) :
  NoDup l → NoDup k →
  length (list_intersection l k) = length (list_intersection k l).
Proof.
  intros Hl Hk. apply Permutation_length, NoDup_Permutation.
  - by apply NoDup_list_intersection.
  - by apply NoDup_list_intersection.
  - intros x. rewrite !list_elem_of_intersection. tauto.
Qed.

(** X6.  The similarity of two questions does not depend on their
    order. *)
Theorem queries_similar_sym query1 query2 :
  _are_queries_similar query1 query2 = _are_queries_similar query2 query1.
Proof.
  unfold _are_queries_similar. cbv zeta.
  rewrite (orb_comm (bool_decide (length (remove_dups (Py.split query1)) < 3))).
  destruct (_ || _); [done|].
  rewrite (list_intersection_length_comm (remove_dups (Py.split query1)))
    by apply NoDup_remove_dups.
  by rewrite Nat.max_comm.
Qed.

Lemma any_all_true {A} (f : A → bool) (l : list A) :
  Forall (λ a, f a = true) l → l ≠ [] → any (map f l) = true.
Proof.
  intros Hall Hne. destruct l as [|a l]; [done|].
  apply Forall_cons in Hall as [Ha _]. unfold any. cbn. by rewrite Ha.
Qed.

Lemma Forall_List_filter {A} (P : A → Prop) (p : A → bool) (l : list A) :
  Forall P l → Forall P (List.filter p l).
Proof.
  induction 1 as [|x l Hx Hl IH]; cbn; [done|].
  destruct (p x); [by constructor|done].
Qed.

Lemma Forall_last_n {A} (P : A → Prop) n (l : list A) :
  Forall P l → Forall P (last_n n l).
Proof. apply Forall_drop. Qed.

Lemma nonempty_of_length {A} (l : list A) n : S n ≤ length l → l ≠ [].
Proof. destruct l; cbn; [lia|done]. Qed.

Lemma length_last_n {A} n (l : list A) : length (last_n n l) ≤ n.
Proof. unfold last_n. rewrite length_drop. lia. Qed.

Section Serializers.
Context (json_dumps str_of_params : params → string).

Lemma check_pattern_repetition_short (l : list string) :
  length l ≤ 4 → _check_pattern_repetition l = None.
Proof.
  intros Hl. unfold _check_pattern_repetition. case_bool_decide; [|done].
  cbv zeta. replace (length l - 2 * 2) with 0 by lia. done.
Qed.

Lemma consecutive_repeats_pattern recent ct nt sigs n last info :
  consecutive_repeats_loop recent ct nt sigs n last = Some info → pattern info = None.
Proof.
  revert n last. induction sigs as [|[[[sig epc] hne] name] sigs IH]; intros n last; simpl.
  - done.
  - repeat case_bool_decide; repeat (destruct (_ && _)); try (intros [= <-]; done);
      apply IH.
Qed.

Lemma detect_loop_pattern_unset m info :
  detect_loop json_dumps str_of_params m = Some info → pattern info = None.
Proof.
  unfold detect_loop. case_bool_decide; [done|]. cbv zeta.
  destruct (_check_consecutive_repeats _ _ _ _) as [i|] eqn:E1.
  { intros [= <-]. unfold _check_consecutive_repeats in E1.
    case_bool_decide; [done|]. by eapply consecutive_repeats_pattern. }
  destruct (_check_repeating_errors _ _ _) as [i|] eqn:E2.
  { intros [= <-]. unfold _check_repeating_errors in E2.
    destruct (_ && _); [|done]. by injection E2 as <-. }
  destruct (_check_repeating_urls _ _) as [i|] eqn:E3.
  { intros [= <-]. unfold _check_repeating_urls in E3.
    destruct (_ && _); [|done]. by injection E3 as <-. }
  rewrite check_pattern_repetition_short
    by (rewrite length_map; apply length_last_n).
  destruct (check_extract_text _) as [i|] eqn:E5.
  { intros [= <-]. unfold check_extract_text in E5.
    repeat (case_bool_decide; [|done]). destruct (_ && _); [|done].
    by injection E5 as <-. }
  unfold check_query_dom.
  repeat (case_bool_decide; [|done]). destruct (_ && _); [|done].
  by intros [= <-].
Qed.

(** X7.  detect_loop never reports a repetition pattern: it hands
    _check_pattern_repetition the last 4 descriptions, and that check
    looks for a pattern only from 5 descriptions on, so the pattern entry
    of a verdict is never set. *)
Theorem detect_loop_never_reports_pattern m descriptions :
  (length descriptions ≤ 4 → _check_pattern_repetition descriptions = None) ∧
  (detect_loop json_dumps str_of_params m ≫= pattern) = None.
Proof.
  split; [apply check_pattern_repetition_short|].
  destruct (detect_loop json_dumps str_of_params m) as [info|] eqn:E; [|done].
  cbn. by eapply detect_loop_pattern_unset.
Qed.

Lemma consecutive_repeats_changed recent ct nt sigs n last :
  Forall (λ s : string * bool * bool * string, s.1.1.2 = true) sigs →
  consecutive_repeats_loop recent ct nt sigs n last = None.
Proof.
  intros Hall. revert n last.
  induction Hall as [|[[[sig epc] hne] name] sigs Hs _ IH]; intros n last; simpl; [done|].
  cbn in Hs. subst epc. cbn. case_bool_decide; apply IH.
Qed.

(** X8.  detect_loop reports nothing as long as every recorded action
    changed the page (page_changed true, or absent): each of its checks
    asks for repeats without a page change. *)
Theorem detect_loop_quiet_while_page_changes m :
  Forall (λ a, default true (rec_page_changed a) = true) (action_history m) →
  detect_loop json_dumps str_of_params m = None.
Proof.
  intros Hall. unfold detect_loop. case_bool_decide; [done|]. cbv zeta.
  set (recent := last_n (lookback * 2) (action_history m)).
  assert (Forall (λ a, default true (rec_page_changed a) = true) recent) as Hrecent
    by by apply Forall_last_n.
  assert (_check_consecutive_repeats json_dumps (last_n 6 recent) 2 3 = None) as ->.
  { unfold _check_consecutive_repeats. case_bool_decide; [done|].
    apply consecutive_repeats_changed, Forall_map.
    eapply Forall_impl; [by apply Forall_last_n|].
    intros a Ha. cbn. by rewrite Ha. }
  assert (_check_repeating_errors str_of_params (last_n lookback recent) 2 = None) as ->.
  { unfold _check_repeating_errors. cbv zeta. rewrite !length_map.
    case_bool_decide as Hlen; [|done].
    rewrite any_all_true;
      [by rewrite andb_false_r| |by eapply nonempty_of_length].
    by apply Forall_List_filter, Forall_last_n. }
  assert (_check_repeating_urls (last_n lookback recent) 2 = None) as ->.
  { unfold _check_repeating_urls. cbv zeta. rewrite !length_map.
    case_bool_decide as Hlen; [|done].
    rewrite any_all_true;
      [by rewrite andb_false_r| |by eapply nonempty_of_length].
    by apply Forall_List_filter, Forall_last_n. }
  rewrite check_pattern_repetition_short
    by (rewrite length_map; apply length_last_n).
  assert (check_extract_text recent = None) as ->.
  { unfold check_extract_text. case_bool_decide; [|done]. cbv zeta.
    case_bool_decide as Hlen; [|done].
    rewrite any_all_true;
      [by rewrite andb_false_r| |by eapply nonempty_of_length].
    by apply Forall_List_filter, Forall_last_n. }
  unfold check_query_dom. case_bool_decide; [|done]. cbv zeta.
  case_bool_decide as Hlen; [|done]. case_bool_decide; [|done].
  rewrite any_all_true;
    [by rewrite andb_false_r| |by eapply nonempty_of_length].
  by apply Forall_List_filter, Forall_last_n.
Qed.

End Serializers.

(** Five identical clicks, each of which changed the page. *)
Lemma detect_loop_quiet_while_page_changes_witness :
  detect_loop sample_dumps sample_dumps
    (with_history (replicate 5 click_that_changes)) = None.
Proof.
  apply detect_loop_quiet_while_page_changes.
  cbn. repeat constructor.
Defined.

End AgentStateFacts.

(** ** The context manager: history, requirements, extracted information *)

Module ContextManagerFacts.
Import Data Page TokenCache TokenOptimizer ContextManager ContextSpec DictFacts.

Lemma slice_last_snoc {A} k (l : list A) r :
  ∃ l', slice_last k (l ++ [r]) = l' ++ [r].
Proof.
  destruct k as [|k]; cbn; [by eexists|].
  rewrite length_app. cbn [length].
  replace (length l + 1 - S k) with (length l - k) by lia.
  rewrite drop_app_le by lia. by eexists.
Qed.

Lemma slice_last_subseteq {A} k (l : list A) : slice_last k l ⊆ l.
Proof.
  destruct k; cbn; [done|]. apply subseteq_drop.
Qed.

Lemma slice_last_length {A} k (l : list A) : length (slice_last k l) ≤ length l.
Proof. destruct k; cbn; [done|]. rewrite length_drop. lia. Qed.

Lemma List_filter_subseteq {A} (p : A → bool) (l : list A) : List.filter p l ⊆ l.
Proof.
  intros x Hx. apply list_elem_of_In, List.filter_In in Hx as [Hx _].
  by apply list_elem_of_In.
Qed.

Lemma trim_partition (h : list history_entry) :
  length (List.filter (λ r, is_important r || negb (is_less_important r)) h) +
  length (List.filter (λ r, negb (is_important r) && is_less_important r) h) =
  length h.
Proof.
  rewrite <- (List.filter_length (λ r, is_important r || negb (is_less_important r)) h).
  f_equal. f_equal. apply List.filter_ext. intros r.
  by destruct (is_important r), (is_less_important r).
Qed.

Lemma trim_latest (h : list history_entry) r ki kl :
  r ∈ slice_last ki
        (List.filter (λ r, is_important r || negb (is_less_important r)) (h ++ [r])) ++
      slice_last kl
        (List.filter (λ r, negb (is_important r) && is_less_important r) (h ++ [r])).
Proof.
  rewrite !List.filter_app. cbn [List.filter].
  destruct (is_important r || negb (is_less_important r)) eqn:E.
  - destruct (slice_last_snoc ki
                (List.filter (λ r, is_important r || negb (is_less_important r)) h) r)
      as [l' ->].
    apply elem_of_app. left. apply elem_of_app. right. by left.
  - assert (negb (is_important r) && is_less_important r = true) as ->
      by by destruct (is_important r), (is_less_important r).
    destruct (slice_last_snoc kl
                (List.filter (λ r, negb (is_important r) && is_less_important r) h) r)
      as [l' ->].
    apply elem_of_app. right. apply elem_of_app. right. by left.
Qed.

Section Trim.
Context {token : Type} (encode : string → list token).
Context (str_of_history : list history_entry → string).

Abbreviation trim := (_trim_history token encode str_of_history).

Lemma trim_history_spec cm c :
  let h' := history (trim cm c).1 in
  h' ⊆ history cm ∧
  length h' ≤ length (history cm) ∧
  ∀ r, last (history cm) = Some r → r ∈ h'.
Proof.
  cbv zeta. unfold _trim_history. rewrite run_bind.
  destruct (_ <=? _)%Z.
  { cbn. split; [done|]. split; [done|]. apply last_Some_elem_of. }
  rewrite run_bind. cbv zeta.
  set (imp := List.filter _ (history cm)).
  set (less := List.filter _ (history cm)).
  pose proof (trim_partition (history cm)) as Hpart. fold imp less in Hpart.
  pose proof (slice_last_length (length less `min` 5) less) as Htail.
  assert (∀ ki, slice_last ki imp ++ slice_last (length less `min` 5) less
                  ⊆ history cm) as Hsub.
  { intros ki x [Hx|Hx]%elem_of_app.
    - by eapply List_filter_subseteq, slice_last_subseteq.
    - by eapply List_filter_subseteq, slice_last_subseteq. }
  assert (∀ ki, length (slice_last ki imp ++ slice_last (length less `min` 5) less)
                ≤ length (history cm)) as Hlen.
  { intros ki. rewrite length_app. pose proof (slice_last_length ki imp). lia. }
  assert (∀ ki r, last (history cm) = Some r →
                  r ∈ slice_last ki imp ++ slice_last (length less `min` 5) less)
    as Hlast.
  { intros ki r [h Hh]%last_Some. subst imp less. rewrite Hh. apply trim_latest. }
  destruct (_ <=? _)%Z.
  { cbn. split; [apply (Hsub 0)|]. split; [apply (Hlen 0)|]. apply (Hlast 0). }
  rewrite run_bind. destruct (bool_decide _).
  - cbn. split; [apply Hsub|]. split; [apply Hlen|]. apply Hlast.
  - cbn. split; [apply slice_last_subseteq|]. split; [apply slice_last_length|].
    intros r [h ->]%last_Some.
    match goal with |- _ ∈ slice_last ?k _ =>
      destruct (slice_last_snoc k h r) as [l' ->] end.
    apply elem_of_app. right. by left.
Qed.

(** X9.  Trimming the history only drops records: what _trim_history
    keeps is taken from the history it was given, it is never longer, and
    the newest record always survives. *)
Theorem trim_history_keeps_latest cm c :
  let h' := history (_trim_history token encode str_of_history cm c).1 in
  h' ⊆ history cm ∧
  length h' ≤ length (history cm) ∧
  ∀ r, last (history cm) = Some r → r ∈ h'.
Proof. apply trim_history_spec. Qed.

(** X10.  add_to_history never loses the record it was given: after
    the call (trimming included) the new record is in the history, every
    other record was there before, and the history grew by at most one. *)
Theorem add_to_history_keeps_record cm action result c :
  let cm' := (add_to_history token encode str_of_history cm action result c).1 in
  let record := {| h_action := action; h_result := result;
                   h_success := success result |} in
  record ∈ history cm' ∧
  (∀ r, r ∈ history cm' → r = record ∨ r ∈ history cm) ∧
  length (history cm') ≤ S (length (history cm)).
Proof.
  cbv zeta. unfold add_to_history.
  match goal with |- context [_trim_history _ _ _ ?cm1 c] =>
    destruct (trim_history_spec cm1 c) as (Hsub & Hlen & Hlast);
    assert (history cm1 = history cm ++ [{| h_action := action; h_result := result;
                                            h_success := success result |}]) as Hh
      by (by destruct (_ && _))
  end.
  rewrite Hh in *. split; [apply Hlast, last_snoc|]. split.
  - intros r Hr. apply Hsub, elem_of_app in Hr as [Hr|Hr]; [by right|].
    left. by apply list_elem_of_singleton in Hr.
  - rewrite length_app in Hlen. cbn in Hlen. lia.
Qed.

End Trim.

Lemma join_truthy sep p ps : Py.truthy p = true → Py.truthy (Py.join sep (p :: ps)) = true.
Proof.
  destruct p as [|a p]; [done|]. intros _. destruct ps; [done|].
  cbn [Py.join]. by rewrite PyFacts.app_cons.
Qed.

(** X11.  get_pending_requirements_message and can_complete_task
    agree: the message is non-empty exactly when some requirement is
    still unmet, that is when can_complete_task is false. *)
Theorem pending_message_iff_blocked cm :
  Py.truthy (get_pending_requirements_message cm) = negb (can_complete_task cm).
Proof.
  unfold get_pending_requirements_message, can_complete_task. cbv zeta.
  induction (requirements cm) as [|[key count] l IH]; [done|].
  cbn [omap forallb list_omap].
  destruct (progress cm key <? count)%Z; cbn [negb andb].
  - apply join_truthy. by rewrite PyFacts.app_cons.
  - apply IH.
Qed.

Lemma int_of_digits_nonneg digits : (0 ≤ int_of_digits digits)%Z.
Proof.
  unfold int_of_digits.
  assert (∀ l n, (0 ≤ n)%Z →
            (0 ≤ fold_left (λ n c, 10 * n + Z.of_N (Py.byte_of c - 48)) l n)%Z) as H.
  { induction l as [|c l IH]; intros n Hn; cbn; [done|]. apply IH. lia. }
  by apply H.
Qed.

Lemma match_requirement_nonneg s count run rest :
  match_requirement s = Some (count, run, rest) → (0 ≤ count)%Z.
Proof.
  unfold match_requirement.
  destruct (Py.span is_digit s) as [digits s1].
  destruct (Py.span Ascii.is_space s1) as [blanks s2].
  destruct digits; [done|]. destruct blanks; [done|].
  destruct (Py.span _ s2). intros [= <- _ _]. apply int_of_digits_nonneg.
Qed.

Lemma parse_requirements_nonneg fuel s best count :
  (∀ b, best = Some b → (0 ≤ b)%Z) →
  parse_requirements_from fuel s best = Some count → (0 ≤ count)%Z.
Proof.
  revert s best. induction fuel as [|fuel IH]; intros s best Hbest; cbn.
  - apply Hbest.
  - destruct s as [|a s]; [apply Hbest|].
    destruct (match_requirement (String a s)) as [[[n run] rest]|] eqn:E.
    + apply IH. apply match_requirement_nonneg in E.
      match goal with |- context [if ?t then _ else _] => destruct t end; [|done].
      intros b [= <-].
      destruct best as [b|]; cbn; [specialize (Hbest b eq_refl)|]; lia.
    + by apply IH.
Qed.

(** X12.  _parse_task_requirements yields at most one requirement,
    always under the key applications and with a count that is not
    negative, whatever the task text. *)
Theorem parsed_requirements_shape task :
  length (_parse_task_requirements task) ≤ 1 ∧
  ∀ key count, (key, count) ∈ _parse_task_requirements task →
               key = "applications" ∧ (0 ≤ count)%Z.
Proof.
  unfold _parse_task_requirements.
  destruct (parse_requirements_from _ _ _) as [n|] eqn:E.
  - split; [done|]. intros key count [= -> ->]%list_elem_of_singleton.
    split; [done|]. by eapply parse_requirements_nonneg in E.
  - split; [cbn; lia|]. by intros key count ?%elem_of_nil.
Qed.


(** X13.  add_extracted_info stores the text under its description:
    looking the description up afterwards gives the text, the other
    descriptions keep their text, no description appears twice, and the
    store grows by at most one entry. *)
Theorem extracted_info_round_trip cm description text :
  let cm' := add_extracted_info cm description text in
  ErrorHandler.dict_get (extracted_info cm') description = Some text ∧
  (∀ d, d ≠ description →
        ErrorHandler.dict_get (extracted_info cm') d =
        ErrorHandler.dict_get (extracted_info cm) d) ∧
  (NoDup (map fst (extracted_info cm)) → NoDup (map fst (extracted_info cm'))) ∧
  length (extracted_info cm') ≤ S (length (extracted_info cm)).
Proof.
  cbv zeta. cbn [add_extracted_info extracted_info].
  split; [apply dict_get_dict_set|]. split; [intros; by apply dict_get_dict_set_ne|].
  split.
  - intros Hnd. rewrite dict_set_keys. case_bool_decide; [done|].
    apply NoDup_app. split; [done|]. split; [|apply NoDup_singleton].
    by intros x Hx ->%list_elem_of_singleton.
  - rewrite <- (length_map fst (dict_set _ _ _)), dict_set_keys.
    case_bool_decide; rewrite ?length_app, length_map; cbn; lia.
Qed.


Lemma string_app_nil_r s : s +:+ "" = s.
Proof. induction s as [|a s IH]; [done|]. by rewrite PyFacts.app_cons, IH. Qed.

Lemma format_context_header o h url title :
  o_url o = url → o_title o = title →
  ∃ rest, format_context o h =
          ("Текущая страница: " +:+ url) +:+ nl +:+ ("Заголовок: " +:+ title) +:+ rest.
Proof.
  intros <- <-. unfold format_context. cbv zeta. cbn [app].
  match goal with |- context [Py.join _ (_ :: _ :: ?ps)] => generalize ps end.
  intros [|p ps]; cbn [Py.join].
  - exists "". by rewrite string_app_nil_r.
  - by eexists.
Qed.

Section Prepare.
Context {token : Type} (encode : string → list token) (decode : list token → string).
Context (str_of_element : element → string).
Context (str_of_location : location_context → string).
Context (str_of_visible_modals : visible_modals_info → string).
Context (int_times_0_7 : Z → Z) (int_scaled : nat → Z → nat → Z).

(** X14.  Whatever the budget and whichever of its three levels of
    compression is used, the text prepare_context returns starts with the
    line of the page address followed by the line of the page title. *)
Theorem context_names_the_page cm page_info max_tokens c :
  ∃ rest,
    (ContextManager.prepare_context token encode decode str_of_element str_of_location
       str_of_visible_modals int_times_0_7 int_scaled cm page_info max_tokens c).1 =
    ("Текущая страница: " +:+ url page_info) +:+ nl +:+
    ("Заголовок: " +:+ title page_info) +:+ rest.
Proof.
  unfold ContextManager.prepare_context. cbv zeta.
  match goal with |- context [ContextManager.assemble_page _ _ _ _ _ _ _ _ _ ?mt] =>
    generalize mt end.
  intros mt. rewrite run_bind.
  destruct (assemble_page_header encode decode str_of_element str_of_location
              str_of_visible_modals int_times_0_7 cm page_info mt c) as [Hurl Htitle].
  set (o := (ContextManager.assemble_page _ _ _ _ _ _ _ _ _ _ c).1) in *.
  rewrite run_bind.
  destruct (_ <? _)%Z; [|by apply format_context_header].
  rewrite run_bind.
  destruct (_ <? _)%Z; unfold mret, M_ret, ret; cbn [fst];
    apply format_context_header; cbn; by destruct (_ <? _)%Z.
Qed.

End Prepare.

End ContextManagerFacts.

(** ** The token optimiser and the element extractor *)

Module OptimizerFacts.
Import Data Page TokenCache TokenOptimizer ContextSpec SortFacts.

Section Cache.
Context {token : Type} (encode : string → list token).

(** X15.  The token cache never grows past 1000 entries.  A text longer
    than 500 characters is counted without touching the cache; a text of
    at most 500 characters found in the cache is answered from it; and on
    a cache whose entries are right the count is the tokenizer's. *)
Theorem token_cache_bounded text (c : cache) :
  length c ≤ 1000 →
  let r := count_tokens token encode text c in
  length r.2 ≤ 1000 ∧
  (500 < Py.len text → r.2 = c ∧ r.1 = length (encode text)) ∧
  (∀ n, Py.len text ≤ 500 → ErrorHandler.dict_get c text = Some n →
        r.1 = n ∧ r.2 = c) ∧
  (consistent encode c → r.1 = length (encode text) ∧ consistent encode r.2).
Proof.
  intros Hlen. cbv zeta. split; [|split; [|split]].
  - unfold count_tokens. case_bool_decide; [|done].
    destruct (ErrorHandler.dict_get c text); [done|]. cbn.
    unfold ErrorHandler.evict_oldest. rewrite length_app. cbn [length].
    destruct (Nat.ltb_spec 1000 (length c + 1)); [|rewrite length_app; cbn; lia].
    destruct c as [|e c]; cbn [app tail length] in *; [lia|].
    rewrite length_app. cbn [length]. lia.
  - intros Hlong. unfold count_tokens. rewrite bool_decide_eq_false_2 by lia. done.
  - intros n Hshort Hget. unfold count_tokens.
    rewrite bool_decide_eq_true_2 by done. by rewrite Hget.
  - apply returns_count_tokens.
Qed.

End Cache.

Lemma token_cache_bounded_witness :
  let r := count_tokens string ContextManager.sample_encode "Example Domain" [] in
  length r.2 ≤ 1000 ∧
  (500 < Py.len "Example Domain" →
   r.2 = [] ∧ r.1 = length (ContextManager.sample_encode "Example Domain")) ∧
  (∀ n, Py.len "Example Domain" ≤ 500 →
        ErrorHandler.dict_get [] "Example Domain" = Some n → r.1 = n ∧ r.2 = []) ∧
  (consistent ContextManager.sample_encode [] →
   r.1 = length (ContextManager.sample_encode "Example Domain") ∧
   consistent ContextManager.sample_encode r.2).
Proof.
  apply (token_cache_bounded ContextManager.sample_encode "Example Domain" []).
  cbn. lia.
Defined.


Lemma compact_compact_of task_type remaining e :
  compact_of e (compact task_type remaining e).
Proof.
  unfold compact_of, compact. cbn.
  repeat split; eauto; by destruct (_ <? _)%Z; eauto.
Qed.

Lemma shortened_compact_of task_type remaining e :
  compact_of e (shortened remaining (compact task_type remaining e)).
Proof.
  unfold compact_of, shortened, compact. cbn.
  repeat split; eauto.
  - rewrite take_take. eauto.
  - destruct (_ && _); eauto. destruct (_ <? _)%Z; eauto.
  - destruct (_ && _); eauto. destruct (_ <? _)%Z; eauto.
Qed.


Lemma three_way_partition (l : list element) :
  List.filter el_in_modal l ++
  List.filter (λ e, el_in_form e && negb (el_in_modal e)) l ++
  List.filter (λ e, negb (el_in_modal e) && negb (el_in_form e)) l ≡ₚ l.
Proof.
  induction l as [|e l IH]; cbn; [done|].
  destruct (el_in_modal e), (el_in_form e); cbn.
  - by rewrite IH.
  - by rewrite IH.
  - etrans; [symmetry; apply Permutation_middle|]. by rewrite IH.
  - rewrite (assoc_L (++)).
    etrans; [symmetry; apply Permutation_middle|].
    by rewrite <- (assoc_L (++)), IH.
Qed.

Section Optimizer.
Context {token : Type} (encode : string → list token).
Context (str_of_element : element → string).

Abbreviation step := (optimize_step token encode str_of_element).

Lemma optimize_step_spec max_tokens task_type optimized current e c :
  let r := (step max_tokens task_type (optimized, current) e c).1 in
  (r.1 = optimized ∧ always_kept e = false) ∨
  (∃ e', r.1 = optimized ++ [e'] ∧ compact_of e e').
Proof.
  cbv zeta. unfold optimize_step. rewrite run_bind.
  destruct (_ <=? _)%Z.
  { right. eexists. split; [reflexivity|]. apply compact_compact_of. }
  unfold always_kept.
  destruct (high_priority e) eqn:Hhp.
  2: { left. split; [done|]. unfold high_priority in Hhp.
       destruct (el_in_modal e); [done|]. done. }
  rewrite run_bind.
  destruct (_ <=? _)%Z.
  { right. eexists. split; [reflexivity|]. apply shortened_compact_of. }
  destruct (el_in_modal e).
  { right. eexists. split; [reflexivity|]. apply shortened_compact_of. }
  destruct (5 <=? default 0 (el_relevance_score e))%Z.
  - right. destruct (el_in_form e); eexists; (split; [reflexivity|]);
      apply shortened_compact_of.
  - left. rewrite andb_false_r. done.
Qed.

Lemma foldM_optimize_spec max_tokens task_type l optimized current c :
  let r := (foldM (step max_tokens task_type) l (optimized, current) c).1 in
  ∃ added, r.1 = optimized ++ added ∧
    length added ≤ length l ∧
    (∀ e', e' ∈ added → ∃ e, e ∈ l ∧ compact_of e e') ∧
    (∀ e, e ∈ l → always_kept e = true → ∃ e', e' ∈ added ∧ compact_of e e').
Proof.
  cbv zeta. revert optimized current c.
  induction l as [|x l IH]; intros optimized current c; cbn [foldM].
  - exists []. rewrite app_nil_r. split; [done|]. split; [done|].
    split; intros ? ?%elem_of_nil; done.
  - change (foldM ?f l) with (foldM f l).
    unfold mbind, M_bind. unfold bind at 1.
    pose proof (optimize_step_spec max_tokens task_type optimized current x c) as Hstep.
    cbv zeta in Hstep.
    destruct (step max_tokens task_type (optimized, current) x c) as [[opt1 cur1] c1].
    cbn [fst snd] in Hstep.
    destruct (IH opt1 cur1 c1) as (added & -> & Hlen & Hfrom & Hkept).
    destruct Hstep as [[-> Hdrop]|(e' & -> & He')].
    + exists added. split; [done|]. split; [cbn; lia|]. split.
      * intros e1 (e & He & Hc)%Hfrom. exists e. split; [by right|done].
      * intros e [->|He]%elem_of_cons Hk; [congruence|]. by apply Hkept.
    + exists (e' :: added). rewrite <- (assoc_L (++)). split; [done|].
      split; [cbn; lia|]. split.
      * intros e1 [->|He1]%elem_of_cons.
        -- exists x. split; [by left|done].
        -- destruct (Hfrom _ He1) as (e & He & Hc). exists e. split; [by right|done].
      * intros e [->|He]%elem_of_cons Hk.
        -- exists e'. split; [by left|done].
        -- destruct (Hkept _ He Hk) as (e1 & He1 & Hc). exists e1.
           split; [by right|done].
Qed.

Abbreviation optimize := (_optimize_elements token encode str_of_element).

(** X16.  _optimize_elements invents nothing: it returns at most as
    many elements as it was given, and each one is the compact form of an
    element of the page (same type, selector, flags, id and score, the
    text a prefix of the original, href, input type and placeholder kept
    or left out). *)
Theorem optimized_elements_from_page elements max_tokens task_type c :
  let r := (optimize elements max_tokens task_type c).1 in
  length r ≤ length elements ∧
  ∀ e', e' ∈ r → ∃ e, e ∈ elements ∧ compact_of e e'.
Proof.
  cbv zeta. unfold _optimize_elements.
  destruct elements as [|e0 elements]; [split; [done|]; by intros ? ?%elem_of_nil|].
  set (l := e0 :: elements).
  rewrite run_bind.
  match goal with |- context [foldM ?f ?s ([], 0%Z) c] =>
    destruct (foldM_optimize_spec max_tokens task_type s [] 0%Z c)
      as (added & Hr & Hlen & Hfrom & _);
    assert (s ≡ₚ l) as Hperm
      by (rewrite !sorted_desc_perm; apply three_way_partition);
    destruct (foldM f s ([], 0%Z) c) as [[optimized cur] c']
  end.
  cbn in Hr |- *. subst optimized. rewrite Hperm in Hlen. split; [done|].
  intros e' (e & He & Hc)%Hfrom. exists e. split; [by rewrite <- Hperm|done].
Qed.

(** X17.  However small the budget, _optimize_elements keeps every
    element of a modal window and every high-priority element whose
    relevance score is at least 5. *)
Theorem critical_elements_never_dropped elements max_tokens task_type c e :
  e ∈ elements →
  always_kept e = true →
  ∃ e', e' ∈ (optimize elements max_tokens task_type c).1 ∧ compact_of e e'.
Proof.
  intros He Hk. unfold _optimize_elements.
  destruct elements as [|e0 elements]; [by apply elem_of_nil in He|].
  set (l := e0 :: elements) in *.
  rewrite run_bind.
  match goal with |- context [foldM ?f ?s ([], 0%Z) c] =>
    destruct (foldM_optimize_spec max_tokens task_type s [] 0%Z c)
      as (added & Hr & _ & _ & Hkept);
    assert (s ≡ₚ l) as Hperm
      by (rewrite !sorted_desc_perm; apply three_way_partition);
    destruct (foldM f s ([], 0%Z) c) as [[optimized cur] c']
  end.
  cbn in Hr |- *. subst optimized. apply Hkept; [by rewrite Hperm|done].
Qed.

End Optimizer.

(** A button of a modal window, and no budget at all. *)
Lemma critical_elements_never_dropped_witness :
  ∃ e', e' ∈ (_optimize_elements string ContextManager.sample_encode
                ContextManager.sample_str_of_element [modal_button] 0%Z None []).1 ∧
        compact_of modal_button e'.
Proof.
  apply (critical_elements_never_dropped ContextManager.sample_encode
           ContextManager.sample_str_of_element [modal_button] 0%Z None []
           modal_button); [by left|reflexivity].
Defined.

End OptimizerFacts.

Module ExtractorFacts.
Import Data Page TokenOptimizer ContextExtractor SortFacts.

Lemma foldl_nondecreasing {A} (f : Z → A → Z) (l : list A) (z : Z) :
  (∀ z a, (z ≤ f z a)%Z) → (z ≤ foldl f z l)%Z.
Proof.
  intros Hf. revert z. induction l as [|a l IH]; intros z; cbn; [lia|].
  etrans; [apply (Hf z a)|apply IH].
Qed.

Lemma relevance_score_positive e keywords task_type :
  (1 ≤ _calculate_relevance_score e keywords task_type)%Z.
Proof.
  unfold _calculate_relevance_score. cbv zeta.
  set (base := foldl _ 0%Z keywords).
  assert (0 ≤ base)%Z as Hbase.
  { apply foldl_nondecreasing. intros z kw.
    repeat match goal with |- context [if ?b then _ else _] => destruct b end; lia. }
  set (typed := match task_type with Some _ => _ | None => _ end).
  assert (0 ≤ typed)%Z as Htyped.
  { unfold typed. destruct task_type; [|done].
    etrans; [exact Hbase|]. apply foldl_nondecreasing. intros z kw.
    destruct (Py.contains _ _); lia. }
  destruct (Py.truthy (el_id e)); lia.
Qed.

Lemma descending_cons x l :
  descending (x :: l) = true ↔
  (∀ y, head l = Some y → (y ≤ x)%Z) ∧ descending l = true.
Proof.
  destruct l as [|y l]; cbn [descending head].
  - split; [|done]. intros _. split; [by intros ? [=]|done].
  - rewrite andb_true_iff, Z.leb_le. split.
    + intros [Hy Hl]. split; [by intros ? [= <-]|done].
    + intros [Hy Hl]. split; [by apply Hy|done].
Qed.

Lemma head_insert_desc (x : element) l h :
  head (map score_of (insert_desc score_of Z.ltb x l)) = Some h →
  h = score_of x ∨ head (map score_of l) = Some h.
Proof.
  destruct l as [|y l]; cbn [insert_desc].
  - intros [= <-]. by left.
  - destruct (_ <? _)%Z; cbn; intros [= <-]; [by right|by left].
Qed.

Lemma insert_desc_descending (x : element) l :
  descending (map score_of l) = true →
  descending (map score_of (insert_desc score_of Z.ltb x l)) = true.
Proof.
  induction l as [|y l IH]; [done|]. cbn [insert_desc map].
  intros [Hhead Hl]%descending_cons.
  destruct (Z.ltb_spec (score_of x) (score_of y)) as [Hlt|Hge]; cbn [map].
  - apply descending_cons. split; [|by apply IH].
    intros h [->|Hh]%head_insert_desc; [lia|by apply Hhead].
  - apply descending_cons. split.
    + cbn. intros ? [= <-]. lia.
    + apply descending_cons. done.
Qed.

Lemma sorted_desc_descending (l : list element) :
  descending (map score_of (sorted_desc score_of Z.ltb l)) = true.
Proof.
  induction l as [|x l IH]; [done|]. by apply insert_desc_descending.
Qed.


Lemma omap_all_scored (l : list element) keywords task_type :
  omap (λ element,
          if (0 <? _calculate_relevance_score element keywords task_type)%Z
          then Some (with_score (_calculate_relevance_score element keywords task_type)
                       element)
          else None) l =
  map (λ e, with_score (_calculate_relevance_score e keywords task_type) e) l.
Proof.
  induction l as [|e l IH]; [done|]. cbn [omap list_omap map].
  pose proof (relevance_score_positive e keywords task_type).
  destruct (Z.ltb_spec 0 (_calculate_relevance_score e keywords task_type)); [|lia].
  by rewrite IH.
Qed.

Lemma nothing_left_unscored (l : list element) (selectors : list string) p :
  (∀ e, e ∈ l → el_selector e ∈ selectors) →
  List.filter (λ elem, negb (bool_decide (el_selector elem ∈ selectors)))
    (List.filter (λ element,
                    negb (bool_decide (el_selector element ∈ selectors)) && p element)
       l) = [].
Proof.
  intros Hsel. induction l as [|e l IH]; [done|]. cbn [List.filter].
  rewrite bool_decide_eq_true_2 by (apply Hsel; by left). cbn.
  apply IH. intros e' He'. apply Hsel. by right.
Qed.

(** X18.  On the compact elements prepare_context passes to it,
    extract_relevant_elements drops nothing: the result is a
    rearrangement of the input with a relevance score attached to every
    element, every score is at least 1, and the scores are in descending
    order. *)
Theorem every_element_scored elements task_description :
  let scored e :=
    with_score (_calculate_relevance_score e (_extract_keywords task_description)
                  (_detect_task_type task_description)) e in
  let r := extract_relevant_elements elements task_description in
  r ≡ₚ map scored elements ∧
  Forall (λ e, (1 ≤ score_of e)%Z) r ∧
  descending (map score_of r) = true.
Proof.
  cbv zeta. unfold extract_relevant_elements.
  destruct elements as [|e0 elements]; [done|].
  set (l := e0 :: elements). cbv beta iota zeta.
  rewrite omap_all_scored.
  set (scored := λ e, with_score (_calculate_relevance_score e _ _) e).
  set (sorted := sorted_desc _ Z.ltb (map scored l)).
  assert (sorted ≡ₚ map scored l) as Hperm by apply sorted_desc_perm.
  rewrite nothing_left_unscored.
  2: { intros e He. rewrite Hperm, map_map.
       apply list_elem_of_fmap. by exists e. }
  cbn [map]. rewrite app_nil_r. split; [done|]. split.
  - rewrite Hperm. apply Forall_map, Forall_forall. intros e _. cbn.
    apply relevance_score_positive.
  - apply sorted_desc_descending.
Qed.


End ExtractorFacts.

(** ** The error handler *)

Module ErrorHandlerFacts.
Import ErrorHandler DictFacts.

Lemma extract_strategy_range suggestion :
  _extract_strategy_from_suggestion suggestion ∈ STRATEGIES.
Proof.
  unfold _extract_strategy_from_suggestion, STRATEGIES. cbv zeta.
  repeat match goal with |- context [if ?b then _ else _] => destruct b end;
    set_solver.
Qed.

Lemma heuristic_strategy_range error_message action a :
  _heuristic_error_handling error_message action = Some a →
  strategy a ∈ STRATEGIES ∧ Py.truthy (suggestion a) = true.
Proof.
  unfold _heuristic_error_handling, STRATEGIES. cbv zeta.
  repeat match goal with |- context [if ?b then _ else _] => destruct b end;
    intros [= <-]; (split; [set_solver|done]).
Qed.

Lemma pattern_strategy_range error_message solution pstrategy :
  ErrorPatterns.get_solution error_message = Some (solution, pstrategy) →
  pstrategy ∈ STRATEGIES.
Proof.
  unfold ErrorPatterns.get_solution, ErrorPatterns.match_error.
  destruct (find _ _) as [p|] eqn:E; [|done]. intros [= <- <-].
  apply find_some in E as [Hin _].
  assert (Forall (λ p, ErrorPatterns.pstrategy p ∈ STRATEGIES) ErrorPatterns.PATTERNS)
    as Hall.
  { unfold ErrorPatterns.PATTERNS, STRATEGIES. repeat constructor; cbn; set_solver. }
  rewrite Forall_forall in Hall. by apply Hall, list_elem_of_In.
Qed.

Section Oracle.
Context (digest : key_data → string) (analyze_error : string → string → string → string).

Abbreviation handle := (handle_error digest analyze_error).

(** X19.  A retry is granted for the first two failures only:
    should_retry on the result of handle_error is true exactly when the
    retry count passed in is below 2, because handle_error returns the
    count plus one and should_retry compares that with the limit of 3. *)
Theorem retries_granted h error action context retry_count :
  should_retry (handle h error action context retry_count).1 =
  bool_decide (retry_count < 2)%Z.
Proof.
  unfold handle_error. cbv zeta.
  destruct (Z.leb_spec max_retries retry_count) as [Hge|Hlt]; unfold max_retries in *.
  - cbn. symmetry. apply bool_decide_eq_false. lia.
  - destruct (_heuristic_error_handling _ _); [|destruct (ErrorPatterns.get_solution _);
      [destruct p|destruct (dict_get _ _)]];
      cbn; unfold should_retry, max_retries; cbn;
      (destruct (Z.ltb_spec retry_count 3); [|lia]);
      cbn; case_bool_decide; destruct (Z.ltb_spec (retry_count + 1) 3); lia || done.
Qed.

(** X20.  Below the retry limit, handling the same error a second time
    (same message, action and context) gives the same suggestion and
    strategy without a new analysis request and leaves the solution cache
    as it is; the first call sends at most one analysis request. *)
Theorem oracle_asked_once h error action context retry_count retry_count' :
  (retry_count < 3)%Z → (retry_count' < 3)%Z →
  let first := handle_error digest analyze_error h error action context retry_count in
  let second :=
    handle_error digest analyze_error first.2 error action context retry_count' in
  r_suggestion second.1 = r_suggestion first.1 ∧
  r_strategy second.1 = r_strategy first.1 ∧
  analysis_requests second.2 = analysis_requests first.2 ∧
  _error_solution_cache second.2 = _error_solution_cache first.2 ∧
  length (analysis_requests first.2) ≤ S (length (analysis_requests h)).
Proof.
  intros Hn Hn'. cbv zeta. unfold handle_error. cbv zeta.
  rewrite !(proj2 (Z.leb_gt _ _)) by (unfold max_retries; lia).
  destruct (_heuristic_error_handling error action) as [a|]; [cbn; repeat split; lia|].
  destruct (ErrorPatterns.get_solution error) as [[s p]|]; [cbn; repeat split; lia|].
  cbn [error_history _error_solution_cache analysis_requests].
  destruct (dict_get (_error_solution_cache h) _) as [cached|] eqn:Hget.
  - cbn. rewrite Hget. cbn. repeat split; lia.
  - cbn. rewrite dict_get_evict_snoc by (done || lia). cbn.
    rewrite length_app. cbn. repeat split; lia.
Qed.

(** X21.  Below the retry limit handle_error always names a strategy,
    and it is one of the eight known ones; get_retry_strategy returns
    that same strategy, and the solution cache keeps holding known
    strategies only. *)
Theorem handle_error_strategy_range h error action context retry_count :
  Forall (λ entry, strategy entry.2 ∈ STRATEGIES) (_error_solution_cache h) →
  (retry_count < 3)%Z →
  let r := handle h error action context retry_count in
  (∃ s, r_strategy r.1 = Some s ∧ s ∈ STRATEGIES ∧ get_retry_strategy r.1 = s) ∧
  Forall (λ entry, strategy entry.2 ∈ STRATEGIES) (_error_solution_cache r.2).
Proof.
  intros Hcache Hn. cbv zeta. unfold handle_error. cbv zeta.
  rewrite (proj2 (Z.leb_gt _ _)) by (unfold max_retries; lia).
  assert (∀ s, s ∈ STRATEGIES → Py.truthy s = true) as Htruthy.
  { intros s Hs. unfold STRATEGIES in Hs.
    repeat (apply elem_of_cons in Hs as [->|Hs]; [done|]). by apply elem_of_nil in Hs. }
  destruct (_heuristic_error_handling error action) as [a|] eqn:Hh.
  { apply heuristic_strategy_range in Hh as [Hs _]. cbn. split; [|done].
    eexists. split; [done|]. split; [done|].
    unfold get_retry_strategy. cbn. by rewrite Htruthy. }
  destruct (ErrorPatterns.get_solution error) as [[s p]|] eqn:Hp.
  { apply pattern_strategy_range in Hp. cbn. split; [|done].
    eexists. split; [done|]. split; [done|].
    unfold get_retry_strategy. cbn. by rewrite Htruthy. }
  cbn [error_history _error_solution_cache analysis_requests].
  destruct (dict_get (_error_solution_cache h) _) as [cached|] eqn:Hget.
  - assert (strategy cached ∈ STRATEGIES) as Hs.
    { clear -Hcache Hget. revert Hget.
      induction Hcache as [|[k v] d Hv Hd IH]; cbn; [done|].
      destruct (String.eqb k _); [by intros [= <-]|done]. }
    cbn. split; [|done]. eexists. split; [done|]. split; [done|].
    unfold get_retry_strategy. cbn. by rewrite Htruthy.
  - pose proof (extract_strategy_range (analyze_error error action context)) as Hs.
    cbn. split.
    + eexists. split; [done|]. split; [done|].
      unfold get_retry_strategy. cbn. by rewrite Htruthy.
    + apply Forall_evict_oldest, Forall_app. split; [done|]. by constructor.
Qed.

(** X22.  At the retry limit (3 or more) handle_error gives up: the
    result carries no strategy and no should_retry entry, no analysis is
    requested and the cache is untouched, the error is still appended to
    the error history, and get_retry_strategy falls back to wait. *)
Theorem retry_limit_gives_up h error action context retry_count :
  (3 ≤ retry_count)%Z →
  let r := handle h error action context retry_count in
  r_strategy r.1 = None ∧ r_should_retry r.1 = None ∧
  get_retry_strategy r.1 = "wait" ∧
  analysis_requests r.2 = analysis_requests h ∧
  _error_solution_cache r.2 = _error_solution_cache h ∧
  length (error_history r.2) = S (length (error_history h)).
Proof.
  intros Hn. cbv zeta. unfold handle_error. cbv zeta.
  rewrite (proj2 (Z.leb_le _ _)) by (unfold max_retries; lia).
  cbn [fst snd r_strategy r_should_retry analysis_requests _error_solution_cache
       error_history].
  split; [done|]. split; [done|]. split; [vm_compute; reflexivity|].
  split; [done|]. split; [done|]. rewrite length_app. cbn. lia.
Qed.

End Oracle.

Lemma oracle_asked_once_witness :
  let first := handle_error sample_digest sample_analyze new_handler
                 "Something unexpected" "click_element" "page" 0%Z in
  let second := handle_error sample_digest sample_analyze first.2
                  "Something unexpected" "click_element" "page" 1%Z in
  r_suggestion second.1 = r_suggestion first.1 ∧
  r_strategy second.1 = r_strategy first.1 ∧
  analysis_requests second.2 = analysis_requests first.2 ∧
  _error_solution_cache second.2 = _error_solution_cache first.2 ∧
  length (analysis_requests first.2) ≤ S (length (analysis_requests new_handler)).
Proof.
  apply (oracle_asked_once sample_digest sample_analyze new_handler
           "Something unexpected" "click_element" "page" 0%Z 1%Z); lia.
Defined.

Lemma handle_error_strategy_range_witness :
  let r := handle_error sample_digest sample_analyze new_handler
             "Something unexpected" "click_element" "page" 0%Z in
  (∃ s, r_strategy r.1 = Some s ∧ s ∈ STRATEGIES ∧ get_retry_strategy r.1 = s) ∧
  Forall (λ entry, strategy entry.2 ∈ STRATEGIES) (_error_solution_cache r.2).
Proof.
  apply (handle_error_strategy_range sample_digest sample_analyze new_handler
           "Something unexpected" "click_element" "page" 0%Z); [constructor|lia].
Defined.

Lemma retry_limit_gives_up_witness :
  let r := handle_error sample_digest sample_analyze new_handler
             "Something unexpected" "click_element" "page" 3%Z in
  r_strategy r.1 = None ∧ r_should_retry r.1 = None ∧
  get_retry_strategy r.1 = "wait" ∧
  analysis_requests r.2 = analysis_requests new_handler ∧
  _error_solution_cache r.2 = _error_solution_cache new_handler ∧
  length (error_history r.2) = S (length (error_history new_handler)).
Proof.
  apply (retry_limit_gives_up sample_digest sample_analyze new_handler
           "Something unexpected" "click_element" "page" 3%Z); lia.
Defined.

End ErrorHandlerFacts.

(** ** The action validator *)

Module ActionValidatorFacts.
Import Data ActionValidator DictFacts.

Section Oracle.
Context {page_info : Type} (digest : key_data → string).
Context (oracle_expected_outcome : string → params → string → string).
Context (oracle_outcome_match :
           string → params → string → string → string → page_info → verdict).

Abbreviation validate :=
  (validate_action_result page_info digest oracle_expected_outcome oracle_outcome_match).

(** X23.  A failed action is never accepted: when the result reports
    no success, validate_action_result answers invalid from the heuristic
    alone, with the error text of the result in its message (Unknown
    error when there is none), and neither the cache nor the oracle is
    touched. *)
Theorem failed_action_invalid v action action_params action_result task page :
  success action_result = false →
  let r := validate v action action_params action_result task page in
  is_valid r.1 = false ∧ heuristic r.1 = true ∧ from_cache r.1 = false ∧
  validation_message r.1 =
    "Действие завершилось ошибкой: " +:+ default "Unknown error" (error action_result) ∧
  r.2 = v.
Proof.
  intros Hfail. cbv zeta. unfold validate_action_result, _heuristic_validation.
  cbv zeta. rewrite Hfail. done.
Qed.

(** X24.  validate_action_result consults the oracle only for a
    successful navigate that changed the page or a successful
    click_element that changed the page or opened a modal window or a
    form; and when it does, it asks exactly twice: for the expected
    outcome, then whether the actual outcome matches it. *)
Theorem oracle_only_for_visible_effects v action action_params action_result task page :
  let r := validate v action action_params action_result task page in
  oracle_log r.2 ≠ oracle_log v →
  success action_result = true ∧
  ((action = "navigate" ∧ page_changed action_result = true) ∨
   (action = "click_element" ∧
    (page_changed action_result || new_modals (new_elements_of action_result)
     || new_forms (new_elements_of action_result)) = true)) ∧
  ∃ expected,
    oracle_log r.2 =
      oracle_log v ++
        [AskExpectedOutcome action action_params task;
         AskOutcomeMatch action action_params expected
           (_extract_actual_outcome action_result) task].
Proof.
  cbv zeta. unfold validate_action_result, _heuristic_validation. cbv zeta.
  destruct (success action_result); cbn [negb]; [|done].
  destruct (String.eqb_spec action "navigate") as [->|Hnav].
  { cbn [andb]. destruct (page_changed action_result); cbn [negb]; [|done].
    cbn. destruct (ErrorHandler.dict_get _ _); [done|]. cbn. intros _.
    split; [done|]. split; [by left|]. eexists. by rewrite <- (assoc_L (++)). }
  cbn [andb].
  destruct (String.eqb_spec action "click_element") as [->|Hclick].
  { cbn [andb].
    destruct (page_changed action_result || new_modals (new_elements_of action_result)
              || new_forms (new_elements_of action_result)) eqn:Heff.
    - assert (negb (page_changed action_result)
              && negb (new_modals (new_elements_of action_result))
              && negb (new_forms (new_elements_of action_result)) = false) as ->.
      { by destruct (page_changed _), (new_modals _), (new_forms _). }
      cbn. destruct (ErrorHandler.dict_get _ _); [done|]. cbn. intros _.
      split; [done|]. split; [by right|]. eexists. by rewrite <- (assoc_L (++)).
    - assert (negb (page_changed action_result)
              && negb (new_modals (new_elements_of action_result))
              && negb (new_forms (new_elements_of action_result)) = true) as ->.
      { by destruct (page_changed _), (new_modals _), (new_forms _). }
      done. }
  cbn [andb].
  destruct (String.eqb_spec action "type_text") as [->|Htype]; [done|].
  destruct (ErrorHandler.dict_get _ _); [done|].
  assert (_is_critical_action action = false) as ->.
  { apply bool_decide_eq_false. unfold CRITICAL_ACTIONS.
    rewrite !elem_of_cons, elem_of_nil. intros [?|[?|[?|[]]]]; congruence. }
  done.
Qed.

(** X25.  When the heuristic has no verdict, validating the same
    action and result a second time is answered from the cache: the same
    verdict, message and suggestions, marked from_cache, with no further
    oracle request and no change of the validator. *)
Theorem validation_served_from_cache v action action_params action_result task page :
  _heuristic_validation action action_result = None →
  let first := validate v action action_params action_result task page in
  let second := validate first.2 action action_params action_result task page in
  from_cache second.1 = true ∧
  is_valid second.1 = is_valid first.1 ∧
  validation_message second.1 = validation_message first.1 ∧
  suggestions second.1 = suggestions first.1 ∧
  second.2 = first.2.
Proof.
  intros Hh. cbv zeta. unfold validate_action_result. rewrite Hh.
  destruct (ErrorHandler.dict_get (_validation_cache v) _) as [cached|] eqn:Hget.
  - cbn. rewrite Hget. done.
  - destruct (_is_critical_action action); cbn [negb].
    + destruct (_extract_expected_outcome _ _ _ _ _) as [expected v1] eqn:Hexp.
      assert (_validation_cache v1 = _validation_cache v) as Hv1.
      { unfold _extract_expected_outcome in Hexp.
        destruct (String.eqb action "type_text"); by injection Hexp as <- <-. }
      cbn. rewrite dict_get_evict_snoc by (lia || by rewrite Hv1). done.
    + cbn. rewrite dict_get_snoc by done. done.
Qed.

End Oracle.

Lemma failed_action_invalid_witness :
  let r := validate_action_result unit sample_digest sample_expected_outcome
             sample_outcome_match new_validator "click_element"
             {[ "selector" := "#submit" ]} MainAgent.refused "task" tt in
  is_valid r.1 = false ∧ heuristic r.1 = true ∧ from_cache r.1 = false ∧
  validation_message r.1 =
    "Действие завершилось ошибкой: " +:+
      default "Unknown error" (error MainAgent.refused) ∧
  r.2 = new_validator.
Proof.
  apply (failed_action_invalid sample_digest sample_expected_outcome
           sample_outcome_match new_validator "click_element"
           {[ "selector" := "#submit" ]} MainAgent.refused "task" tt).
  reflexivity.
Defined.

(** A navigation that changed the page. *)
Lemma oracle_only_for_visible_effects_witness :
  let result := MainAgent.with_page_diff quiet_success true "https://example.com"
                  "https://example.com/jobs" "Example Domain" "Jobs" true
                  no_new_elements in
  let r := validate_action_result unit sample_digest sample_expected_outcome
             sample_outcome_match new_validator "navigate"
             {[ "url" := "https://example.com/jobs" ]} result "task" tt in
  success result = true ∧
  (("navigate" = "navigate" ∧ page_changed result = true) ∨
   ("navigate" = "click_element" ∧
    (page_changed result || new_modals (new_elements_of result)
     || new_forms (new_elements_of result)) = true)) ∧
  ∃ expected,
    oracle_log r.2 =
      oracle_log new_validator ++
        [AskExpectedOutcome "navigate" {[ "url" := "https://example.com/jobs" ]} "task";
         AskOutcomeMatch "navigate" {[ "url" := "https://example.com/jobs" ]} expected
           (_extract_actual_outcome result) "task"].
Proof.
  intros result r.
  apply (oracle_only_for_visible_effects sample_digest sample_expected_outcome
           sample_outcome_match new_validator "navigate"
           {[ "url" := "https://example.com/jobs" ]} result "task" tt).
  vm_compute. discriminate.
Defined.

Lemma validation_served_from_cache_witness :
  let first := validate_action_result unit sample_digest sample_expected_outcome
                 sample_outcome_match new_validator "scroll" ∅ quiet_success
                 "task" tt in
  let second := validate_action_result unit sample_digest sample_expected_outcome
                  sample_outcome_match first.2 "scroll" ∅ quiet_success "task" tt in
  from_cache second.1 = true ∧
  is_valid second.1 = is_valid first.1 ∧
  validation_message second.1 = validation_message first.1 ∧
  suggestions second.1 = suggestions first.1 ∧
  second.2 = first.2.
Proof.
  apply (validation_served_from_cache sample_digest sample_expected_outcome
           sample_outcome_match new_validator "scroll" ∅ quiet_success "task" tt).
  reflexivity.
Defined.

End ActionValidatorFacts.

(** ** The security layer *)

Module SecurityFacts.
Import Data SecurityLayer MainAgent.

(** X26.  Only click_element and type_text are ever checked: any other
    action is never classified as destructive, is allowed without
    confirmation and without asking the user, and _execute_action passes
    it to the backend exactly once. *)
Theorem only_clicks_and_typing_guarded callback execute_action action_name parameters :
  action_name ≠ "click_element" → action_name ≠ "type_text" →
  is_destructive_action action_name parameters = (false, "") ∧
  check_action callback action_name parameters =
    ({| allowed := true; requires_confirmation := false; category := None |}, []) ∧
  _execute_action callback execute_action action_name parameters =
    (execute_action action_name parameters, [(action_name, parameters)], []).
Proof.
  intros Hc Ht.
  assert (is_destructive_action action_name parameters = (false, "")) as Hd.
  { unfold is_destructive_action.
    destruct (String.eqb_spec action_name "click_element"); [done|].
    by destruct (String.eqb_spec action_name "type_text"). }
  split; [done|]. unfold _execute_action, check_action. rewrite Hd. done.
Qed.

Lemma only_clicks_and_typing_guarded_witness :
  is_destructive_action "navigate" {[ "url" := "https://shop.example/оплатить" ]}
    = (false, "") ∧
  check_action (Some (λ _, false)) "navigate"
    {[ "url" := "https://shop.example/оплатить" ]} =
    ({| allowed := true; requires_confirmation := false; category := None |}, []) ∧
  _execute_action (Some (λ _, false)) (λ _ _, quiet_success) "navigate"
    {[ "url" := "https://shop.example/оплатить" ]} =
    (quiet_success, [("navigate", {[ "url" := "https://shop.example/оплатить" ]})], []).
Proof.
  apply (only_clicks_and_typing_guarded (Some (λ _, false)) (λ _ _, quiet_success)
           "navigate" {[ "url" := "https://shop.example/оплатить" ]}); discriminate.
Defined.

(** X27.  _execute_action leaves the backend alone exactly when the
    action is classified as destructive, a confirmation callback is
    installed and the callback refuses the description shown to it; in
    particular, without a callback every action reaches the backend. *)
Theorem backend_skipped_iff_refused callback execute_action action_name parameters :
  ((_execute_action callback execute_action action_name parameters).1.2 = [] ↔
   ∃ ask category,
     callback = Some ask ∧
     is_destructive_action action_name parameters = (true, category) ∧
     ask (_format_action_description action_name parameters category) = false) ∧
  (callback = None →
   allowed (check_action callback action_name parameters).1 = true ∧
   _execute_action callback execute_action action_name parameters =
     (execute_action action_name parameters, [(action_name, parameters)], [])).
Proof.
  split.
  2: { intros ->. unfold _execute_action, check_action.
       destruct (is_destructive_action action_name parameters) as [[] category]; done. }
  unfold _execute_action, check_action.
  destruct (is_destructive_action action_name parameters) as [[] category]; cbn.
  - destruct callback as [ask|]; cbn.
    + destruct (ask _) eqn:E; cbn.
      * split; [done|]. intros (ask' & category' & [= <-] & [= <-] & H). congruence.
      * split; [|done]. intros _. by exists ask, category.
    + split; [done|]. by intros (? & ? & ? & _).
  - split; [done|]. by intros (? & ? & _ & ? & _).
Qed.


End SecurityFacts.

(** ** The main loop, the decision request and the prompt warning *)

Module LoopFacts.
Import Data TokenCache Decision MainAgent ContextSpec MainAgentSpec DecisionSpec.

Section Loop.
Context {token : Type} (encode : string → list token) (decode : list token → string).
Context (str_of_element : Page.element → string).
Context (str_of_location : Page.location_context → string).
Context (str_of_visible_modals : Page.visible_modals_info → string).
Context (int_times_0_7 : Z → Z) (int_scaled : nat → Z → nat → Z).
Context (str_of_history : list TokenOptimizer.history_entry → string).
Context (json_dumps str_of_params : params → string).
Context (ENABLE_SUB_AGENTS : bool) (max_iterations : nat).

Abbreviation act' :=
  (act token encode decode str_of_element str_of_location str_of_visible_modals
     int_times_0_7 int_scaled str_of_history json_dumps str_of_params ENABLE_SUB_AGENTS).
Abbreviation pass' :=
  (pass token encode decode str_of_element str_of_location str_of_visible_modals
     int_times_0_7 int_scaled str_of_history json_dumps str_of_params ENABLE_SUB_AGENTS).
Abbreviation loop' :=
  (loop token encode decode str_of_element str_of_location str_of_visible_modals
     int_times_0_7 int_scaled str_of_history json_dumps str_of_params ENABLE_SUB_AGENTS
     max_iterations).
Abbreviation execute_task' :=
  (execute_task token encode decode str_of_element str_of_location str_of_visible_modals
     int_times_0_7 int_scaled str_of_history json_dumps str_of_params ENABLE_SUB_AGENTS
     max_iterations).

Lemma act_progress task ag a current_url action_name action_params c :
  let ag' := agent_after (act' task ag a current_url action_name action_params c).1 in
  current_iteration ag' = current_iteration ag ∧
  ∃ extra, backend_calls ag' = backend_calls ag ++ extra ∧ length extra ≤ 1.
Proof.
  cbv zeta. unfold act.
  destruct (page_diff a current_url action_name)
    as [[page_changed dom_changed] new_elements_info].
  destruct (security_allowed a); rewrite !run_bind;
    (destruct (success _); [|destruct (detect_loop _ _ _)]);
    cbn -[track_progress add_to_history record_action];
    (split; [done|]);
    first [ exists [(action_name, action_params)]; split; [reflexivity|cbn; lia]
          | exists []; rewrite app_nil_r; split; [reflexivity|cbn; lia] ].
Qed.

Lemma pass_progress task ag a c :
  let ag' := agent_after (pass' task ag a c).1 in
  current_iteration ag' = S (current_iteration ag) ∧
  ∃ extra, backend_calls ag' = backend_calls ag ++ extra ∧ length extra ≤ 1.
Proof.
  cbv zeta. unfold pass. cbn [context_manager].
  assert (∃ extra : list (string * params),
            backend_calls ag = backend_calls ag ++ extra ∧ length extra ≤ 1) as Hnone
    by (exists []; rewrite app_nil_r; split; [reflexivity|cbn; lia]).
  destruct (detect_loop _ _ _); [done|].
  rewrite run_bind.
  destruct (decision_taken a) as [action_name action_params|error]; [|done].
  destruct (String.eqb action_name "task_complete").
  - destruct (negb _); [by rewrite run_bind|].
    destruct (completion a) as [check|]; [|done].
    destruct (negb _); [by rewrite run_bind|done].
  - match goal with |- context [act _ _ _ _ _ _ _ _ _ _ _ _ ?t ?g ?a' ?u ?n ?p ?c'] =>
      destruct (act_progress t g a' u n p c') as [Hi He] end.
    by rewrite Hi.
Qed.

(** X28.  A run of execute_task never makes more passes than
    max_iterations, and it calls the action backend at most once per
    pass: the backend calls of the run extend those made before it by at
    most as many calls as there were passes. *)
Theorem run_bounded task script ag c :
  let x :=
    (execute_task token encode decode str_of_element str_of_location
       str_of_visible_modals int_times_0_7 int_scaled str_of_history json_dumps
       str_of_params ENABLE_SUB_AGENTS max_iterations task script ag c).1 in
  current_iteration x.2 ≤ max_iterations ∧
  ∃ calls, backend_calls x.2 = backend_calls ag ++ calls ∧
           length calls ≤ current_iteration x.2.
Proof.
  cbv zeta. unfold execute_task.
  assert (∀ n ag c,
            let x := (loop' task script n ag c).1 in
            current_iteration x.2 ≤ current_iteration ag + n ∧
            current_iteration ag ≤ current_iteration x.2 ∧
            ∃ calls, backend_calls x.2 = backend_calls ag ++ calls ∧
                     length calls ≤ current_iteration x.2 - current_iteration ag) as Hloop.
  { clear ag c. induction n as [|n IH]; intros ag c; cbn [loop].
    - cbn. split; [lia|]. split; [lia|]. exists []. rewrite app_nil_r.
      split; [reflexivity|cbn; lia].
    - rewrite run_bind.
      destruct (pass_progress task ag (script (current_iteration ag)) c)
        as (Hi & extra & He & Hl).
      destruct (pass _ _ _ _ _ _ _ _ _ _ _ _ _ _ _ _).1 as [ag'|r ag']; cbn in Hi, He.
      + match goal with |- context [loop _ _ _ _ _ _ _ _ _ _ _ _ _ _ _ _ _ ?c'] =>
          destruct (IH ag' c') as (IH1 & IH2 & calls & IH3 & IH4) end.
        split; [lia|]. split; [lia|]. exists (extra ++ calls).
        rewrite IH3, He, <- (assoc_L (++)). split; [done|]. rewrite length_app. lia.
      + cbn. split; [lia|]. split; [lia|]. exists extra. split; [done|]. lia. }
  match goal with |- context [loop _ _ _ _ _ _ _ _ _ _ _ _ _ ?t ?s ?n ?g ?c'] =>
    destruct (Hloop n g c') as (H1 & _ & calls & H3 & H4) end.
  cbn in H1, H3, H4. split; [lia|]. exists calls. split; [done|]. lia.
Qed.

End Loop.

Section Decide.
Context (json_loads : string → loads_result).
Context {token : Type} (encode : string → list token).
Context (system_prompt : string) (tools_str : option string) (MAX_REQUEST_TOKENS : Z).
Context (build_user_message : string → string → string).
Context {page : Type} (prepare : page → option Z → M string).
Context (oracle : request → oracle_response).
Context (ENABLE_SUB_AGENTS : bool) (advisor : advice_request → option string).

(** X29.  _decide_action sends at most two requests to the model.  With
    ENABLE_SUB_AGENTS set it first makes a sub-agent ask for a
    recommendation, once; otherwise it asks for none.  Then it sends at
    most one request for the decision and rebuilds the context at most
    once; it reports a decision exactly when it sent that request and the
    reply to it was a tool call. *)
Theorem one_request_per_decision context task (page_info : page) c :
  let trace :=
    (_decide_action json_loads token encode system_prompt tools_str MAX_REQUEST_TOKENS
       build_user_message page prepare oracle ENABLE_SUB_AGENTS advisor
       context task page_info c).1 in
  length (advice_requested trace) = (if ENABLE_SUB_AGENTS then 1 else 0) ∧
  length (requests_sent trace) ≤ 1 ∧
  length (rederived_at trace) ≤ length (requests_sent trace) ∧
  (decided (decision_made trace) = true ↔
   ∃ req function_name arguments,
     requests_sent trace = [req] ∧ oracle req = ToolCall function_name arguments).
Proof.
  cbv zeta. split.
  { rewrite advice_requested_spec. apply advice_requests. }
  unfold _decide_action. cbv zeta. rewrite run_bind.
  assert (∀ req, decided (decision_of_response json_loads (oracle req)) = true ↔
                 ∃ req' function_name arguments,
                   [req] = [req'] ∧ oracle req' = ToolCall function_name arguments) as Hd.
  { intros req. split.
    - destruct (oracle req) eqn:E; cbn; try done. intros _. by eexists _, _, _.
    - intros (req' & f & args & [= <-] & ->). done. }
  destruct (_ <? _)%Z.
  - rewrite !run_bind. destruct (_ <? _)%Z.
    + rewrite !run_bind. cbn. split; [lia|]. split; [lia|]. apply Hd.
    + cbn. split; [lia|]. split; [lia|]. split; [done|]. by intros (? & ? & ? & ? & _).
  - cbn. split; [lia|]. split; [lia|]. apply Hd.
Qed.

End Decide.

Lemma loop_warning_truthy sig n : Py.truthy (loop_warning sig n) = true.
Proof.
  unfold loop_warning. cbn [Py.join]. rewrite PyFacts.app_nil_l.
  unfold Page.nl. by rewrite PyFacts.app_cons.
Qed.

Lemma repeats_before_two sig earlier :
  2 ≤ repeats_before sig earlier ↔
  ∃ rest, earlier = (sig, false) :: (sig, false) :: rest.
Proof.
  split.
  - destruct earlier as [|[s1 p1] [|[s2 p2] rest]]; cbn.
    + lia.
    + destruct (_ && _); cbn; lia.
    + destruct (String.eqb_spec s1 sig) as [->|]; cbn; [|lia].
      destruct p1; cbn; [lia|].
      destruct (String.eqb_spec s2 sig) as [->|]; cbn; [|lia].
      destruct p2; cbn; [lia|]. intros _. by exists rest.
  - intros [rest ->]. cbn. rewrite String.eqb_refl. cbn. lia.
Qed.

(** X30.  _detect_consecutive_loop warns exactly when the last three
    recorded actions carry the same signature (action name and
    description, element description or address) and none of the three
    changed the page. *)
Theorem loop_warning_iff recent_actions :
  Py.truthy (_detect_consecutive_loop recent_actions) = true ↔
  ∃ older a b c,
    recent_actions = older ++ [a; b; c] ∧
    (loop_signature a).1 = (loop_signature c).1 ∧
    (loop_signature b).1 = (loop_signature c).1 ∧
    (loop_signature a).2 = false ∧ (loop_signature b).2 = false ∧
    (loop_signature c).2 = false.
Proof.
  unfold _detect_consecutive_loop. split.
  - case_bool_decide as Hlen; [done|].
    destruct (rev (map loop_signature recent_actions)) as [|[ls lpc] earlier] eqn:Hrev;
      [done|].
    cbv zeta. case_bool_decide as Hrep; [|done]. destruct lpc; [done|]. intros _.
    assert (2 ≤ repeats_before ls earlier) as [rest ->]%repeats_before_two by lia.
    rewrite <- map_rev in Hrev.
    destruct (rev recent_actions) as [|c [|b [|a older]]] eqn:Hl; try done.
    set (f := loop_signature) in *. clearbody f.
    cbn [map] in Hrev. injection Hrev as Hc Hb Ha _.
    exists (rev older), a, b, c.
    split.
    { rewrite <- (rev_involutive recent_actions), Hl. cbn.
      by rewrite <- !(assoc_L (++)). }
    rewrite Hc, Hb, Ha. done.
  - intros (older & a & b & c & -> & Ha & Hb & Hpa & Hpb & Hpc).
    rewrite bool_decide_eq_false_2 by (rewrite length_app; cbn; lia).
    rewrite map_app, rev_app_distr. cbn [map rev app].
    destruct (loop_signature a) as [sa pa], (loop_signature b) as [sb pb],
      (loop_signature c) as [sc pc]. cbn in *. subst.
    rewrite String.eqb_refl. cbn [andb negb].
    rewrite bool_decide_eq_true_2 by lia. apply loop_warning_truthy.
Qed.


End LoopFacts.
